(** * Weekly attendance tracker: a shallow embedding of [weeklyAttTrackV2.py]

    The development follows the pipeline of the script: the consolidator,
    the ledger (base file) rollover, the trend and threshold evaluator, the
    auxiliary merge, the categoriser and the school-code filter.

    Conventions of the embedding.
    - Python numbers read from the extracts are IEEE-754 doubles
      ([PrimFloat.float]); integer-valued cells are the doubles of the same
      value (exact below 2^53).
    - A Python [dict] keyed by student number is an insertion-ordered
      association list ([PyDict]).
    - A raised exception is a value of [exn] in the [result] monad.
    - A dictionary key that the code tests for, or reads with [.get], is an
      [option] field: [None] is "key absent". *)

From Stdlib Require Import ZArith List Ascii String DecimalString Bool Lia Floats.
Import ListNotations.

Open Scope Z_scope.
Open Scope string_scope.

(** ** Exceptions *)

Inductive exn : Type :=
| UnboundLocalError
| KeyError
| TypeError
| FileNotFoundError
| PermissionError
| SameFileError
| EmptyDataError
| ParserError.

Inductive result (A : Type) : Type :=
| Ok (a : A)
| Raise (e : exn).

Arguments Ok {A} a.
Arguments Raise {A} e.

Definition bind {A B : Type} (m : result A) (k : A -> result B) : result B :=
  match m with
  | Ok a => k a
  | Raise e => Raise e
  end.

Notation "x <- m ;; k" := (bind m (fun x => k))
  (at level 61, m at next level, right associativity).

(** [d[key]] on an optional key: [KeyError] when the key is absent. *)
Definition subscript {A : Type} (o : option A) : result A :=
  match o with
  | Some a => Ok a
  | None => Raise KeyError
  end.

(** Reading a local variable that may not have been assigned yet. *)
Definition read_local {A : Type} (o : option A) : result A :=
  match o with
  | Some a => Ok a
  | None => Raise UnboundLocalError
  end.

(** ** Numbers *)

Module Num.

Definition lt (x y : float) : bool := PrimFloat.ltb x y.
Definition gt (x y : float) : bool := PrimFloat.ltb y x.
Definition le (x y : float) : bool := PrimFloat.leb x y.
Definition ge (x y : float) : bool := PrimFloat.leb y x.

(** Python's [min(a, b)]: [b] when [b < a], otherwise [a]. *)
Definition min (a b : float) : float := if lt b a then b else a.

(** [round_half_even n d] is the integer nearest to [n / d], ties to even
    ([0 < d]). *)
Definition round_half_even (n d : Z) : Z :=
  let q := n / d in
  let r := n mod d in
  match 2 * r ?= d with
  | Lt => q
  | Gt => q + 1
  | Eq => if Z.even q then q else q + 1
  end.

(** The integer nearest to [|x| * 100] for a finite [x], computed on the
    exact binary value [m * 2^e] of the double. *)
Definition hundredths (s : spec_float) : option Z :=
  match s with
  | S754_zero _ => Some 0
  | S754_finite _ m e =>
      Some (match e with
            | Z0 => Zpos m * 100
            | Zpos p => Zpos m * 100 * 2 ^ Zpos p
            | Zneg p => round_half_even (Zpos m * 100) (2 ^ Zpos p)
            end)
  | _ => None
  end.

Definition two_pow_46 : float := 70368744177664%float.

(** Python's [round(x, 2)] on a double: infinities and NaN round to
    themselves; a finite [x] goes to the double nearest to the decimal with
    two places nearest to the exact value of [x], ties to even.  From 2^46
    on the spacing of doubles exceeds 0.01 and [x] is its own rounding;
    below, the number of hundredths fits 53 bits and the division by [100]
    is the correctly rounded one. *)
Definition round2 (x : float) : float :=
  match hundredths (Prim2SF x) with
  | None => x
  | Some n =>
      if lt (PrimFloat.abs x) two_pow_46 then
        let q := (PrimFloat.of_uint63 (Uint63.of_Z n) / 100)%float in
        if PrimFloat.get_sign x then PrimFloat.opp q else q
      else x
  end.

End Num.

(** ** Insertion-ordered dictionaries keyed by student number *)

Module PyDict.

Section Dict.
Context {V : Type}.

Definition t := list (Z * V).

Fixpoint get (k : Z) (d : list (Z * V)) : option V :=
  match d with
  | [] => None
  | (k', v) :: d' => if Z.eqb k k' then Some v else get k d'
  end.

Definition mem (k : Z) (d : list (Z * V)) : bool :=
  match get k d with
  | Some _ => true
  | None => false
  end.

(** [d[k] = v]: an existing key keeps its position, a new key goes
    last. *)
Fixpoint set (k : Z) (v : V) (d : list (Z * V)) : list (Z * V) :=
  match d with
  | [] => [(k, v)]
  | (k', v') :: d' =>
      if Z.eqb k k' then (k', v) :: d' else (k', v') :: set k v d'
  end.

Definition keys (d : list (Z * V)) : list Z := map fst d.
Definition values (d : list (Z * V)) : list V := map snd d.

End Dict.

End PyDict.

(** ** Data model *)

(** One row of an attendance table ([df.to_dict(orient='records')]).  The two
    keys that [prime_results] tests for are optional; the other columns of
    the attendance extract are taken to be present. *)
Record row : Type := mk_row {
  student_number : option Z;
  name : string;
  grade : string;
  hrs_attended : float;
  hrs_absent : float;
  hrs_possible : float;
  ind_att_percent : option float
}.

(** A value of a school-code cell: a code read from the demographic extract
    or, after [map_school_codes], a school name. *)
Inductive school_value : Type :=
| CodeNone
| CodeInt (n : Z)
| CodeNaN
| CodeStr (s : string).

(** The per-student record of the results dictionary.  The fields of
    [prime_results] are always present; every later field is a key that a
    later stage adds, [None] while the key is absent.  The value under
    ['one_week_back_percent'] may itself be Python's [None]. *)
Record student_result : Type := mk_result {
  res_student_number : Z;
  res_name : string;
  res_grade : string;
  current_week_att_percent : float;
  below_90_1_week : bool;
  one_week_back_percent : option (option float);
  below_90_2_weeks : option bool;
  trend_1_week : option string;
  two_weeks_back_percent : option float;
  below_90_3_weeks : option bool;
  trend_2_weeks : option string;
  attending_school : option school_value;
  school_of_residence : option school_value;
  med_full_days : option Z;
  med_partial_days : option Z;
  med_absence_percent : option float;
  best_case_attendance_percent : option float
}.

Definition result_map : Type := list (Z * student_result).

(** [r.update({'one_week_back_percent': v, 'below_90_2_weeks': b,
    'trend_1_week': t})] *)
Definition update_one_week (r : student_result) (v : option float) (b : bool)
    (t : string) : student_result :=
  mk_result (res_student_number r) (res_name r) (res_grade r)
    (current_week_att_percent r) (below_90_1_week r)
    (Some v) (Some b) (Some t)
    (two_weeks_back_percent r) (below_90_3_weeks r) (trend_2_weeks r)
    (attending_school r) (school_of_residence r)
    (med_full_days r) (med_partial_days r) (med_absence_percent r)
    (best_case_attendance_percent r).

(** [r.update({'two_weeks_back_percent': v, 'below_90_3_weeks': b,
    'trend_2_weeks': t})] *)
Definition update_two_weeks (r : student_result) (v : float) (b : bool)
    (t : string) : student_result :=
  mk_result (res_student_number r) (res_name r) (res_grade r)
    (current_week_att_percent r) (below_90_1_week r)
    (one_week_back_percent r) (below_90_2_weeks r) (trend_1_week r)
    (Some v) (Some b) (Some t)
    (attending_school r) (school_of_residence r)
    (med_full_days r) (med_partial_days r) (med_absence_percent r)
    (best_case_attendance_percent r).

(** ** Trend and threshold evaluator *)

Definition ninety : float := 90%float.

(** [prime_results]: one entry per row that carries both keys; a row that
    lacks one is reported and skipped. *)
Definition prime_entry (results : result_map) (student : row) : result_map :=
  match student_number student, ind_att_percent student with
  | Some student_id, Some current_att_percent =>
      PyDict.set student_id
        (mk_result student_id (name student) (grade student)
           current_att_percent (Num.lt current_att_percent ninety)
           None None None None None None None None None None None None)
        results
  | _, _ => results
  end.

Definition prime_results (current_week_data : list row) : result_map :=
  fold_left prime_entry current_week_data [].

(** [next((s for s in data if s['student_number'] == student_id), None)]:
    the rows are inspected in order up to the first match; inspecting a row
    without the key raises. *)
Fixpoint next_match (data : list row) (student_id : Z) : result (option row) :=
  match data with
  | [] => Ok None
  | s :: data' =>
      k <- subscript (student_number s) ;;
      if Z.eqb k student_id then Ok (Some s) else next_match data' student_id
  end.

(** The conditional expression that labels a trend against a prior percent
    that may be [None]. *)
Definition trend_1 (current_att_percent : float) (prior : option float) : string :=
  match prior with
  | Some p =>
      if Num.gt current_att_percent p then "Up"
      else if Num.lt current_att_percent p then "Down"
      else "No Change"
  | None => "N/A"
  end.

(** [current < 90 and prior is not None and prior < 90] *)
Definition below_2 (current_att_percent : float) (prior : option float) : bool :=
  Num.lt current_att_percent ninety &&
  match prior with
  | Some p => Num.lt p ninety
  | None => false
  end.

(** One iteration of the loop of [compare_one_week_back].  The local
    [one_week_att_percent] is assigned only when a match is found, so it is
    threaded through the iterations: [None] is "not assigned yet". *)
Definition one_week_iteration (one_week_back_data : list row)
    (st : option (option float) * result_map) (student : row)
    : result (option (option float) * result_map) :=
  let '(one_week_att_percent, results) := st in
  student_id <- subscript (student_number student) ;;
  current_att_percent <- subscript (ind_att_percent student) ;;
  one_week_student <- next_match one_week_back_data student_id ;;
  let one_week_att_percent :=
    match one_week_student with
    | Some s => Some (ind_att_percent s)
    | None => one_week_att_percent
    end in
  below_90_2_weeks <-
    (if Num.lt current_att_percent ninety
     then v <- read_local one_week_att_percent ;; Ok (below_2 current_att_percent v)
     else Ok false) ;;
  r <- subscript (PyDict.get student_id results) ;;
  v <- read_local one_week_att_percent ;;
  Ok (Some v,
      PyDict.set student_id
        (update_one_week r v below_90_2_weeks (trend_1 current_att_percent v))
        results).

Fixpoint one_week_loop (one_week_back_data current_week_data : list row)
    (st : option (option float) * result_map)
    : result (option (option float) * result_map) :=
  match current_week_data with
  | [] => Ok st
  | student :: rest =>
      st' <- one_week_iteration one_week_back_data st student ;;
      one_week_loop one_week_back_data rest st'
  end.

Definition compare_one_week_back (current_week_data one_week_back_data : list row)
    (results : result_map) : result result_map :=
  match one_week_back_data with
  | [] => Ok results
  | _ :: _ =>
      st <- one_week_loop one_week_back_data current_week_data (None, results) ;;
      Ok (snd st)
  end.

(** [x < 90] where [x] may be [None]: comparing [None] raises. *)
Definition lt_ninety (x : option float) : result bool :=
  match x with
  | Some p => Ok (Num.lt p ninety)
  | None => Raise TypeError
  end.

(** The trend expression of [compare_two_weeks_back]: the comparison comes
    first, so a [None] prior percent raises. *)
Definition trend_2 (current_att_percent : float) (prior : option float)
    : result string :=
  match prior with
  | Some p =>
      Ok (if Num.gt current_att_percent p then "Up"
          else if Num.lt current_att_percent p then "Down"
          else "No Change")
  | None => Raise TypeError
  end.

Definition two_weeks_iteration (two_weeks_back_data : list row)
    (results : result_map) (student : row) : result result_map :=
  student_id <- subscript (student_number student) ;;
  current_att_percent <- subscript (ind_att_percent student) ;;
  two_weeks_student <- next_match two_weeks_back_data student_id ;;
  match two_weeks_student with
  | None => Ok results
  | Some s =>
      let two_weeks_att_percent := ind_att_percent s in
      below_90_3_weeks <-
        (if Num.lt current_att_percent ninety then
           r <- subscript (PyDict.get student_id results) ;;
           one <- subscript (one_week_back_percent r) ;;
           b1 <- lt_ninety one ;;
           if b1 then lt_ninety two_weeks_att_percent else Ok false
         else Ok false) ;;
      r <- subscript (PyDict.get student_id results) ;;
      t <- trend_2 current_att_percent two_weeks_att_percent ;;
      v <- subscript two_weeks_att_percent ;;
      Ok (PyDict.set student_id (update_two_weeks r v below_90_3_weeks t) results)
  end.

Fixpoint two_weeks_loop (two_weeks_back_data current_week_data : list row)
    (results : result_map) : result result_map :=
  match current_week_data with
  | [] => Ok results
  | student :: rest =>
      results' <- two_weeks_iteration two_weeks_back_data results student ;;
      two_weeks_loop two_weeks_back_data rest results'
  end.

Definition compare_two_weeks_back (current_week_data two_weeks_back_data : list row)
    (results : result_map) : result result_map :=
  match two_weeks_back_data with
  | [] => Ok results
  | _ :: _ => two_weeks_loop two_weeks_back_data current_week_data results
  end.

Definition flag_attendance_issues (current_week one_week_back two_weeks_back : list row)
    : result result_map :=
  let results := prime_results current_week in
  results <- compare_one_week_back current_week one_week_back results ;;
  compare_two_weeks_back current_week two_weeks_back results.

(** ** Consolidator *)

Definition zero : float := 0%float.
Definition hundred : float := 100%float.

(** The record that [consolidate_attendance] creates on the first row of a
    student. *)
Definition fresh_record (student_id : Z) (record : row) : row :=
  mk_row (Some student_id) (name record) (grade record) zero zero zero (Some zero).

(** One iteration of the loop of [consolidate_attendance].  The local
    [attendance_percentage] is assigned only under [total_possible > 0] and
    read by the last statement of the body whatever the branch, so it is
    threaded through the iterations. *)
Definition consolidate_iteration (st : option float * list (Z * row)) (record : row)
    : result (option float * list (Z * row)) :=
  let '(attendance_percentage, consolidated_data) := st in
  student_id <- subscript (student_number record) ;;
  let consolidated_data :=
    if PyDict.mem student_id consolidated_data then consolidated_data
    else PyDict.set student_id (fresh_record student_id record) consolidated_data in
  entry <- subscript (PyDict.get student_id consolidated_data) ;;
  let total_attended := (hrs_attended entry + hrs_attended record)%float in
  let total_absent := (hrs_absent entry + hrs_absent record)%float in
  let total_possible := (hrs_possible entry + hrs_possible record)%float in
  let attendance_percentage :=
    if Num.gt total_possible zero
    then Some (total_attended / total_possible * hundred)%float
    else attendance_percentage in
  p <- read_local attendance_percentage ;;
  Ok (attendance_percentage,
      PyDict.set student_id
        (mk_row (student_number entry) (name entry) (grade entry)
           total_attended total_absent total_possible (Some (Num.round2 p)))
        consolidated_data).

Fixpoint consolidate_loop (attendance_data : list row)
    (st : option float * list (Z * row)) : result (option float * list (Z * row)) :=
  match attendance_data with
  | [] => Ok st
  | record :: rest =>
      st' <- consolidate_iteration st record ;;
      consolidate_loop rest st'
  end.

Definition consolidate_attendance (attendance_data : list row) : result (list row) :=
  st <- consolidate_loop attendance_data (None, []) ;;
  Ok (filter (fun data => Num.gt (hrs_possible data) zero) (PyDict.values (snd st))).

(** ** Files *)

(** A row of the base file: an attendance row and its [weekly_value]. *)
Record ledger_entry : Type := mk_entry {
  entry_row : row;
  weekly_value : Z
}.

(** A [DataFrame] of the pipeline: a table without a [weekly_value] column
    (in particular [pd.DataFrame()], the table without rows or columns) or a
    table with one. *)
Inductive data_frame : Type :=
| Table (rows : list row)
| Ledger (entries : list ledger_entry).

Definition empty_frame : data_frame := Table [].

Definition column_mapping : Type := list (string * string).

(** A file is described by what [pd.read_csv], the stripping of the headers
    and [rename(columns=column_mapping)] make of it under a mapping: a data
    frame, or the exception one of the three raises. *)
Definition file : Type := column_mapping -> result data_frame.

(** The file that [df.to_csv(path, index=False)] writes carries the
    canonical column names, which the mappings of [main] leave alone. *)
Definition to_csv_file (df : data_frame) : file := fun _ => Ok df.

Inductive event : Type :=
| Copied (src dst : string)
| Wrote (path : string).

(** The part of the world that the ledger functions touch.  Every path
    names a file of its own: the world has no links and no second spelling
    of a path, so two paths are the same file only when they are equal. *)
Record world : Type := mk_world {
  files : string -> option file;
  writable : string -> bool;
  stdout : list string;
  events : list event
}.

Definition put_file (path : string) (f : file) (w : world) : world :=
  mk_world (fun p => if String.eqb p path then Some f else files w p)
    (writable w) (stdout w) (events w).

Definition print (line : string) (w : world) : world :=
  mk_world (files w) (writable w) (stdout w ++ [line])%list (events w).

Definition record_event (e : event) (w : world) : world :=
  mk_world (files w) (writable w) (stdout w) (events w ++ [e])%list.

(** The [try] block of [read_csv]. *)
Definition read_and_rename (w : world) (file_path : string)
    (mapping : column_mapping) : result data_frame :=
  match files w file_path with
  | None => Raise FileNotFoundError
  | Some f => f mapping
  end.

(** [read_csv]; the second message ends, in the code, with a colon and the
    text of the exception, which an [exn] does not carry. *)
Definition read_csv (file_path : string) (mapping : column_mapping) (w : world)
    : data_frame * world :=
  match read_and_rename w file_path mapping with
  | Ok df => (df, w)
  | Raise FileNotFoundError =>
      (empty_frame, print ("Error: The file " ++ file_path ++ " was not found.") w)
  | Raise _ =>
      (empty_frame,
       print ("An error occurred while reading the file " ++ file_path) w)
  end.

Definition df_to_dict (df : data_frame) : list row :=
  match df with
  | Table rows => rows
  | Ledger entries => map entry_row entries
  end.

Definition base_file_exists (base_file_path : string) (w : world) : bool :=
  match files w base_file_path with
  | Some _ => true
  | None => false
  end.

(** [pd.DataFrame(current_week_data)] with [df['weekly_value'] = -1]. *)
Definition prepare_current_week_data (current_week_data : list row)
    : list ledger_entry :=
  map (fun r => mk_entry r (-1)) current_week_data.

(** [df[df['weekly_value'] != -3]] *)
Definition clean_base_file (df : list ledger_entry) : list ledger_entry :=
  filter (fun e => negb (Z.eqb (weekly_value e) (-3))) df.

(** [pandas] holds the column as [int64]: the subtraction wraps around. *)
Definition int64_wrap (z : Z) : Z :=
  (z + 2 ^ 63) mod 2 ^ 64 - 2 ^ 63.

Definition decrement_weekly_value (e : ledger_entry) : ledger_entry :=
  mk_entry (entry_row e) (int64_wrap (weekly_value e - 1)).

(** *** Paths ([os.path], POSIX flavour) *)

Module Path.

Definition slash : Ascii.ascii := "/"%char.
Definition dot : Ascii.ascii := "."%char.

(** [rsplit c s]: the parts of [s] before and after the last [c]. *)
Fixpoint rsplit (c : Ascii.ascii) (s : string) : option (string * string) :=
  match s with
  | EmptyString => None
  | String a s' =>
      match rsplit c s' with
      | Some (before, after) => Some (String a before, after)
      | None => if Ascii.eqb a c then Some (EmptyString, s') else None
      end
  end.

Fixpoint all_chars (c : Ascii.ascii) (s : string) : bool :=
  match s with
  | EmptyString => true
  | String a s' => Ascii.eqb a c && all_chars c s'
  end.

(** [s.rstrip('/')] *)
Fixpoint rstrip_slash (s : string) : string :=
  match s with
  | EmptyString => EmptyString
  | String a s' =>
      match rstrip_slash s' with
      | EmptyString => if Ascii.eqb a slash then EmptyString else String a EmptyString
      | t => String a t
      end
  end.

(** [os.path.split] *)
Definition split (p : string) : string * string :=
  match rsplit slash p with
  | None => (EmptyString, p)
  | Some (before, tail) =>
      let head := String.append before (String slash EmptyString) in
      (if all_chars slash head then head else rstrip_slash head, tail)
  end.

(** [os.path.splitext] on a name without separator: the extension starts
    at the last dot, unless only dots precede it. *)
Definition splitext (p : string) : string * string :=
  match rsplit dot p with
  | None => (p, EmptyString)
  | Some (before, after) =>
      if all_chars dot before then (p, EmptyString)
      else (before, String dot after)
  end.

Definition ends_with_slash (s : string) : bool :=
  match rsplit slash s with
  | Some (_, EmptyString) => true
  | _ => false
  end.

(** [os.path.join(a, b)] *)
Definition join (a b : string) : string :=
  match b with
  | String c _ =>
      if Ascii.eqb c slash then b
      else if (String.eqb a EmptyString || ends_with_slash a)%bool
           then String.append a b
           else String.append a (String slash b)
  | EmptyString =>
      if (String.eqb a EmptyString || ends_with_slash a)%bool
      then a else String.append a (String slash EmptyString)
  end.

End Path.

(** [datetime.now()], as far as [strftime('%m-%d-%H-%M-%S')] reads it. *)
Record datetime : Type := mk_datetime {
  month : nat;
  day : nat;
  hour : nat;
  minute : nat;
  second : nat
}.

Definition digit (n : nat) : Ascii.ascii :=
  Ascii.ascii_of_nat (48 + n mod 10).

Definition two_digits (n : nat) : string :=
  String (digit (n / 10)) (String (digit n) EmptyString).

Definition strftime (now : datetime) : string :=
  two_digits (month now) ++ "-" ++ two_digits (day now) ++ "-" ++
  two_digits (hour now) ++ "-" ++ two_digits (minute now) ++ "-" ++
  two_digits (second now).

Definition backup_file_path (base_file_path : string) (now : datetime) : string :=
  let '(dir_name, file_name) := Path.split base_file_path in
  let '(file_base, file_ext) := Path.splitext file_name in
  let timestamp := strftime now in
  let backup_file_name := file_base ++ "_" ++ timestamp ++ file_ext in
  Path.join dir_name backup_file_name.

(** *** Effects on the world *)

Definition io (A : Type) : Type := world -> result A * world.

(** [shutil.copy2(src, dst)]; in a world without links the two paths are
    the same file when they are the same string. *)
Definition copy2 (src dst : string) : io unit :=
  fun w =>
    match files w src with
    | None => (Raise FileNotFoundError, w)
    | Some f =>
        if String.eqb src dst then (Raise SameFileError, w)
        else if writable w dst
             then (Ok tt, record_event (Copied src dst) (put_file dst f w))
             else (Raise PermissionError, w)
    end.

(** [df.to_csv(path, index=False)] *)
Definition to_csv (df : data_frame) (path : string) : io unit :=
  fun w =>
    if writable w path
    then (Ok tt, record_event (Wrote path) (put_file path (to_csv_file df) w))
    else (Raise PermissionError, w).

Definition create_backup (now : datetime) (base_file_path : string) : io unit :=
  copy2 base_file_path (backup_file_path base_file_path now).

Definition initialize_base_file (current_week_data : list row)
    (base_file_path : string) : io unit :=
  to_csv (Ledger (prepare_current_week_data current_week_data)) base_file_path.

(** [df['weekly_value']] on a frame: [KeyError] without the column. *)
Definition weekly_values (df : data_frame) : result (list ledger_entry) :=
  match df with
  | Ledger entries => Ok entries
  | Table _ => Raise KeyError
  end.

Definition update_base_file (TESTING_MODE : bool) (now : datetime)
    (current_week_data : list row) (base_file_path : string)
    (mapping : column_mapping) : io unit :=
  fun w =>
    if TESTING_MODE then
      (Ok tt, print "Testing mode is ON. Skipping base file update." w)
    else if negb (base_file_exists base_file_path w) then
      initialize_base_file current_week_data base_file_path w
    else
      match create_backup now base_file_path w with
      | (Raise e, w1) => (Raise e, w1)
      | (Ok _, w1) =>
          let '(df, w2) := read_csv base_file_path mapping w1 in
          match weekly_values df with
          | Raise e => (Raise e, w2)
          | Ok entries =>
              let df := map decrement_weekly_value entries in
              let df := clean_base_file df in
              let current_week_df := prepare_current_week_data current_week_data in
              let updated_df := (df ++ current_week_df)%list in
              to_csv (Ledger updated_df) base_file_path w2
          end
      end.

Definition read_previous_weeks (base_file_path : string) (mapping : column_mapping)
    : io (list ledger_entry * list ledger_entry) :=
  fun w =>
    let '(df, w1) := read_csv base_file_path mapping w in
    match weekly_values df with
    | Raise e => (Raise e, w1)
    | Ok entries =>
        (Ok (filter (fun e => Z.eqb (weekly_value e) (-1)) entries,
             filter (fun e => Z.eqb (weekly_value e) (-2)) entries), w1)
    end.

Definition input_attendance_data (new_report base_file : string)
    (mapping : column_mapping) : io (list row * list row * list row) :=
  fun w =>
    let '(df, w1) := read_csv new_report mapping w in
    match consolidate_attendance (df_to_dict df) with
    | Raise e => (Raise e, w1)
    | Ok current_week_data =>
        if base_file_exists base_file w1 then
          match read_previous_weeks base_file mapping w1 with
          | (Raise e, w2) => (Raise e, w2)
          | (Ok (one_week_prior_df, two_weeks_prior_df), w2) =>
              (Ok (current_week_data,
                   map entry_row one_week_prior_df,
                   map entry_row two_weeks_prior_df), w2)
          end
        else (Ok (current_week_data, [], []), w1)
    end.

(** The first four steps of [main]: read the snapshots, then prime and
    compare. *)
Definition comparison_pipeline (new_report base_file : string)
    (mapping : column_mapping) : io result_map :=
  fun w =>
    match input_attendance_data new_report base_file mapping w with
    | (Raise e, w1) => (Raise e, w1)
    | (Ok (current_week_data, one_week_back_data, two_weeks_back_data), w1) =>
        let results := prime_results current_week_data in
        (results <- compare_one_week_back current_week_data one_week_back_data results ;;
         compare_two_weeks_back current_week_data two_weeks_back_data results,
         w1)
    end.

(** ** Auxiliary merge *)

(** A row of the demographic extract, as far as the school codes go. *)
Record ps_row : Type := mk_ps_row {
  ps_student_number : Z;
  ps_attending_school : school_value;
  ps_school_of_residence : school_value
}.

Definition update_schools (r : student_result) (attending residence : school_value)
    : student_result :=
  mk_result (res_student_number r) (res_name r) (res_grade r)
    (current_week_att_percent r) (below_90_1_week r)
    (one_week_back_percent r) (below_90_2_weeks r) (trend_1_week r)
    (two_weeks_back_percent r) (below_90_3_weeks r) (trend_2_weeks r)
    (Some attending) (Some residence)
    (med_full_days r) (med_partial_days r) (med_absence_percent r)
    (best_case_attendance_percent r).

Definition update_med (r : student_result) (full partial : Z) (percent best : float)
    : student_result :=
  mk_result (res_student_number r) (res_name r) (res_grade r)
    (current_week_att_percent r) (below_90_1_week r)
    (one_week_back_percent r) (below_90_2_weeks r) (trend_1_week r)
    (two_weeks_back_percent r) (below_90_3_weeks r) (trend_2_weeks r)
    (attending_school r) (school_of_residence r)
    (Some full) (Some partial) (Some percent) (Some best).

(** The double of an integer: the sign apart, the magnitude goes through
    the unsigned 63-bit conversion, which is exact below [2 ^ 53].  On
    integers of that size the true division [a / b] of two [int]s is the
    division of their doubles. *)
Definition float_of_count (n : Z) : float :=
  if Z.ltb n 0 then (- PrimFloat.of_uint63 (Uint63.of_Z (- n)))%float
  else PrimFloat.of_uint63 (Uint63.of_Z n).

Section Merge.

(** The module constant [TOTAL_SCHOOL_DAYS]. *)
Variable TOTAL_SCHOOL_DAYS : Z.

Definition calculate_med_absence_percentage (med_full_days med_partial_days : Z)
    : float :=
  if Z.eqb TOTAL_SCHOOL_DAYS 0 then zero
  else
    let total_med_days := med_full_days + med_partial_days in
    let absence_percentage :=
      (float_of_count total_med_days / float_of_count TOTAL_SCHOOL_DAYS
       * hundred)%float in
    Num.round2 absence_percentage.

(** The counting loops over the MED and MEDP extracts; a record is
    represented by its student number. *)
Definition count_entry (counts : list (Z * Z)) (student_id : Z) : list (Z * Z) :=
  let counts :=
    if PyDict.mem student_id counts then counts
    else PyDict.set student_id 0 counts in
  match PyDict.get student_id counts with
  | Some n => PyDict.set student_id (n + 1) counts
  | None => counts
  end.

Definition count_records (data : list Z) : list (Z * Z) :=
  fold_left count_entry data [].

Definition counts_get (counts : list (Z * Z)) (student_id : Z) : Z :=
  match PyDict.get student_id counts with
  | Some n => n
  | None => 0
  end.

Definition merge_ps (results_dict : result_map) (ps_student : ps_row)
    : result_map :=
  let student_id := ps_student_number ps_student in
  match PyDict.get student_id results_dict with
  | Some r =>
      PyDict.set student_id
        (update_schools r (ps_attending_school ps_student)
           (ps_school_of_residence ps_student))
        results_dict
  | None => results_dict
  end.

Definition merge_med (med_counts medp_counts : list (Z * Z))
    (item : Z * student_result) : Z * student_result :=
  let '(student_id, data) := item in
  let med_full_days := counts_get med_counts student_id in
  let med_partial_days := counts_get medp_counts student_id in
  let med_absence_percent :=
    calculate_med_absence_percentage med_full_days med_partial_days in
  let current_attendance := current_week_att_percent data in
  (student_id,
   update_med data med_full_days med_partial_days med_absence_percent
     (Num.min (current_attendance + med_absence_percent)%float hundred)).

(** [process_additional_data], without the demographic and probation
    fields that no later stage computes with.  The rows of the extracts are
    taken to carry the columns that the function reads and a date of birth
    that [datetime.strptime] accepts as an argument; on other rows the code
    raises ([KeyError], [TypeError]) before it returns. *)
Definition process_additional_data (results_dict : result_map)
    (ps_data : list ps_row) (med_data medp_data : list Z) : result_map :=
  let results_dict := fold_left merge_ps ps_data results_dict in
  let med_counts := count_records med_data in
  let medp_counts := count_records medp_data in
  map (merge_med med_counts medp_counts) results_dict.

End Merge.

(** ** Categoriser *)

Definition seventy : float := 70%float.

Definition is_some {A : Type} (o : option A) : bool :=
  match o with
  | Some _ => true
  | None => false
  end.

(** [pd.DataFrame(students)] has a column for every key of some record. *)
Definition has_column {A : Type} (key : student_result -> option A)
    (df : list student_result) : bool :=
  existsb (fun r => is_some (key r)) df.

Definition column {A : Type} (key : student_result -> option A)
    (df : list student_result) : result unit :=
  if has_column key df then Ok tt else Raise KeyError.

Definition is_true (cell : option bool) : bool :=
  match cell with
  | Some b => b
  | None => false
  end.

Definition is_down (cell : option string) : bool :=
  match cell with
  | Some s => String.eqb s "Down"
  | None => false
  end.

(** The six successive selections of [filter_subset_by_conditions].  A cell
    of a record without the key is NaN, which no selection keeps. *)
Definition filter_subset_by_conditions (df : list student_result)
    : result (list student_result) :=
  _ <- column below_90_3_weeks df ;;
  let df1 := filter (fun r => is_true (below_90_3_weeks r) &&
                      Num.lt (current_week_att_percent r) ninety) df in
  _ <- column trend_2_weeks df ;;
  let df2 := filter (fun r => is_down (trend_2_weeks r)) df1 in
  _ <- column trend_1_week df ;;
  let df3 := filter (fun r => is_down (trend_1_week r)) df2 in
  _ <- column below_90_2_weeks df ;;
  let df4 := filter (fun r => is_true (below_90_2_weeks r)) df3 in
  let df5 := filter (fun r => below_90_1_week r) df4 in
  Ok (filter (fun r => Num.ge (current_week_att_percent r) seventy) df5).

(** ** School codes *)

Definition school_dict : Type := list (Z * string).

(** [code in school_dict] and [school_dict[code]] for a dictionary with
    integer keys. *)
Definition school_lookup (d : school_dict) (code : option school_value)
    : option string :=
  match code with
  | Some (CodeInt n) => PyDict.get n d
  | _ => None
  end.

(** [str(code)] inside the f-string. *)
Definition str_code (code : option school_value) : string :=
  match code with
  | None | Some CodeNone => "None"
  | Some (CodeInt n) => NilZero.string_of_int (Z.to_int n)
  | Some CodeNaN => "nan"
  | Some (CodeStr s) => s
  end.

Definition unknown_school (code : option school_value) : string :=
  "Unknown School (Code: " ++ str_code code ++ ")".

Definition map_code (d : school_dict) (code : option school_value) : school_value :=
  match school_lookup d code with
  | Some school => CodeStr school
  | None => CodeStr (unknown_school code)
  end.

Definition map_school_codes (results_dict : result_map) (d : school_dict)
    : result_map :=
  map (fun item : Z * student_result =>
         let '(student_id, student_data) := item in
         (student_id,
          update_schools student_data
            (map_code d (attending_school student_data))
            (map_code d (school_of_residence student_data))))
      results_dict.

Definition is_unknown_none (cell : option school_value) : bool :=
  match cell with
  | Some (CodeStr s) => String.eqb s "Unknown School (Code: None)"
  | _ => false
  end.

Definition filter_unknown_schools (results_dict : result_map) : result_map :=
  filter (fun item : Z * student_result =>
            negb (is_unknown_none (school_of_residence (snd item))))
         results_dict.

(** The selections behind the reports of [main]: a building group, the
    uncategorised extract and the district-wide report. *)
Definition residence_in (schools : list string) (student : student_result) : bool :=
  match school_of_residence student with
  | Some (CodeStr s) => existsb (String.eqb s) schools
  | _ => false
  end.

Definition building_students (results_dict : result_map) (schools : list string)
    : list student_result :=
  filter (residence_in schools) (PyDict.values results_dict).

Definition uncategorized_students (results_dict : result_map)
    (building_group_mapping : list (string * list string)) : list student_result :=
  filter (fun student =>
            negb (existsb (fun group => residence_in (snd group) student)
                    building_group_mapping))
         (PyDict.values results_dict).

Definition final_report_students (results_dict : result_map) : list student_result :=
  PyDict.values results_dict.

(** ** Attendance categories *)

(** The local function of [add_attendance_category].  A chained comparison
    [a <= x < b] is [a <= x and x < b]. *)
Definition categorize_attendance (att_percent : float) : string :=
  if Num.lt att_percent 85 then "Below 85"
  else if Num.le 85 att_percent && Num.lt att_percent 87.5 then "85 to below 87.5"
  else if Num.le 87.5 att_percent && Num.lt att_percent 90 then "87.5 to below 90"
  else if Num.le 90 att_percent && Num.lt att_percent 94 then "90 to below 94"
  else "94 and above".

(** A record of the results with the key that [add_attendance_category]
    adds.  The percent of a record is never Python's [None], so every record
    gets the key. *)
Record categorized_result : Type := mk_categorized {
  categorized_data : student_result;
  attendance_category : string
}.

Definition add_attendance_category (results : result_map)
    : list (Z * categorized_result) :=
  map (fun item : Z * student_result =>
         let '(student_id, data) := item in
         let current_week_att_percent := current_week_att_percent data in
         (student_id,
          mk_categorized data (categorize_attendance current_week_att_percent)))
      results.

(** ** Building extracts *)

(** The dictionary [subsets] of [generate_additional_building_csvs], in the
    order of its keys.  A frame without records has no column at all, and
    selecting on one raises. *)
Definition subsets (df : list student_result)
    : result (list (string * list student_result)) :=
  match df with
  | [] => Raise KeyError
  | _ :: _ =>
      let percent := current_week_att_percent in
      qualify_for_letters <- filter_subset_by_conditions df ;;
      Ok [("90_to_100",
           filter (fun r => Num.ge (percent r) 90 && Num.le (percent r) 100) df);
          ("80_to_90",
           filter (fun r => Num.ge (percent r) 80 && Num.lt (percent r) 90) df);
          ("50_to_80",
           filter (fun r => Num.ge (percent r) 50 && Num.lt (percent r) 80) df);
          ("0_to_50",
           filter (fun r => Num.ge (percent r) 0 && Num.lt (percent r) 50) df);
          ("below_85_zero_weighted_points",
           filter (fun r => Num.lt (percent r) 85) df);
          ("85_to_87.5_quarter_weighted_points",
           filter (fun r => Num.ge (percent r) 85 && Num.lt (percent r) 87.5) df);
          ("87.5_to_90_half_weighted_points",
           filter (fun r => Num.ge (percent r) 87.5 && Num.lt (percent r) 90) df);
          ("90_and_above_full_weighted_point",
           filter (fun r => Num.ge (percent r) 90) df);
          ("Qualify_For_Letters", qualify_for_letters);
          ("0_to_80",
           filter (fun r => Num.gt (percent r) 0 && Num.lt (percent r) 80) df)]
  end.

(** [subsets[subset_name]], empty for a name that is not a key. *)
Definition subset (subset_name : string)
    (subsets : list (string * list student_result)) : list student_result :=
  match find (fun item => String.eqb (fst item) subset_name) subsets with
  | Some (_, subset_students) => subset_students
  | None => []
  end.

(** The files that the loop of [generate_additional_building_csvs] writes:
    one for each subset that is not empty. *)
Definition additional_csv_files (df : list student_result)
    (building_path group_name : string) : result (list string) :=
  subsets <- subsets df ;;
  Ok (map (fun item : string * list student_result =>
             Path.join building_path
               (fst item ++ "_" ++ group_name ++ "_attendance.csv"))
          (filter (fun item : string * list student_result =>
                     match snd item with
                     | [] => false
                     | _ :: _ => true
                     end)
                  subsets)).

(** ** The run *)

(** Steps 2 to 5 of [main] and the school filter that follows them. *)
Definition main_results (TOTAL_SCHOOL_DAYS : Z)
    (current_week_data one_week_back_data two_weeks_back_data : list row)
    (ps_data : list ps_row) (med_data medp_data : list Z) (d : school_dict)
    : result result_map :=
  let results := prime_results current_week_data in
  results <- compare_one_week_back current_week_data one_week_back_data results ;;
  results <- compare_two_weeks_back current_week_data two_weeks_back_data results ;;
  let results :=
    process_additional_data TOTAL_SCHOOL_DAYS results ps_data med_data medp_data in
  let results := map_school_codes results d in
  Ok (filter_unknown_schools results).

(** [main] down to the update of the base file, for a run in which
    [load_additional_data] returns: the extracts are given as it returns
    them.  The lines that [main] itself prints between the steps are left
    out. *)
Definition main_until_reports (TESTING_MODE : bool) (TOTAL_SCHOOL_DAYS : Z)
    (now : datetime) (current_week_file base_file : string)
    (attendance_mapping : column_mapping) (ps_data : list ps_row)
    (med_data medp_data : list Z) (d : school_dict)
    : io (list (Z * categorized_result)) :=
  fun w =>
    match input_attendance_data current_week_file base_file attendance_mapping w with
    | (Raise e, w1) => (Raise e, w1)
    | (Ok (current_week_data, one_week_back_data, two_weeks_back_data), w1) =>
        match main_results TOTAL_SCHOOL_DAYS current_week_data one_week_back_data
                two_weeks_back_data ps_data med_data medp_data d with
        | Raise e => (Raise e, w1)
        | Ok results =>
            let results := add_attendance_category results in
            if negb TESTING_MODE then
              match update_base_file TESTING_MODE now current_week_data base_file
                      attendance_mapping w1 with
              | (Raise e, w2) => (Raise e, w2)
              | (Ok _, w2) => (Ok results, w2)
              end
            else (Ok results, w1)
        end
    end.

(** *** Output paths *)

(** The paths that exist, as far as the output functions ask. *)
Definition path_set : Type := list string.

Definition path_exists (p : string) (paths : path_set) : bool :=
  existsb (String.eqb p) paths.

(** [os.makedirs(p)]; the parents it creates on the way are not tracked. *)
Definition makedirs (p : string) (paths : path_set) : path_set := p :: paths.

Definition get_output_dir (base_output_path : string) (is_testing : bool)
    (paths : path_set) : string * path_set :=
  if is_testing then
    let test_output_dir := Path.join base_output_path "#test_output" in
    if negb (path_exists test_output_dir paths)
    then (test_output_dir, makedirs test_output_dir paths)
    else (test_output_dir, paths)
  else (base_output_path, paths).

(** The file that [generate_final_report] writes: [os.path.dirname] and
    [os.path.basename] are the two parts of [os.path.split]. *)
Definition final_report_file (TESTING_MODE : bool) (output_file_path : string)
    (paths : path_set) : string * path_set :=
  let '(output_dir, paths) :=
    get_output_dir (fst (Path.split output_file_path)) TESTING_MODE paths in
  (Path.join output_dir (snd (Path.split output_file_path)), paths).

(** * Properties *)

Set Warnings "-inexact-float".

(** ** Dictionaries *)

Module PyDictFacts.

Section Facts.
Context {V : Type}.
Implicit Types (d : list (Z * V)) (k : Z) (v : V).

Lemma get_set_same d k v : PyDict.get k (PyDict.set k v d) = Some v.
Proof.
  induction d as [|[k' v'] d IH]; simpl.
  - now rewrite Z.eqb_refl.
  - destruct (Z.eqb k k') eqn:E; simpl; rewrite E; auto.
Qed.

Lemma get_set_other d k k' v :
  k <> k' -> PyDict.get k (PyDict.set k' v d) = PyDict.get k d.
Proof.
  intros Hne. induction d as [|[k0 v0] d IH]; simpl.
  - destruct (Z.eqb k k') eqn:E; auto. apply Z.eqb_eq in E. contradiction.
  - destruct (Z.eqb k' k0) eqn:E; simpl.
    + apply Z.eqb_eq in E. subst k0.
      destruct (Z.eqb k k') eqn:E'; auto.
      apply Z.eqb_eq in E'. contradiction.
    + now rewrite IH.
Qed.

Lemma get_set d k k' v :
  PyDict.get k (PyDict.set k' v d) =
  if Z.eqb k k' then Some v else PyDict.get k d.
Proof.
  destruct (Z.eqb k k') eqn:E.
  - apply Z.eqb_eq in E. subst. apply get_set_same.
  - apply Z.eqb_neq in E. now apply get_set_other.
Qed.

Lemma get_in d k v : PyDict.get k d = Some v -> In (k, v) d.
Proof.
  induction d as [|[k' v'] d IH]; simpl; [discriminate|].
  destruct (Z.eqb k k') eqn:E.
  - apply Z.eqb_eq in E. intros [= ->]. subst. now left.
  - intros H. right. auto.
Qed.

Lemma get_none_not_in d k : PyDict.get k d = None -> ~ In k (PyDict.keys d).
Proof.
  induction d as [|[k' v'] d IH]; simpl; [tauto|].
  destruct (Z.eqb k k') eqn:E; [discriminate|].
  apply Z.eqb_neq in E. intros H [H'|H']; [congruence|]. now apply IH.
Qed.

Lemma in_keys_get d k : In k (PyDict.keys d) -> exists v, PyDict.get k d = Some v.
Proof.
  intros H. destruct (PyDict.get k d) eqn:E; eauto.
  now apply get_none_not_in in E.
Qed.

Lemma in_get_nodup d k v :
  NoDup (PyDict.keys d) -> In (k, v) d -> PyDict.get k d = Some v.
Proof.
  induction d as [|[k' v'] d IH]; simpl; [tauto|].
  intros Hnd [H|H]; inversion Hnd as [|? ? Hnotin Hnd']; subst.
  - injection H as -> ->. now rewrite Z.eqb_refl.
  - destruct (Z.eqb k k') eqn:E; auto.
    apply Z.eqb_eq in E. subst k'. exfalso. apply Hnotin.
    change (In (fst (k, v)) (map fst d)). now apply in_map.
Qed.

Lemma keys_set d k v :
  PyDict.keys (PyDict.set k v d) =
  if PyDict.mem k d then PyDict.keys d else (PyDict.keys d ++ [k])%list.
Proof.
  unfold PyDict.mem, PyDict.keys.
  induction d as [|[k' v'] d IH]; simpl; auto.
  destruct (Z.eqb k k') eqn:E; simpl; auto.
  rewrite IH. destruct (PyDict.get k d); auto.
Qed.

Lemma keys_set_nodup d k v :
  NoDup (PyDict.keys d) -> NoDup (PyDict.keys (PyDict.set k v d)).
Proof.
  intros Hnd. rewrite keys_set. unfold PyDict.mem.
  destruct (PyDict.get k d) eqn:E; auto.
  apply get_none_not_in in E.
  apply NoDup_app; auto.
  - constructor; [simpl; tauto | constructor].
  - intros x Hx [<-|[]]. contradiction.
Qed.

End Facts.

End PyDictFacts.

(** ** Medical days and best-case attendance *)

Section MedicalDays.

Variable TOTAL_SCHOOL_DAYS : Z.

Lemma counts_get_count_entry (counts : list (Z * Z)) (x student_id : Z) :
  counts_get (count_entry counts x) student_id =
  counts_get counts student_id + (if Z.eqb student_id x then 1 else 0).
Proof.
  unfold count_entry, counts_get, PyDict.mem.
  destruct (PyDict.get x counts) as [n|] eqn:Hx.
  - rewrite Hx, PyDictFacts.get_set.
    destruct (Z.eqb student_id x) eqn:E.
    + apply Z.eqb_eq in E. subst. now rewrite Hx.
    + lia.
  - rewrite PyDictFacts.get_set_same, PyDictFacts.get_set.
    destruct (Z.eqb student_id x) eqn:E.
    + apply Z.eqb_eq in E. subst. now rewrite Hx.
    + rewrite PyDictFacts.get_set_other by now apply Z.eqb_neq. lia.
Qed.

Lemma counts_get_fold (data : list Z) (counts : list (Z * Z)) (student_id : Z) :
  counts_get (fold_left count_entry data counts) student_id =
  counts_get counts student_id + Z.of_nat (count_occ Z.eq_dec data student_id).
Proof.
  revert counts. induction data as [|x data IH]; intros counts; simpl.
  - lia.
  - rewrite IH, counts_get_count_entry.
    destruct (Z.eq_dec x student_id) as [->|Hne].
    + rewrite Z.eqb_refl. lia.
    + destruct (Z.eqb student_id x) eqn:E; [|lia].
      apply Z.eqb_eq in E. congruence.
Qed.

(** The counting loop counts the records of each student. *)
Lemma counts_get_count_records (data : list Z) (student_id : Z) :
  counts_get (count_records data) student_id =
  Z.of_nat (count_occ Z.eq_dec data student_id).
Proof.
  unfold count_records. now rewrite counts_get_fold.
Qed.

(** The formula of the claim: [round((full + partial) / TOTAL * 100, 2)]. *)
Definition absence_percent_equivalent (full partial : Z) : float :=
  Num.round2
    (float_of_count (full + partial) / float_of_count TOTAL_SCHOOL_DAYS
     * hundred)%float.

Lemma calculate_med_absence_percentage_formula (full partial : Z) :
  TOTAL_SCHOOL_DAYS <> 0 ->
  calculate_med_absence_percentage TOTAL_SCHOOL_DAYS full partial =
  absence_percent_equivalent full partial.
Proof.
  intros H. unfold calculate_med_absence_percentage, absence_percent_equivalent.
  apply Z.eqb_neq in H. now rewrite H.
Qed.

End MedicalDays.

(** ** Comparisons of doubles *)

Module NumFacts.

Lemma SFcompare_Lt_Gt (a b : spec_float) :
  SFcompare a b = Some Lt -> SFcompare b a = Some Gt.
Proof.
  destruct a as [sa|sa| |sa ma ea], b as [sb|sb| |sb mb eb]; simpl;
    try discriminate;
    try (destruct sa; try destruct sb; simpl; congruence).
  pose proof (Pos.compare_cont_antisym ma mb Eq) as HP. simpl in HP.
  destruct sa, sb; simpl; try congruence;
    rewrite (Z.compare_antisym ea eb);
    destruct (Z.compare ea eb) eqn:E; simpl; try congruence;
    rewrite <- HP;
    destruct (Pos.compare_cont Eq ma mb); simpl; congruence.
Qed.

Lemma lt_asym (x y : float) : Num.lt x y = true -> Num.lt y x = false.
Proof.
  unfold Num.lt. rewrite !ltb_spec. unfold SFltb.
  destruct (SFcompare (Prim2SF x) (Prim2SF y)) as [[ | | ]|] eqn:E;
    try discriminate.
  intros _. now rewrite (SFcompare_Lt_Gt _ _ E).
Qed.

Lemma lt_irrefl (x : float) : Num.lt x x = false.
Proof.
  destruct (Num.lt x x) eqn:E; auto.
  pose proof (lt_asym _ _ E). congruence.
Qed.

Lemma gt_lt (x y : float) : Num.gt x y = Num.lt y x.
Proof. reflexivity. Qed.

End NumFacts.

(** ** Trend labels *)

Lemma trend_1_up (c p : float) : Num.gt c p = true -> trend_1 c (Some p) = "Up".
Proof. intros H. unfold trend_1. now rewrite H. Qed.

Lemma trend_1_down (c p : float) : Num.lt c p = true -> trend_1 c (Some p) = "Down".
Proof.
  intros H. pose proof (NumFacts.lt_asym _ _ H) as H'.
  unfold trend_1, Num.gt, Num.lt in *. now rewrite H', H.
Qed.

Lemma trend_1_no_change (c : float) : trend_1 c (Some c) = "No Change".
Proof.
  pose proof (NumFacts.lt_irrefl c) as H.
  unfold trend_1, Num.gt, Num.lt in *. now rewrite H.
Qed.

Lemma trend_1_na (c : float) : trend_1 c None = "N/A".
Proof. reflexivity. Qed.

(** ** The comparison loops *)

(** The row that decides the entry of a student: the last row of the
    snapshot with that student number and a percent. *)
Definition is_row_of (student_id : Z) (s : row) : bool :=
  match student_number s, ind_att_percent s with
  | Some k, Some _ => Z.eqb k student_id
  | _, _ => false
  end.

Fixpoint last_valid_row (student_id : Z) (data : list row) : option row :=
  match data with
  | [] => None
  | s :: rest =>
      match last_valid_row student_id rest with
      | Some s' => Some s'
      | None => if is_row_of student_id s then Some s else None
      end
  end.

(** The first row of a snapshot with a student number. *)
Definition first_match (data : list row) (student_id : Z) : option row :=
  find (fun s => match student_number s with
                 | Some k => Z.eqb k student_id
                 | None => false
                 end) data.

Definition prime_record (student_id : Z) (s : row) (c : float) : student_result :=
  mk_result student_id (name s) (grade s) c (Num.lt c ninety)
    None None None None None None None None None None None None.

(** [x < 90] for a percent that may be missing. *)
Definition below (x : option float) : bool :=
  match x with
  | Some p => Num.lt p ninety
  | None => false
  end.

Definition below_stored (x : option (option float)) : bool :=
  match x with
  | Some v => below v
  | None => false
  end.

Lemma below_2_below (c : float) (v : option float) :
  below_2 c v = Num.lt c ninety && below v.
Proof. reflexivity. Qed.

Lemma next_match_first_match (data : list row) (student_id : Z) (o : option row) :
  next_match data student_id = Ok o -> o = first_match data student_id.
Proof.
  induction data as [|s data IH]; simpl.
  - now intros [= <-].
  - destruct (student_number s) as [k|]; simpl; [|discriminate].
    destruct (Z.eqb k student_id); auto. now intros [= <-].
Qed.

Lemma first_match_in (data : list row) (student_id : Z) :
  In (Some student_id) (map student_number data) ->
  exists m, first_match data student_id = Some m.
Proof.
  induction data as [|s data IH]; simpl; [tauto|].
  intros [H|H].
  - rewrite H, Z.eqb_refl. eauto.
  - destruct (student_number s) as [k|]; auto.
    destruct (Z.eqb k student_id); eauto.
Qed.

Lemma first_match_student_number (data : list row) (student_id : Z) (m : row) :
  first_match data student_id = Some m ->
  In m data /\ student_number m = Some student_id.
Proof.
  intros H. apply find_some in H. destruct H as [Hin H]. split; auto.
  destruct (student_number m) as [k|]; [|discriminate].
  apply Z.eqb_eq in H. now subst.
Qed.

Lemma last_valid_row_spec (student_id : Z) (data : list row) (s : row) :
  last_valid_row student_id data = Some s ->
  In s data /\ student_number s = Some student_id /\ ind_att_percent s <> None.
Proof.
  induction data as [|a data IH]; simpl; [discriminate|].
  destruct (last_valid_row student_id data) as [s'|].
  - intros [= <-]. destruct (IH eq_refl) as (? & ? & ?). auto.
  - destruct (is_row_of student_id a) eqn:E; [|discriminate].
    intros [= <-]. unfold is_row_of in E.
    destruct (student_number a) as [k|]; [|discriminate].
    destruct (ind_att_percent a); [|discriminate].
    apply Z.eqb_eq in E. subst. repeat split; auto. discriminate.
Qed.

Lemma last_valid_row_in (student_id : Z) (data : list row) :
  Forall (fun s => ind_att_percent s <> None) data ->
  In (Some student_id) (map student_number data) ->
  exists s, last_valid_row student_id data = Some s.
Proof.
  induction data as [|a data IH]; simpl; [tauto|].
  intros HF Hin. inversion HF as [|? ? Ha HF']; subst.
  destruct (last_valid_row student_id data) as [s'|] eqn:E; eauto.
  destruct Hin as [Hin|Hin].
  - unfold is_row_of. rewrite Hin, Z.eqb_refl.
    destruct (ind_att_percent a); [eauto|congruence].
  - destruct (IH HF' Hin) as [s Hs]. discriminate.
Qed.

(** [prime_results] keeps, for each student, the entry of its last valid
    row. *)
Lemma prime_results_get_fold (data : list row) (results : result_map) (student_id : Z) :
  PyDict.get student_id (fold_left prime_entry data results) =
  match last_valid_row student_id data with
  | Some s =>
      match ind_att_percent s with
      | Some c => Some (prime_record student_id s c)
      | None => None
      end
  | None => PyDict.get student_id results
  end.
Proof.
  revert results. induction data as [|a data IH]; intros results; simpl; auto.
  rewrite IH. destruct (last_valid_row student_id data) as [s|]; auto.
  unfold prime_entry, is_row_of.
  destruct (student_number a) as [k|]; auto.
  destruct (ind_att_percent a) as [c|] eqn:Hc; auto.
  rewrite PyDictFacts.get_set. rewrite (Z.eqb_sym student_id k).
  destruct (Z.eqb k student_id) eqn:E; auto.
  apply Z.eqb_eq in E. subst. now rewrite Hc.
Qed.

Lemma prime_results_get (data : list row) (student_id : Z) :
  PyDict.get student_id (prime_results data) =
  match last_valid_row student_id data with
  | Some s =>
      match ind_att_percent s with
      | Some c => Some (prime_record student_id s c)
      | None => None
      end
  | None => None
  end.
Proof. unfold prime_results. now rewrite prime_results_get_fold. Qed.

Arguments one_week_iteration : simpl never.
Arguments two_weeks_iteration : simpl never.
Arguments consolidate_iteration : simpl never.

Lemma update_one_week_twice (r : student_result) v b t v' b' t' :
  update_one_week (update_one_week r v b t) v' b' t' = update_one_week r v' b' t'.
Proof. reflexivity. Qed.

Lemma update_two_weeks_twice (r : student_result) v b t v' b' t' :
  update_two_weeks (update_two_weeks r v b t) v' b' t' = update_two_weeks r v' b' t'.
Proof. reflexivity. Qed.

(** What a successful iteration of [compare_one_week_back] did. *)
Lemma one_week_iteration_ok (one : list row) (local : option (option float))
    (results : result_map) (student : row)
    (st' : option (option float) * result_map) :
  one_week_iteration one (local, results) student = Ok st' ->
  exists student_id c o r v,
    student_number student = Some student_id /\
    ind_att_percent student = Some c /\
    next_match one student_id = Ok o /\
    PyDict.get student_id results = Some r /\
    match o with Some s => Some (ind_att_percent s) | None => local end = Some v /\
    st' = (Some v,
           PyDict.set student_id
             (update_one_week r v (below_2 c v) (trend_1 c v)) results).
Proof.
  unfold one_week_iteration.
  destruct (student_number student) as [student_id|]; simpl; [|discriminate].
  destruct (ind_att_percent student) as [c|]; simpl; [|discriminate].
  destruct (next_match one student_id) as [o|] eqn:Ho; simpl; [|discriminate].
  set (loc := match o with Some s => Some (ind_att_percent s) | None => local end).
  destruct loc as [v|] eqn:Hloc.
  - destruct (PyDict.get student_id results) as [r|] eqn:Hr.
    + intros H. exists student_id, c, o, r, v. repeat split; auto.
      unfold below_2 in *.
      destruct (Num.lt c ninety); simpl in *; now inversion H.
    + destruct (Num.lt c ninety); simpl; discriminate.
  - destruct (Num.lt c ninety); simpl; [discriminate|].
    destruct (PyDict.get student_id results); simpl; discriminate.
Qed.

Lemma one_week_loop_valid (one cur : list row)
    (st st' : option (option float) * result_map) :
  one_week_loop one cur st = Ok st' ->
  Forall (fun s => ind_att_percent s <> None) cur.
Proof.
  revert st. induction cur as [|student rest IH]; intros [local results]; simpl.
  - constructor.
  - destruct (one_week_iteration one (local, results) student) as [st1|] eqn:E;
      simpl; [|discriminate].
    intros H. constructor; [|eauto].
    apply one_week_iteration_ok in E.
    destruct E as (? & ? & ? & ? & ? & _ & Hc & _). congruence.
Qed.

(** After a successful run of the loop of [compare_one_week_back], the entry
    of a student is the one it had before, updated from the student's last
    row; the prior percent written is that of the first matching row of the
    earlier snapshot whenever there is one. *)
Lemma one_week_loop_get (one cur : list row) (local local' : option (option float))
    (results results' : result_map) (student_id : Z) :
  one_week_loop one cur (local, results) = Ok (local', results') ->
  match last_valid_row student_id cur with
  | None => PyDict.get student_id results' = PyDict.get student_id results
  | Some s =>
      exists r c v,
        PyDict.get student_id results = Some r /\
        ind_att_percent s = Some c /\
        PyDict.get student_id results' =
          Some (update_one_week r v (below_2 c v) (trend_1 c v)) /\
        (forall m, first_match one student_id = Some m -> v = ind_att_percent m)
  end.
Proof.
  revert local results.
  induction cur as [|student rest IH]; intros local results; simpl.
  - now intros [= _ <-].
  - destruct (one_week_iteration one (local, results) student) as [[l1 r1]|] eqn:E;
      simpl; [|discriminate].
    intros H. specialize (IH _ _ H).
    apply one_week_iteration_ok in E.
    destruct E as (sid & c0 & o & r0 & v0 & Hsid & Hc0 & Ho & Hr0 & Hv0 & Hst).
    injection Hst as -> ->.
    destruct (last_valid_row student_id rest) as [s|].
    + destruct IH as (r & c & v & Hr & Hc & Hres & Hm).
      rewrite PyDictFacts.get_set in Hr.
      destruct (Z.eqb student_id sid) eqn:Eid.
      * apply Z.eqb_eq in Eid. subst sid. injection Hr as <-.
        exists r0, c, v. rewrite Hres, update_one_week_twice. auto.
      * exists r, c, v. auto.
    + rewrite IH, PyDictFacts.get_set. unfold is_row_of.
      rewrite Hsid, Hc0, (Z.eqb_sym student_id sid).
      destruct (Z.eqb sid student_id) eqn:Eid; auto.
      apply Z.eqb_eq in Eid. subst sid.
      exists r0, c0, v0. repeat split; auto.
      intros m Hm. apply next_match_first_match in Ho.
      rewrite Hm in Ho. subst o. congruence.
Qed.

(** The three-week flag, from the current percent, the value stored under
    ['one_week_back_percent'] and the percent of two weeks back. *)
Definition below_3 (c : float) (stored : option (option float)) (p2 : float) : bool :=
  Num.lt c ninety && below_stored stored && Num.lt p2 ninety.

(** What a successful iteration of [compare_two_weeks_back] did. *)
Lemma two_weeks_iteration_ok (two : list row) (results results' : result_map)
    (student : row) :
  two_weeks_iteration two results student = Ok results' ->
  exists student_id c o,
    student_number student = Some student_id /\
    ind_att_percent student = Some c /\
    next_match two student_id = Ok o /\
    match o with
    | None => results' = results
    | Some m =>
        exists r p2,
          PyDict.get student_id results = Some r /\
          ind_att_percent m = Some p2 /\
          results' =
            PyDict.set student_id
              (update_two_weeks r p2 (below_3 c (one_week_back_percent r) p2)
                 (trend_1 c (Some p2)))
              results
    end.
Proof.
  unfold two_weeks_iteration.
  destruct (student_number student) as [student_id|]; simpl; [|discriminate].
  destruct (ind_att_percent student) as [c|]; simpl; [|discriminate].
  destruct (next_match two student_id) as [[m|]|] eqn:Ho; simpl; try discriminate.
  - intros H. exists student_id, c, (Some m). repeat split; auto.
    destruct (PyDict.get student_id results) as [r|] eqn:Hr.
    + destruct (ind_att_percent m) as [p2|] eqn:Hp2.
      * exists r, p2. repeat split; auto.
        unfold below_3, below_stored, below.
        destruct (Num.lt c ninety); simpl in *.
        -- destruct (one_week_back_percent r) as [[p1|]|]; simpl in *;
             try discriminate.
           destruct (Num.lt p1 ninety); simpl in *; now inversion H.
        -- now inversion H.
      * exfalso. destruct (Num.lt c ninety); simpl in *; [|discriminate].
        destruct (one_week_back_percent r) as [[p1|]|]; simpl in *;
          try discriminate.
        destruct (Num.lt p1 ninety); simpl in *; discriminate.
    + exfalso. destruct (Num.lt c ninety); simpl in *; discriminate.
  - intros [= <-]. exists student_id, c, None. auto.
Qed.

Lemma two_weeks_loop_get (two cur : list row) (results results' : result_map)
    (student_id : Z) (m : row) :
  two_weeks_loop two cur results = Ok results' ->
  first_match two student_id = Some m ->
  match last_valid_row student_id cur with
  | None => PyDict.get student_id results' = PyDict.get student_id results
  | Some s =>
      exists r c p2,
        PyDict.get student_id results = Some r /\
        ind_att_percent s = Some c /\
        ind_att_percent m = Some p2 /\
        PyDict.get student_id results' =
          Some (update_two_weeks r p2 (below_3 c (one_week_back_percent r) p2)
                  (trend_1 c (Some p2)))
  end.
Proof.
  intros Hloop Hm. revert results Hloop.
  induction cur as [|student rest IH]; intros results; simpl.
  - now intros [= <-].
  - destruct (two_weeks_iteration two results student) as [r1|] eqn:E;
      simpl; [|discriminate].
    intros H. specialize (IH _ H).
    apply two_weeks_iteration_ok in E.
    destruct E as (sid & c0 & o & Hsid & Hc0 & Ho & Hres).
    apply next_match_first_match in Ho.
    assert (Hget : PyDict.get student_id r1 =
                   if Z.eqb student_id sid then
                     match PyDict.get student_id results, ind_att_percent m with
                     | Some r0, Some p2 =>
                         Some (update_two_weeks r0 p2
                                 (below_3 c0 (one_week_back_percent r0) p2)
                                 (trend_1 c0 (Some p2)))
                     | _, _ => None
                     end
                   else PyDict.get student_id results).
    { destruct (Z.eqb student_id sid) eqn:Eid.
      - apply Z.eqb_eq in Eid. subst sid. rewrite Hm in Ho. subst o.
        destruct Hres as (r0 & p2 & Hr0 & Hp2 & ->).
        now rewrite Hr0, Hp2, PyDictFacts.get_set_same.
      - destruct o as [m'|]; [|now subst].
        destruct Hres as (r0 & p2 & _ & _ & ->).
        rewrite PyDictFacts.get_set_other; auto. now apply Z.eqb_neq. }
    destruct (last_valid_row student_id rest) as [s|].
    + destruct IH as (r & c & p2 & Hr & Hc & Hp2 & Hfinal).
      rewrite Hget in Hr.
      destruct (Z.eqb student_id sid).
      * destruct (PyDict.get student_id results) as [r0|]; [|discriminate].
        rewrite Hp2 in Hr. injection Hr as <-.
        exists r0, c, p2. rewrite Hfinal. auto.
      * exists r, c, p2. auto.
    + rewrite IH, Hget. unfold is_row_of.
      rewrite Hsid, Hc0, (Z.eqb_sym sid student_id).
      destruct (Z.eqb student_id sid) eqn:Eid; auto.
      apply Z.eqb_eq in Eid. subst sid. rewrite Hm in Ho. subst o.
      destruct Hres as (r0 & p2 & Hr0 & Hp2 & _).
      rewrite Hr0, Hp2. exists r0, c0, p2. auto.
Qed.

(** C1. When [compare_one_week_back] and [compare_two_weeks_back] have run
    on the primed results, the entry of every student that has a row in the
    current snapshot and in both earlier snapshots carries
    [below_90_2_weeks = (current < 90 and one week back < 90)] and
    [below_90_3_weeks = (current < 90 and one week back < 90 and two weeks
    back < 90)], where the one-week value of the three-week flag is the one
    stored under ['one_week_back_percent'], which is the percent of the
    student's row one week back. *)
Theorem below_90_flags_conjunctive
    (current one_week_back two_weeks_back : list row)
    (results1 results2 : result_map) (student_id : Z) :
  compare_one_week_back current one_week_back (prime_results current) = Ok results1 ->
  compare_two_weeks_back current two_weeks_back results1 = Ok results2 ->
  In (Some student_id) (map student_number current) ->
  In (Some student_id) (map student_number one_week_back) ->
  In (Some student_id) (map student_number two_weeks_back) ->
  exists data s c m1 m2 p2,
    PyDict.get student_id results2 = Some data /\
    last_valid_row student_id current = Some s /\
    ind_att_percent s = Some c /\
    first_match one_week_back student_id = Some m1 /\
    first_match two_weeks_back student_id = Some m2 /\
    ind_att_percent m2 = Some p2 /\
    current_week_att_percent data = c /\
    one_week_back_percent data = Some (ind_att_percent m1) /\
    two_weeks_back_percent data = Some p2 /\
    below_90_2_weeks data =
      Some (Num.lt c ninety && below (ind_att_percent m1)) /\
    below_90_3_weeks data =
      Some (Num.lt c ninety && below_stored (one_week_back_percent data)
            && Num.lt p2 ninety).
Proof.
  intros H1 H2 Hcur Hone Htwo.
  destruct (first_match_in _ _ Hone) as [m1 Hm1].
  destruct (first_match_in _ _ Htwo) as [m2 Hm2].
  unfold compare_one_week_back in H1.
  destruct one_week_back as [|o1 one']; [contradiction|].
  destruct (one_week_loop (o1 :: one') current (None, prime_results current))
    as [[local' r1]|] eqn:Hloop1; simpl in H1; [|discriminate].
  injection H1 as ->.
  pose proof (one_week_loop_valid _ _ _ _ Hloop1) as Hvalid.
  destruct (last_valid_row_in _ _ Hvalid Hcur) as [s Hs].
  pose proof (one_week_loop_get _ _ _ _ _ _ student_id Hloop1) as Hget1.
  rewrite Hs in Hget1. destruct Hget1 as (r & c & v & Hr & Hc & Hres1 & Hv).
  rewrite prime_results_get, Hs, Hc in Hr. injection Hr as <-.
  rewrite (Hv _ Hm1) in Hres1.
  unfold compare_two_weeks_back in H2.
  destruct two_weeks_back as [|t1 two']; [contradiction|].
  pose proof (two_weeks_loop_get _ _ _ _ student_id m2 H2 Hm2) as Hget2.
  rewrite Hs in Hget2. destruct Hget2 as (r' & c' & p2 & Hr' & Hc' & Hp2 & Hres2).
  rewrite Hres1 in Hr'. injection Hr' as <-.
  rewrite Hc in Hc'. injection Hc' as <-.
  eexists _, s, c, m1, m2, p2.
  split; [exact Hres2|]. repeat split; auto.
Qed.

Definition attendance_row (student_id : Z) (percent : float) : row :=
  mk_row (Some student_id) "Doe, John" "5" zero zero zero (Some percent).

Lemma below_90_flags_conjunctive_witness :
  exists data s c m1 m2 p2,
    PyDict.get 1001
      [(1001, update_two_weeks
                (update_one_week (prime_record 1001 (attendance_row 1001 83.33) 83.33)
                   (Some 66.67%float) true "Up") 50 true "Up")] = Some data /\
    last_valid_row 1001 [attendance_row 1001 83.33] = Some s /\
    ind_att_percent s = Some c /\
    first_match [attendance_row 1001 66.67] 1001 = Some m1 /\
    first_match [attendance_row 1001 50] 1001 = Some m2 /\
    ind_att_percent m2 = Some p2 /\
    current_week_att_percent data = c /\
    one_week_back_percent data = Some (ind_att_percent m1) /\
    two_weeks_back_percent data = Some p2 /\
    below_90_2_weeks data =
      Some (Num.lt c ninety && below (ind_att_percent m1)) /\
    below_90_3_weeks data =
      Some (Num.lt c ninety && below_stored (one_week_back_percent data)
            && Num.lt p2 ninety).
Proof.
  apply (below_90_flags_conjunctive
           [attendance_row 1001 83.33] [attendance_row 1001 66.67]
           [attendance_row 1001 50]
           [(1001, update_one_week
                     (prime_record 1001 (attendance_row 1001 83.33) 83.33)
                     (Some 66.67%float) true "Up")]).
  - vm_compute. reflexivity.
  - vm_compute. reflexivity.
  - simpl. left. reflexivity.
  - simpl. left. reflexivity.
  - simpl. left. reflexivity.
Defined.

(** ** Students without a row one week back *)

(** For a student with a row one week back, the entry written by
    [compare_one_week_back] carries the percent of that row and the trend
    label of the pair. *)
Lemma compare_one_week_back_matched
    (current one_week_back : list row) (results1 : result_map)
    (student_id : Z) (m : row) :
  compare_one_week_back current one_week_back (prime_results current) = Ok results1 ->
  In (Some student_id) (map student_number current) ->
  first_match one_week_back student_id = Some m ->
  exists data s c,
    PyDict.get student_id results1 = Some data /\
    last_valid_row student_id current = Some s /\
    ind_att_percent s = Some c /\
    one_week_back_percent data = Some (ind_att_percent m) /\
    trend_1_week data = Some (trend_1 c (ind_att_percent m)) /\
    below_90_2_weeks data = Some (below_2 c (ind_att_percent m)).
Proof.
  intros H1 Hcur Hm.
  unfold compare_one_week_back in H1.
  destruct one_week_back as [|o1 one']; [discriminate|].
  destruct (one_week_loop (o1 :: one') current (None, prime_results current))
    as [[local' r1]|] eqn:Hloop1; simpl in H1; [|discriminate].
  injection H1 as ->.
  pose proof (one_week_loop_valid _ _ _ _ Hloop1) as Hvalid.
  destruct (last_valid_row_in _ _ Hvalid Hcur) as [s Hs].
  pose proof (one_week_loop_get _ _ _ _ _ _ student_id Hloop1) as Hget1.
  rewrite Hs in Hget1. destruct Hget1 as (r & c & v & Hr & Hc & Hres1 & Hv).
  rewrite (Hv _ Hm) in Hres1.
  eexists _, s, c. split; [exact Hres1|]. repeat split; auto.
Qed.

(** C4, on the code.  The local [one_week_att_percent] is assigned only when
    a match is found and is never reset: a student without a row one week
    back inherits the prior percent of the student processed before it, and
    the call raises [UnboundLocalError] when no earlier student had a match.
    Here student 1002 (80.0 this week, no row one week back) follows student
    1001 (95.0 this week, 85.0 one week back). *)
Theorem compare_one_week_back_unmatched_inherits :
  let current := [attendance_row 1001 95; attendance_row 1002 80] in
  let one_week_back := [attendance_row 1001 85] in
  first_match one_week_back 1002 = None /\
  (exists results data,
      compare_one_week_back current one_week_back (prime_results current)
        = Ok results /\
      PyDict.get 1002 results = Some data /\
      one_week_back_percent data = Some (Some 85%float) /\
      trend_1_week data = Some "Down" /\
      below_90_2_weeks data = Some true) /\
  compare_one_week_back (rev current) one_week_back (prime_results (rev current))
    = Raise UnboundLocalError.
Proof.
  split; [reflexivity|]. split; [|vm_compute; reflexivity].
  eexists _, _. split; [vm_compute; reflexivity|].
  split; [vm_compute; reflexivity|]. vm_compute. auto.
Qed.

(** ** Consolidation *)

Definition is_row_of_student (student_id : Z) (r : row) : bool :=
  match student_number r with
  | Some k => Z.eqb k student_id
  | None => false
  end.

(** The rows of a student, in the order of the snapshot. *)
Definition rows_of (student_id : Z) (data : list row) : list row :=
  filter (is_row_of_student student_id) data.

(** The running sum [init + x1 + x2 + ...] of a column, as the loop adds it
    up. *)
Definition total (column : row -> float) (rows : list row) (init : float) : float :=
  fold_left (fun acc r => (acc + column r)%float) rows init.

Definition percent_of (attended possible : float) : float :=
  Num.round2 (attended / possible * hundred)%float.

(** The entry a student has before one of its rows is added. *)
Definition entry_or_fresh (d : list (Z * row)) (student_id : Z) (record : row) : row :=
  match PyDict.get student_id d with
  | Some e => e
  | None => fresh_record student_id record
  end.

Definition accumulate (e record : row) (p : float) : row :=
  mk_row (student_number e) (name e) (grade e)
    (hrs_attended e + hrs_attended record)%float
    (hrs_absent e + hrs_absent record)%float
    (hrs_possible e + hrs_possible record)%float
    (Some (Num.round2 p)).

(** What a successful iteration of [consolidate_attendance] did. *)
Lemma consolidate_iteration_ok (ap : option float) (d : list (Z * row)) (record : row)
    (st' : option float * list (Z * row)) :
  consolidate_iteration (ap, d) record = Ok st' ->
  exists student_id p d0,
    student_number record = Some student_id /\
    let e := entry_or_fresh d student_id record in
    let possible := (hrs_possible e + hrs_possible record)%float in
    (Num.gt possible zero = true ->
     p = (hrs_attended e + hrs_attended record) / possible * hundred)%float /\
    st' = (Some p, PyDict.set student_id (accumulate e record p) d0) /\
    (forall k, k <> student_id -> PyDict.get k d0 = PyDict.get k d) /\
    (NoDup (PyDict.keys d) -> NoDup (PyDict.keys d0)) /\
    (forall k v, In (k, v) d0 ->
       In (k, v) d \/ (k = student_id /\ v = fresh_record student_id record)).
Proof.
  unfold consolidate_iteration, entry_or_fresh, PyDict.mem.
  destruct (student_number record) as [student_id|]; simpl; [|discriminate].
  destruct (PyDict.get student_id d) as [e|] eqn:He; simpl.
  - rewrite He. simpl.
    destruct (Num.gt (hrs_possible e + hrs_possible record) zero) eqn:Hp.
    + simpl. intros [= <-].
      exists student_id,
        ((hrs_attended e + hrs_attended record) /
         (hrs_possible e + hrs_possible record) * hundred)%float, d.
      rewrite He. repeat split; auto.
    + destruct ap as [p|]; simpl; [|discriminate].
      intros [= <-]. exists student_id, p, d.
      rewrite He. repeat split; auto. rewrite Hp. discriminate.
  - rewrite PyDictFacts.get_set_same. simpl.
    set (d0 := PyDict.set student_id (fresh_record student_id record) d).
    assert (Hother : forall k, k <> student_id -> PyDict.get k d0 = PyDict.get k d).
    { intros k Hk. unfold d0. now rewrite PyDictFacts.get_set_other. }
    assert (Hnd : NoDup (PyDict.keys d) -> NoDup (PyDict.keys d0)).
    { apply PyDictFacts.keys_set_nodup. }
    assert (Hin : forall k v, In (k, v) d0 ->
              In (k, v) d \/ (k = student_id /\ v = fresh_record student_id record)).
    { intros k v. unfold d0. clear. induction d as [|[k' v'] d IH]; simpl.
      - intros [[= <- <-]|[]]. now right.
      - destruct (Z.eqb student_id k') eqn:E; simpl.
        + apply Z.eqb_eq in E. subst k'. intros [[= <- <-]|H]; auto.
        + intros [H|H]; auto. destruct (IH H); auto. }
    destruct (Num.gt (zero + hrs_possible record) zero) eqn:Hp.
    + simpl. intros [= <-].
      exists student_id,
        ((zero + hrs_attended record) / (zero + hrs_possible record) * hundred)%float,
        d0.
      rewrite He. repeat split; auto.
    + destruct ap as [p|]; simpl; [|discriminate].
      intros [= <-]. exists student_id, p, d0.
      rewrite He. repeat split; auto.
      change (hrs_possible (fresh_record student_id record)) with zero.
      rewrite Hp. discriminate.
Qed.

Lemma rows_of_cons (student_id : Z) (record : row) (rest : list row) (k : Z) :
  student_number record = Some k ->
  rows_of student_id (record :: rest) =
  if Z.eqb k student_id then record :: rows_of student_id rest
  else rows_of student_id rest.
Proof.
  intros H. unfold rows_of. simpl. unfold is_row_of_student at 1. now rewrite H.
Qed.

(** After a successful run of the loop, the entry of a student holds the
    totals of its rows, added in order to what the entry held before, and a
    percent computed from the final totals whenever the total of possible
    hours is positive. *)
Lemma consolidate_loop_get (rows : list row) (ap ap' : option float)
    (d d' : list (Z * row)) (student_id : Z) :
  consolidate_loop rows (ap, d) = Ok (ap', d') ->
  match rows_of student_id rows with
  | [] => PyDict.get student_id d' = PyDict.get student_id d
  | first :: _ =>
      exists e',
        PyDict.get student_id d' = Some e' /\
        let e0 := entry_or_fresh d student_id first in
        let rs := rows_of student_id rows in
        student_number e' = student_number e0 /\
        name e' = name e0 /\
        grade e' = grade e0 /\
        hrs_attended e' = total hrs_attended rs (hrs_attended e0) /\
        hrs_absent e' = total hrs_absent rs (hrs_absent e0) /\
        hrs_possible e' = total hrs_possible rs (hrs_possible e0) /\
        (Num.gt (hrs_possible e') zero = true ->
         ind_att_percent e' =
           Some (percent_of (hrs_attended e') (hrs_possible e')))
  end.
Proof.
  revert ap d. induction rows as [|record rest IH]; intros ap d.
  - simpl. now intros [= _ <-].
  - change (consolidate_loop (record :: rest) (ap, d))
      with (st' <- consolidate_iteration (ap, d) record ;; consolidate_loop rest st').
    destruct (consolidate_iteration (ap, d) record) as [[ap1 d1]|] eqn:E;
      cbn [bind]; [|discriminate].
    intros H. specialize (IH _ _ H).
    apply consolidate_iteration_ok in E.
    destruct E as (sid & p & d0 & Hsid & Hp & Hst & Hother & _ & _).
    injection Hst as -> ->.
    rewrite (rows_of_cons _ _ _ _ Hsid).
    destruct (Z.eqb sid student_id) eqn:Eid.
    + apply Z.eqb_eq in Eid. subst sid.
      set (e := entry_or_fresh d student_id record) in *.
      destruct (rows_of student_id rest) as [|f rs'] eqn:Hrest.
      * rewrite IH, PyDictFacts.get_set_same.
        eexists. split; [reflexivity|]. simpl. repeat split; auto.
        intros Hpos. now rewrite (Hp Hpos).
      * destruct IH as (e' & Hget & Hsn & Hn & Hg & Ha & Hb & Hc & Hpct).
        unfold entry_or_fresh in Hsn, Hn, Hg, Ha, Hb, Hc.
        rewrite PyDictFacts.get_set_same in *.
        exists e'. split; [exact Hget|]. simpl. repeat split; auto.
    + apply Z.eqb_neq in Eid.
      assert (Hsame : PyDict.get student_id
                        (PyDict.set sid
                           (accumulate (entry_or_fresh d sid record) record p) d0)
                      = PyDict.get student_id d).
      { rewrite PyDictFacts.get_set_other by congruence.
        apply Hother. congruence. }
      destruct (rows_of student_id rest) as [|f rs'] eqn:Hrest.
      * now rewrite IH.
      * destruct IH as (e' & Hget & Hrest').
        exists e'. split; [exact Hget|].
        unfold entry_or_fresh in *. now rewrite Hsame in Hrest'.
Qed.

Lemma in_set_inv {V : Type} (d : list (Z * V)) (k k' : Z) (v v' : V) :
  In (k, v) (PyDict.set k' v' d) -> (k = k' /\ v = v') \/ In (k, v) d.
Proof.
  induction d as [|[k0 v0] d IH]; simpl.
  - intros [[= <- <-]|[]]. auto.
  - destruct (Z.eqb k' k0) eqn:E; simpl.
    + apply Z.eqb_eq in E. subst k0. intros [[= <- <-]|H]; auto.
    + intros [H|H]; auto. destruct (IH H); auto.
Qed.

(** The keys of the dictionary stay distinct, and every entry sits under
    its own student number. *)
Lemma consolidate_loop_keys (rows : list row) (ap ap' : option float)
    (d d' : list (Z * row)) :
  consolidate_loop rows (ap, d) = Ok (ap', d') ->
  NoDup (PyDict.keys d) ->
  (forall k e, In (k, e) d -> student_number e = Some k) ->
  NoDup (PyDict.keys d') /\
  (forall k e, In (k, e) d' -> student_number e = Some k).
Proof.
  revert ap d. induction rows as [|record rest IH]; intros ap d.
  - simpl. intros [= _ <-]. auto.
  - change (consolidate_loop (record :: rest) (ap, d))
      with (st' <- consolidate_iteration (ap, d) record ;; consolidate_loop rest st').
    destruct (consolidate_iteration (ap, d) record) as [[ap1 d1]|] eqn:E;
      cbn [bind]; [|discriminate].
    intros H Hnd Hkeys.
    apply consolidate_iteration_ok in E.
    destruct E as (sid & p & d0 & Hsid & _ & Hst & Hother & Hnd0 & Hin0).
    injection Hst as -> ->.
    apply (IH _ _ H).
    + apply PyDictFacts.keys_set_nodup. auto.
    + intros k e Hin. apply in_set_inv in Hin.
      destruct Hin as [[-> ->]|Hin].
      * simpl. unfold entry_or_fresh.
        destruct (PyDict.get sid d) as [e0|] eqn:He0; [|reflexivity].
        apply Hkeys. now apply PyDictFacts.get_in.
      * destruct (Hin0 _ _ Hin) as [Hd|[-> ->]]; auto.
Qed.

Lemma rows_of_nonempty (student_id : Z) (rows : list row) :
  In (Some student_id) (map student_number rows) ->
  rows_of student_id rows <> [].
Proof.
  intros H. apply in_map_iff in H. destruct H as (r & Hr & Hin).
  assert (Hf : In r (rows_of student_id rows)).
  { apply filter_In. split; auto. unfold is_row_of_student.
    now rewrite Hr, Z.eqb_refl. }
  intros E. now rewrite E in Hf.
Qed.

Lemma rows_of_in (student_id : Z) (rows : list row) (first : row) (rest : list row) :
  rows_of student_id rows = first :: rest ->
  In (Some student_id) (map student_number rows).
Proof.
  intros H.
  assert (Hf : In first (rows_of student_id rows)) by (rewrite H; now left).
  apply filter_In in Hf. destruct Hf as [Hin Hf].
  unfold is_row_of_student in Hf.
  destruct (student_number first) as [k|] eqn:Hk; [|discriminate].
  apply Z.eqb_eq in Hf. subst k. rewrite <- Hk. now apply in_map.
Qed.

Lemma positive_not_zero (x : float) : Num.gt x zero = true -> x <> zero.
Proof.
  intros H ->. unfold Num.gt in H. vm_compute in H. discriminate.
Qed.

(** Whenever [consolidate_attendance] returns, its result has one record per
    student among those whose possible hours total more than zero: the hour
    fields are the totals of the student's rows in snapshot order, the
    percent is computed from the final totals, and no record has zero
    possible hours. *)
Lemma consolidate_attendance_sound (attendance_data consolidated_list : list row) :
  consolidate_attendance attendance_data = Ok consolidated_list ->
  NoDup (map student_number consolidated_list) /\
  (forall data, In data consolidated_list ->
     exists student_id first rest,
       student_number data = Some student_id /\
       rows_of student_id attendance_data = first :: rest /\
       name data = name first /\
       grade data = grade first /\
       hrs_attended data = total hrs_attended (first :: rest) zero /\
       hrs_absent data = total hrs_absent (first :: rest) zero /\
       hrs_possible data = total hrs_possible (first :: rest) zero /\
       ind_att_percent data =
         Some (percent_of (hrs_attended data) (hrs_possible data)) /\
       hrs_possible data <> zero) /\
  (forall student_id,
     In (Some student_id) (map student_number attendance_data) ->
     Num.gt (total hrs_possible (rows_of student_id attendance_data) zero) zero = true ->
     exists data, In data consolidated_list /\ student_number data = Some student_id).
Proof.
  unfold consolidate_attendance.
  destruct (consolidate_loop attendance_data (None, [])) as [[ap' d']|] eqn:Hloop;
    simpl; [|discriminate].
  intros [= <-].
  destruct (consolidate_loop_keys _ _ _ _ _ Hloop) as [Hnd Hkeys];
    [constructor | intros ? ? [] |].
  split; [|split].
  - assert (Hmap : forall l : list (Z * row),
               (forall k e, In (k, e) l -> student_number e = Some k) ->
               NoDup (PyDict.keys l) ->
               NoDup (map student_number
                        (filter (fun data => Num.gt (hrs_possible data) zero)
                           (PyDict.values l)))).
    { induction l as [|[k e] l IHl]; simpl; intros Hk Hn; [constructor|].
      inversion Hn as [|? ? Hnotin Hn']; subst.
      assert (IHl' := IHl (fun k0 e0 H0 => Hk k0 e0 (or_intror H0)) Hn').
      destruct (Num.gt (hrs_possible e) zero); auto.
      simpl. constructor; auto.
      intros Hin. apply in_map_iff in Hin. destruct Hin as (e1 & He1 & Hin1).
      apply filter_In in Hin1. destruct Hin1 as [Hin1 _].
      apply in_map_iff in Hin1. destruct Hin1 as ([k1 e1'] & <- & Hin1).
      simpl in He1. rewrite (Hk k1 e1' (or_intror Hin1)) in He1.
      rewrite (Hk k e (or_introl eq_refl)) in He1. injection He1 as ->.
      apply Hnotin. change (In (fst (k, e1')) (map fst l)). now apply in_map. }
    now apply Hmap.
  - intros data Hin. apply filter_In in Hin. destruct Hin as [Hin Hpos].
    apply in_map_iff in Hin. destruct Hin as ([k e] & <- & Hin). simpl in *.
    pose proof (PyDictFacts.in_get_nodup _ _ _ Hnd Hin) as Hget.
    pose proof (consolidate_loop_get _ _ _ _ _ k Hloop) as Hspec.
    destruct (rows_of k attendance_data) as [|first rest] eqn:Hrows.
    + simpl in Hspec. congruence.
    + destruct Hspec as (e' & Hget' & Hsn & Hn & Hg & Ha & Hb & Hc & Hpct).
      rewrite Hget in Hget'. injection Hget' as <-.
      exists k, first, rest. unfold entry_or_fresh in *. simpl in *.
      repeat split; auto. now apply positive_not_zero.
  - intros student_id Hin Hpos.
    pose proof (consolidate_loop_get _ _ _ _ _ student_id Hloop) as Hspec.
    destruct (rows_of student_id attendance_data) as [|first rest] eqn:Hrows.
    + exfalso. now apply (rows_of_nonempty _ _ Hin).
    + destruct Hspec as (e' & Hget' & Hsn & _ & _ & _ & _ & Hc & _).
      exists e'. unfold entry_or_fresh in *. simpl in *. split; auto.
      apply filter_In. split.
      * apply PyDictFacts.get_in in Hget'.
        change e' with (snd (student_id, e')). now apply in_map.
      * now rewrite Hc.
Qed.

(** C2, on the code.  The last statement of the loop body reads
    [attendance_percentage], which only the branch [total_possible > 0]
    assigns: on a snapshot whose first row has no possible hours the call
    raises [UnboundLocalError] instead of returning the empty list. *)
Theorem consolidate_attendance_first_row_without_hours :
  consolidate_attendance
    [mk_row (Some 1001) "Doe, John" "5" zero zero zero (Some zero)]
  = Raise UnboundLocalError.
Proof. vm_compute. reflexivity. Qed.

(** ** Backup paths *)

Module PathFacts.

Fixpoint has_char (c : ascii) (s : string) : bool :=
  match s with
  | EmptyString => false
  | String a s' => Ascii.eqb a c || has_char c s'
  end.

(** The last component of a path. *)
Definition basename (p : string) : string :=
  match Path.rsplit Path.slash p with
  | Some (_, t) => t
  | None => p
  end.

Lemma length_append (a b : string) :
  String.length (a ++ b) = (String.length a + String.length b)%nat.
Proof. induction a; simpl; auto. Qed.

Lemma append_assoc (a b c : string) : (a ++ b) ++ c = a ++ (b ++ c).
Proof. induction a; simpl; congruence. Qed.

Lemma append_empty_r (a : string) : a ++ "" = a.
Proof. induction a; simpl; congruence. Qed.

Lemma has_char_append (c : ascii) (a b : string) :
  has_char c (a ++ b) = has_char c a || has_char c b.
Proof.
  induction a as [|x a IH]; simpl; auto.
  rewrite IH. now rewrite orb_assoc.
Qed.

Lemma rsplit_none (c : ascii) (s : string) :
  Path.rsplit c s = None <-> has_char c s = false.
Proof.
  induction s as [|a s IH]; simpl; [tauto|].
  destruct (Path.rsplit c s) as [[before after]|].
  - split; [discriminate|]. intros H. apply orb_false_iff in H.
    destruct H as [_ H]. apply IH in H. discriminate.
  - destruct (Ascii.eqb a c); simpl; split; try discriminate; tauto.
Qed.

Lemma rsplit_some (c : ascii) (s before after : string) :
  Path.rsplit c s = Some (before, after) ->
  s = before ++ String c after /\ has_char c after = false.
Proof.
  revert before. induction s as [|a s IH]; intros before; simpl; [discriminate|].
  destruct (Path.rsplit c s) as [[b1 a1]|] eqn:E.
  - intros [= <- <-]. destruct (IH _ eq_refl) as [-> H]. auto.
  - destruct (Ascii.eqb a c) eqn:Ea; [|discriminate].
    intros [= <- <-]. apply Ascii.eqb_eq in Ea. subst a.
    split; auto. now apply rsplit_none.
Qed.

Lemma rsplit_build (c : ascii) (a b : string) :
  has_char c b = false -> Path.rsplit c (a ++ String c b) = Some (a, b).
Proof.
  intros H. induction a as [|x a IH]; simpl.
  - apply rsplit_none in H. now rewrite H, Ascii.eqb_refl.
  - now rewrite IH.
Qed.

Lemma basename_no_slash (p : string) : has_char Path.slash (basename p) = false.
Proof.
  unfold basename. destruct (Path.rsplit Path.slash p) as [[b t]|] eqn:E.
  - now apply rsplit_some in E.
  - now apply rsplit_none.
Qed.

Lemma basename_split (p : string) : snd (Path.split p) = basename p.
Proof.
  unfold Path.split, basename.
  now destruct (Path.rsplit Path.slash p) as [[b t]|].
Qed.

Lemma basename_join (a b : string) :
  has_char Path.slash b = false -> basename (Path.join a b) = b.
Proof.
  intros Hb. unfold Path.join.
  assert (Hself : basename b = b).
  { unfold basename. apply rsplit_none in Hb. now rewrite Hb. }
  assert (Hsep : basename (a ++ String Path.slash b) = b).
  { unfold basename. now rewrite rsplit_build. }
  assert (Hends : Path.ends_with_slash a = true -> basename (a ++ b) = b).
  { unfold Path.ends_with_slash.
    destruct (Path.rsplit Path.slash a) as [[a' t]|] eqn:E; [|discriminate].
    destruct t; [|discriminate]. intros _.
    apply rsplit_some in E. destruct E as [-> _].
    rewrite append_assoc. simpl. unfold basename. now rewrite rsplit_build. }
  destruct b as [|ch b'].
  - destruct (String.eqb a EmptyString) eqn:Ea; simpl.
    + apply String.eqb_eq in Ea. now subst.
    + destruct (Path.ends_with_slash a) eqn:Ee; auto.
      specialize (Hends eq_refl). now rewrite append_empty_r in Hends.
  - simpl in Hb. apply orb_false_iff in Hb. destruct Hb as [Hch _].
    rewrite Hch.
    destruct (String.eqb a EmptyString) eqn:Ea; simpl.
    + apply String.eqb_eq in Ea. now subst.
    + destruct (Path.ends_with_slash a); auto.
Qed.

Lemma splitext_append (n b e : string) : Path.splitext n = (b, e) -> n = b ++ e.
Proof.
  unfold Path.splitext.
  destruct (Path.rsplit Path.dot n) as [[before after]|] eqn:E.
  - destruct (Path.all_chars Path.dot before).
    + intros [= <- <-]. now rewrite append_empty_r.
    + intros [= <- <-]. now apply rsplit_some in E.
  - intros [= <- <-]. now rewrite append_empty_r.
Qed.

Lemma digit_not_slash (n : nat) : Ascii.eqb (digit n) Path.slash = false.
Proof.
  unfold digit.
  assert (H : (n mod 10 < 10)%nat) by (apply Nat.mod_upper_bound; discriminate).
  destruct (n mod 10)%nat as [|[|[|[|[|[|[|[|[|[|k]]]]]]]]]]; try reflexivity.
  lia.
Qed.

Lemma two_digits_no_slash (n : nat) : has_char Path.slash (two_digits n) = false.
Proof.
  unfold two_digits. cbn [has_char]. now rewrite !digit_not_slash.
Qed.

Lemma two_digits_length (n : nat) : String.length (two_digits n) = 2%nat.
Proof. reflexivity. Qed.

Lemma strftime_no_slash (now : datetime) : has_char Path.slash (strftime now) = false.
Proof.
  unfold strftime. rewrite !has_char_append, !two_digits_no_slash. reflexivity.
Qed.

Lemma strftime_length (now : datetime) : String.length (strftime now) = 14%nat.
Proof.
  unfold strftime. rewrite !length_append, !two_digits_length. reflexivity.
Qed.

(** The backup never has the name of the base file. *)
Lemma backup_file_path_neq (base_file_path : string) (now : datetime) :
  backup_file_path base_file_path now <> base_file_path.
Proof.
  unfold backup_file_path.
  destruct (Path.split base_file_path) as [dir_name file_name] eqn:Hsplit.
  destruct (Path.splitext file_name) as [file_base file_ext] eqn:Hext.
  assert (Hname : file_name = basename base_file_path).
  { rewrite <- basename_split, Hsplit. reflexivity. }
  apply splitext_append in Hext.
  assert (Hno : has_char Path.slash file_name = false).
  { rewrite Hname. apply basename_no_slash. }
  rewrite Hext, has_char_append in Hno. apply orb_false_iff in Hno.
  destruct Hno as [Hb He].
  intros Heq. apply (f_equal basename) in Heq.
  rewrite basename_join in Heq.
  - rewrite <- Hname, Hext in Heq. apply (f_equal String.length) in Heq.
    rewrite !length_append, strftime_length in Heq. simpl in Heq. lia.
  - rewrite !has_char_append, Hb, He, strftime_no_slash. reflexivity.
Qed.

End PathFacts.

(** ** Ledger rollover *)

Lemma files_put_file (path : string) (f : file) (w : world) (p : string) :
  files (put_file path f w) p = if String.eqb p path then Some f else files w p.
Proof. reflexivity. Qed.

Lemma files_put_file_other (path : string) (f : file) (w : world) (p : string) :
  p <> path -> files (put_file path f w) p = files w p.
Proof.
  intros H. rewrite files_put_file. apply String.eqb_neq in H. now rewrite H.
Qed.

Lemma files_put_file_same (path : string) (f : file) (w : world) :
  files (put_file path f w) path = Some f.
Proof. rewrite files_put_file. now rewrite String.eqb_refl. Qed.

(** An age that the [int64] column holds and that can still be decreased. *)
Definition in_range (e : ledger_entry) : Prop :=
  - 2 ^ 63 < weekly_value e < 2 ^ 63.

(** An entry one week older. *)
Definition aged (e : ledger_entry) : ledger_entry :=
  mk_entry (entry_row e) (weekly_value e - 1).

(** The ledger after a rollover: the entries that were not at age -2, one
    week older, then the current snapshot at age -1. *)
Definition rolled_over (entries : list ledger_entry) (current_week_data : list row)
    : list ledger_entry :=
  (map aged (filter (fun e => negb (Z.eqb (weekly_value e) (-2))) entries)
   ++ map (fun r => mk_entry r (-1)) current_week_data)%list.

Lemma int64_wrap_small (z : Z) : - 2 ^ 63 <= z < 2 ^ 63 -> int64_wrap z = z.
Proof.
  intros H. unfold int64_wrap. rewrite Z.mod_small; lia.
Qed.

Lemma decrement_in_range (e : ledger_entry) :
  in_range e -> decrement_weekly_value e = aged e.
Proof.
  unfold in_range, decrement_weekly_value, aged. intros H.
  rewrite int64_wrap_small; [reflexivity | lia].
Qed.

Lemma clean_decrement (entries : list ledger_entry) :
  Forall in_range entries ->
  clean_base_file (map decrement_weekly_value entries) =
  map aged (filter (fun e => negb (Z.eqb (weekly_value e) (-2))) entries).
Proof.
  induction 1 as [|e entries He _ IH]; simpl; auto.
  rewrite IH, (decrement_in_range _ He). simpl.
  rewrite int64_wrap_small by (unfold in_range in He; lia).
  destruct (Z.eqb (weekly_value e) (-2)) eqn:E.
  - apply Z.eqb_eq in E. rewrite E. reflexivity.
  - apply Z.eqb_neq in E.
    destruct (Z.eqb (weekly_value e - 1) (-3)) eqn:E'; simpl; auto.
    apply Z.eqb_eq in E'. lia.
Qed.

(** C3, as amended.  With testing mode off, a base file that reads as a
    ledger whose ages the [int64] column can decrease, and a writable base
    and backup path, [update_base_file] returns and the base file then holds
    exactly: the earlier entries except those that were at age -2, each one
    week older, followed by the current snapshot at age -1.  An entry that was
    already at -3 or below is kept, one week older. *)
Theorem update_base_file_rollover (now : datetime) (current_week_data : list row)
    (base_file_path : string) (mapping : column_mapping) (w : world) (f : file)
    (entries : list ledger_entry) :
  files w base_file_path = Some f ->
  f mapping = Ok (Ledger entries) ->
  Forall in_range entries ->
  writable w base_file_path = true ->
  writable w (backup_file_path base_file_path now) = true ->
  exists w',
    update_base_file false now current_week_data base_file_path mapping w
      = (Ok tt, w') /\
    files w' base_file_path =
      Some (to_csv_file (Ledger (rolled_over entries current_week_data))) /\
    files w' (backup_file_path base_file_path now) = Some f.
Proof.
  intros Hf Hread Hrange Hw Hwb.
  pose proof (PathFacts.backup_file_path_neq base_file_path now) as Hneq.
  unfold update_base_file, base_file_exists, create_backup, copy2.
  rewrite Hf. simpl.
  assert (Hneqb : String.eqb base_file_path (backup_file_path base_file_path now) = false).
  { apply String.eqb_neq. congruence. }
  rewrite Hneqb, Hwb.
  unfold read_csv, read_and_rename. simpl.
  rewrite Hneqb, Hf, Hread. simpl.
  unfold to_csv. simpl. rewrite Hw.
  eexists. split; [reflexivity|]. split.
  - simpl. rewrite String.eqb_refl. unfold rolled_over.
    now rewrite (clean_decrement _ Hrange).
  - simpl. apply String.eqb_neq in Hneq. rewrite Hneq, String.eqb_refl. reflexivity.
Qed.

Definition ledger_row (student_id : Z) (age : Z) : ledger_entry :=
  mk_entry (mk_row (Some student_id) "Doe, John" "5" zero zero zero (Some zero)) age.

(** A world with one base file and nothing else, every path writable. *)
Definition ledger_world (base_file_path : string) (entries : list ledger_entry)
    : world :=
  mk_world
    (fun p => if String.eqb p base_file_path
              then Some (fun _ : column_mapping => Ok (Ledger entries)) else None)
    (fun _ => true) [] [].

Definition sample_now : datetime := mk_datetime 11 4 9 5 59.

Lemma update_base_file_rollover_witness :
  exists w',
    update_base_file false sample_now [attendance_row 1004 85] "base_file.csv" []
      (ledger_world "base_file.csv"
         [ledger_row 1001 (-1); ledger_row 1002 (-2); ledger_row 1003 (-2)])
      = (Ok tt, w') /\
    files w' "base_file.csv" =
      Some (to_csv_file
              (Ledger (rolled_over
                         [ledger_row 1001 (-1); ledger_row 1002 (-2); ledger_row 1003 (-2)]
                         [attendance_row 1004 85]))) /\
    files w' (backup_file_path "base_file.csv" sample_now) =
      Some (fun _ : column_mapping =>
              Ok (Ledger [ledger_row 1001 (-1); ledger_row 1002 (-2);
                          ledger_row 1003 (-2)])).
Proof.
  apply (update_base_file_rollover sample_now [attendance_row 1004 85]
           "base_file.csv" []
           (ledger_world "base_file.csv"
              [ledger_row 1001 (-1); ledger_row 1002 (-2); ledger_row 1003 (-2)])).
  - reflexivity.
  - reflexivity.
  - repeat constructor; simpl; lia.
  - reflexivity.
  - reflexivity.
Defined.

(** C3, as stated, fails: an entry that is at age -3 before the call is at
    age -4 after it and stays in the persisted ledger, although its age is
    then at most -3. *)
Lemma update_base_file_keeps_older_entries :
  exists w' persisted e,
    update_base_file false sample_now [] "base_file.csv" []
      (ledger_world "base_file.csv" [ledger_row 1001 (-3)]) = (Ok tt, w') /\
    files w' "base_file.csv" = Some (to_csv_file (Ledger persisted)) /\
    In e persisted /\
    weekly_value e <= -3.
Proof.
  eexists _, [ledger_row 1001 (-4)], (ledger_row 1001 (-4)).
  split; [reflexivity|]. split; [reflexivity|]. split; [now left|]. simpl. lia.
Qed.

(** ** Backup before mutation *)

(** The three ways a run of [update_base_file] on an existing base file with
    contents [f] can go, read off the events it adds: the copy fails and
    nothing is touched; the copy is made and the run stops before writing,
    the base file still holding [f]; the copy is made and the base file is
    written after it.  In the last two the backup holds [f]. *)
Definition backed_up_first (w w' : world) (f : file) (base backup : string)
    (r : result unit) : Prop :=
  exists new,
    events w' = (events w ++ new)%list /\
    ((new = [] /\ files w' base = Some f /\ exists e, r = Raise e) \/
     (new = [Copied base backup] /\
      files w' base = Some f /\
      files w' backup = Some f /\
      exists e, r = Raise e) \/
     (new = [Copied base backup; Wrote base] /\
      files w' backup = Some f /\
      r = Ok tt)).

(** C5.  With testing mode off and an existing base file, a write of the
    base file is always preceded by the completed copy of its contents to
    the timestamped backup path, and the backup still holds those contents
    when [update_base_file] ends. *)
Theorem backup_before_mutate (now : datetime) (current_week_data : list row)
    (base_file_path : string) (mapping : column_mapping) (w w' : world)
    (f : file) (r : result unit) :
  files w base_file_path = Some f ->
  update_base_file false now current_week_data base_file_path mapping w = (r, w') ->
  backed_up_first w w' f base_file_path (backup_file_path base_file_path now) r.
Proof.
  intros Hf Hrun.
  pose proof (PathFacts.backup_file_path_neq base_file_path now) as Hneq.
  set (backup := backup_file_path base_file_path now) in *.
  assert (Hneqb : String.eqb base_file_path backup = false).
  { apply String.eqb_neq. congruence. }
  assert (Hneqb' : String.eqb backup base_file_path = false).
  { now apply String.eqb_neq. }
  unfold update_base_file, base_file_exists, create_backup, copy2 in Hrun.
  fold backup in Hrun. rewrite Hf, Hneqb in Hrun. simpl in Hrun.
  destruct (writable w backup) eqn:Hwb.
  - unfold read_csv, read_and_rename in Hrun. simpl in Hrun.
    rewrite Hneqb, Hf in Hrun.
    set (w1 := record_event (Copied base_file_path backup) (put_file backup f w))
      in Hrun.
    assert (Hbase1 : files w1 base_file_path = Some f).
    { unfold w1. simpl. now rewrite Hneqb. }
    assert (Hbackup1 : files w1 backup = Some f).
    { unfold w1. simpl. now rewrite String.eqb_refl. }
    assert (Hstop : forall w2 e,
               files w2 = files w1 -> events w2 = events w1 ->
               (Raise e, w2) = (r, w') ->
               backed_up_first w w' f base_file_path backup r).
    { intros w2 e Hfiles Hevents [= <- <-].
      exists [Copied base_file_path backup].
      split; [now rewrite Hevents|]. right; left.
      rewrite Hfiles. eauto. }
    assert (Hwrite : forall df,
               to_csv df base_file_path w1 = (r, w') ->
               backed_up_first w w' f base_file_path backup r).
    { intros df. unfold to_csv.
      destruct (writable w1 base_file_path).
      - intros [= <- <-].
        exists [Copied base_file_path backup; Wrote base_file_path].
        split.
        + unfold w1. simpl. now rewrite <- app_assoc.
        + right; right. repeat split; auto.
          simpl. now rewrite Hneqb', String.eqb_refl.
      - intros H. apply (Hstop w1 PermissionError eq_refl eq_refl H). }
    destruct (f mapping) as [df|e] eqn:Hread.
    + destruct df as [rows|entries]; simpl in Hrun.
      * apply (Hstop w1 KeyError eq_refl eq_refl Hrun).
      * apply (Hwrite _ Hrun).
    + destruct e; simpl in Hrun;
        match type of Hrun with
        | (Raise ?e, ?w2) = _ => apply (Hstop w2 e eq_refl eq_refl Hrun)
        end.
  - injection Hrun as <- <-. exists []. split; [now rewrite app_nil_r|].
    left. eauto.
Qed.

Lemma backup_before_mutate_witness :
  let w := ledger_world "base_file.csv" [ledger_row 1001 (-1)] in
  let run :=
    update_base_file false sample_now [attendance_row 1004 85] "base_file.csv" [] w in
  backed_up_first w (snd run)
    (fun _ : column_mapping => Ok (Ledger [ledger_row 1001 (-1)]))
    "base_file.csv" (backup_file_path "base_file.csv" sample_now) (fst run).
Proof.
  apply (backup_before_mutate sample_now [attendance_row 1004 85]
           "base_file.csv" []
           (ledger_world "base_file.csv" [ledger_row 1001 (-1)])).
  - reflexivity.
  - apply surjective_pairing.
Defined.

(** ** Reading files *)

(** The frame that [read_csv] returns. *)
Definition read_frame (w : world) (file_path : string) (mapping : column_mapping)
    : data_frame :=
  match read_and_rename w file_path mapping with
  | Ok df => df
  | Raise _ => empty_frame
  end.

Lemma read_csv_frame (file_path : string) (mapping : column_mapping) (w : world) :
  fst (read_csv file_path mapping w) = read_frame w file_path mapping.
Proof.
  unfold read_csv, read_frame.
  destruct (read_and_rename w file_path mapping) as [df|[]]; reflexivity.
Qed.

(** [read_csv] only prints. *)
Lemma read_csv_world (file_path : string) (mapping : column_mapping) (w : world) :
  files (snd (read_csv file_path mapping w)) = files w /\
  writable (snd (read_csv file_path mapping w)) = writable w /\
  events (snd (read_csv file_path mapping w)) = events w.
Proof.
  unfold read_csv.
  destruct (read_and_rename w file_path mapping) as [df|[]]; auto.
Qed.

Lemma read_csv_raise (file_path : string) (mapping : column_mapping) (w : world)
    (e : exn) :
  read_and_rename w file_path mapping = Raise e ->
  exists line, read_csv file_path mapping w = (empty_frame, print line w).
Proof.
  intros H. unfold read_csv. rewrite H. destruct e; eauto.
Qed.

Lemma read_frame_files (w1 w2 : world) (file_path : string) (mapping : column_mapping) :
  files w1 = files w2 ->
  read_frame w1 file_path mapping = read_frame w2 file_path mapping.
Proof.
  intros H. unfold read_frame, read_and_rename. now rewrite H.
Qed.

Lemma consolidate_attendance_nil : consolidate_attendance [] = Ok [].
Proof. reflexivity. Qed.

(** A world without any file. *)
Definition empty_world : world :=
  mk_world (fun _ => None) (fun _ => true) [] [].

(** A world whose base file exists and cannot be parsed. *)
Definition corrupt_ledger_world : world :=
  mk_world
    (fun p => if String.eqb p "base_file.csv"
              then Some (fun _ : column_mapping => Raise ParserError) else None)
    (fun _ => true) [] [].

(** An unreadable base file stops the run: [read_csv] returns the empty
    frame, and [read_previous_weeks] then raises [KeyError] on its missing
    [weekly_value] column. *)
Lemma input_attendance_data_unreadable_ledger :
  fst (read_csv "base_file.csv" [] corrupt_ledger_world) = empty_frame /\
  fst (input_attendance_data "YTD Student Attendance Extract.csv" "base_file.csv" []
         corrupt_ledger_world)
  = Raise KeyError.
Proof. split; reflexivity. Qed.

(** ** Reading leaves the files as they are *)

Lemma read_previous_weeks_files (base_file_path : string) (mapping : column_mapping)
    (w1 w2 : world) :
  files w1 = files w2 ->
  fst (read_previous_weeks base_file_path mapping w1)
  = fst (read_previous_weeks base_file_path mapping w2).
Proof.
  intros H. unfold read_previous_weeks.
  pose proof (read_csv_frame base_file_path mapping w1) as H1.
  pose proof (read_csv_frame base_file_path mapping w2) as H2.
  rewrite (read_frame_files _ _ _ _ H) in H1.
  destruct (read_csv base_file_path mapping w1) as [df1 w1'].
  destruct (read_csv base_file_path mapping w2) as [df2 w2'].
  simpl in H1, H2. subst df1 df2.
  destruct (weekly_values (read_frame w2 base_file_path mapping)); reflexivity.
Qed.

Lemma read_previous_weeks_world (base_file_path : string) (mapping : column_mapping)
    (w : world) :
  files (snd (read_previous_weeks base_file_path mapping w)) = files w.
Proof.
  unfold read_previous_weeks.
  pose proof (read_csv_world base_file_path mapping w) as [H _].
  destruct (read_csv base_file_path mapping w) as [df w'].
  simpl in H. destruct (weekly_values df); exact H.
Qed.

(** [input_attendance_data] reads the files and leaves them as they are. *)
Lemma input_attendance_data_files (new_report base_file : string)
    (mapping : column_mapping) (w1 w2 : world) :
  files w1 = files w2 ->
  fst (input_attendance_data new_report base_file mapping w1)
  = fst (input_attendance_data new_report base_file mapping w2).
Proof.
  intros H. unfold input_attendance_data.
  pose proof (read_csv_frame new_report mapping w1) as H1.
  pose proof (read_csv_frame new_report mapping w2) as H2.
  pose proof (read_csv_world new_report mapping w1) as [F1 _].
  pose proof (read_csv_world new_report mapping w2) as [F2 _].
  rewrite (read_frame_files _ _ _ _ H) in H1.
  destruct (read_csv new_report mapping w1) as [df1 w1'].
  destruct (read_csv new_report mapping w2) as [df2 w2'].
  simpl in H1, H2, F1, F2. subst df1 df2.
  destruct (consolidate_attendance (df_to_dict (read_frame w2 new_report mapping)));
    [|reflexivity].
  assert (HF : files w1' = files w2') by congruence.
  unfold base_file_exists. rewrite HF.
  destruct (files w2' base_file); [|reflexivity].
  pose proof (read_previous_weeks_files base_file mapping _ _ HF) as HP.
  destruct (read_previous_weeks base_file mapping w1') as [[[o1 t1]|e1] u1];
    destruct (read_previous_weeks base_file mapping w2') as [[[o2 t2]|e2] u2];
    simpl in HP; try discriminate; now inversion HP.
Qed.

Lemma input_attendance_data_world (new_report base_file : string)
    (mapping : column_mapping) (w : world) :
  files (snd (input_attendance_data new_report base_file mapping w)) = files w.
Proof.
  unfold input_attendance_data.
  pose proof (read_csv_world new_report mapping w) as [F _].
  destruct (read_csv new_report mapping w) as [df w'].
  simpl in F.
  destruct (consolidate_attendance (df_to_dict df)); [|exact F].
  destruct (base_file_exists base_file w'); [|exact F].
  pose proof (read_previous_weeks_world base_file mapping w') as HP.
  destruct (read_previous_weeks base_file mapping w') as [[[o t]|e] u];
    simpl in *; congruence.
Qed.

Lemma comparison_pipeline_files (new_report base_file : string)
    (mapping : column_mapping) (w1 w2 : world) :
  files w1 = files w2 ->
  fst (comparison_pipeline new_report base_file mapping w1)
  = fst (comparison_pipeline new_report base_file mapping w2).
Proof.
  intros H. unfold comparison_pipeline.
  pose proof (input_attendance_data_files new_report base_file mapping _ _ H) as HI.
  destruct (input_attendance_data new_report base_file mapping w1)
    as [[[[c1 o1] t1]|e1] u1];
    destruct (input_attendance_data new_report base_file mapping w2)
      as [[[[c2 o2] t2]|e2] u2];
    simpl in HI; try discriminate; now inversion HI.
Qed.

Lemma comparison_pipeline_world (new_report base_file : string)
    (mapping : column_mapping) (w : world) :
  files (snd (comparison_pipeline new_report base_file mapping w)) = files w.
Proof.
  unfold comparison_pipeline.
  pose proof (input_attendance_data_world new_report base_file mapping w) as HI.
  destruct (input_attendance_data new_report base_file mapping w)
    as [[[[c o] t]|e] u]; exact HI.
Qed.

(** * Further properties of the run *)

(** ** The order of doubles *)

Module FloatOrder.

(** A double that is not NaN, as a point of the lexicographic order on
    triples that [SFcompare] decides: the class (infinite, finite or zero,
    by sign), then the exponent, then the mantissa, both negated for a
    negative double. *)
Definition key (s : spec_float) : option (Z * Z * Z) :=
  match s with
  | S754_nan => None
  | S754_zero _ => Some (0, 0, 0)
  | S754_infinity s => Some (if s then -2 else 2, 0, 0)
  | S754_finite s m e => Some (if s then (-1, - e, Zneg m) else (1, e, Zpos m))
  end.

Definition value (x : float) : option (Z * Z * Z) := key (Prim2SF x).

Definition key_lt (a b : Z * Z * Z) : Prop :=
  let '(a1, a2, a3) := a in
  let '(b1, b2, b3) := b in
  a1 < b1 \/ (a1 = b1 /\ (a2 < b2 \/ (a2 = b2 /\ a3 < b3))).

Definition key_le (a b : Z * Z * Z) : Prop :=
  let '(a1, a2, a3) := a in
  let '(b1, b2, b3) := b in
  a1 < b1 \/ (a1 = b1 /\ (a2 < b2 \/ (a2 = b2 /\ a3 <= b3))).

Definition key_compare (a b : Z * Z * Z) : comparison :=
  let '(a1, a2, a3) := a in
  let '(b1, b2, b3) := b in
  match (a1 ?= b1)%Z with
  | Eq => match (a2 ?= b2)%Z with
          | Eq => (a3 ?= b3)%Z
          | c => c
          end
  | c => c
  end.

Lemma key_compare_lt (a b : Z * Z * Z) : key_compare a b = Lt <-> key_lt a b.
Proof.
  destruct a as [[a1 a2] a3], b as [[b1 b2] b3]. unfold key_compare, key_lt.
  destruct (Z.compare_spec a1 b1); [|split; [lia|auto]|split; [discriminate|lia]].
  destruct (Z.compare_spec a2 b2); [|split; [lia|auto]|split; [discriminate|lia]].
  destruct (Z.compare_spec a3 b3); split; try discriminate; try lia; auto.
Qed.

Lemma key_compare_le (a b : Z * Z * Z) : key_compare a b <> Gt <-> key_le a b.
Proof.
  destruct a as [[a1 a2] a3], b as [[b1 b2] b3]. unfold key_compare, key_le.
  destruct (Z.compare_spec a1 b1);
    [|split; [lia|discriminate]|split; [congruence|lia]].
  destruct (Z.compare_spec a2 b2);
    [|split; [lia|discriminate]|split; [congruence|lia]].
  destruct (Z.compare_spec a3 b3); split; try discriminate; try congruence; lia.
Qed.

Lemma SFcompare_key (a b : spec_float) :
  SFcompare a b =
  match key a, key b with
  | Some ka, Some kb => Some (key_compare ka kb)
  | _, _ => None
  end.
Proof.
  destruct a as [sa|sa| |sa ma ea], b as [sb|sb| |sb mb eb];
    try reflexivity;
    try (destruct sa; reflexivity);
    try (destruct sb; reflexivity);
    try (destruct sa, sb; reflexivity).
  destruct sa, sb; try reflexivity; unfold SFcompare, key, key_compare.
  rewrite Z.compare_opp, (Z.compare_antisym ea eb).
  change (-1 ?= -1)%Z with Eq. cbv iota.
  destruct (ea ?= eb)%Z; reflexivity.
Qed.

Lemma ltb_value (x y : float) (a b : Z * Z * Z) :
  value x = Some a -> value y = Some b ->
  (PrimFloat.ltb x y = true <-> key_lt a b).
Proof.
  unfold value. intros Hx Hy.
  rewrite ltb_spec. unfold SFltb. rewrite SFcompare_key, Hx, Hy.
  rewrite <- key_compare_lt.
  destruct (key_compare a b); split; congruence.
Qed.

Lemma leb_value (x y : float) (a b : Z * Z * Z) :
  value x = Some a -> value y = Some b ->
  (PrimFloat.leb x y = true <-> key_le a b).
Proof.
  unfold value. intros Hx Hy.
  rewrite leb_spec. unfold SFleb. rewrite SFcompare_key, Hx, Hy.
  rewrite <- key_compare_le.
  destruct (key_compare a b); split; congruence.
Qed.

(** Every comparison with NaN is false. *)
Lemma ltb_nan_l (x y : float) : value x = None -> PrimFloat.ltb x y = false.
Proof.
  unfold value. intros H.
  rewrite ltb_spec. unfold SFltb. now rewrite SFcompare_key, H.
Qed.

Lemma ltb_nan_r (x y : float) : value y = None -> PrimFloat.ltb x y = false.
Proof.
  unfold value. intros H.
  rewrite ltb_spec. unfold SFltb. rewrite SFcompare_key, H.
  now destruct (key (Prim2SF x)).
Qed.

Lemma leb_nan_l (x y : float) : value x = None -> PrimFloat.leb x y = false.
Proof.
  unfold value. intros H.
  rewrite leb_spec. unfold SFleb. now rewrite SFcompare_key, H.
Qed.

Lemma leb_nan_r (x y : float) : value y = None -> PrimFloat.leb x y = false.
Proof.
  unfold value. intros H.
  rewrite leb_spec. unfold SFleb. rewrite SFcompare_key, H.
  now destruct (key (Prim2SF x)).
Qed.

(** A double is a number when it compares with itself. *)
Lemma leb_refl_value (x : float) :
  PrimFloat.leb x x = true <-> exists a, value x = Some a.
Proof.
  destruct (value x) as [a|] eqn:Hx.
  - rewrite (leb_value x x a a Hx Hx). split; [eauto|]. intros _.
    destruct a as [[a1 a2] a3]. unfold key_le. lia.
  - rewrite (leb_nan_l x x Hx). split; [discriminate|]. now intros [a Ha].
Qed.

End FloatOrder.

(** [Num.is_number x]: [x] is not NaN ([x == x] in Python). *)
Definition is_number (x : float) : bool := Num.le x x.

(** The comparisons of the goal between a double [x] of value [Hx] and a
    literal [c], as statements on keys. *)
Ltac pose_comparison b H :=
  lazymatch goal with
  | |- context [b] => pose proof H
  | _ => idtac
  end.

Ltac compare_with x Hx c :=
  let k := eval vm_compute in (FloatOrder.value c) in
  lazymatch k with
  | Some ?b =>
      let Hc := fresh "Hc" in
      assert (Hc : FloatOrder.value c = Some b) by (vm_compute; reflexivity);
      pose_comparison (PrimFloat.ltb x c) (FloatOrder.ltb_value x c _ _ Hx Hc);
      pose_comparison (PrimFloat.ltb c x) (FloatOrder.ltb_value c x _ _ Hc Hx);
      pose_comparison (PrimFloat.leb x c) (FloatOrder.leb_value x c _ _ Hx Hc);
      pose_comparison (PrimFloat.leb c x) (FloatOrder.leb_value c x _ _ Hc Hx);
      clear Hc
  end.

(** Splits on every comparison that has such a statement, keeps the
    statement on keys that holds in each case, and drops the cases that the
    order rules out. *)
Ltac decide_comparisons :=
  unfold FloatOrder.key_lt, FloatOrder.key_le in *;
  repeat match goal with
  | H : (?b = true) <-> ?P |- _ =>
      let E := fresh "E" in
      let K := fresh "K" in
      destruct b eqn:E; rewrite ?E in H;
      [ pose proof (proj1 H eq_refl) as K
      | assert (K : ~ P)
          by (let X := fresh in intros X; apply (proj2 H) in X; discriminate X) ];
      clear H; try (exfalso; lia)
  end;
  repeat match goal with
  | K : context [Z.lt] |- _ => clear K
  | K : context [Z.le] |- _ => clear K
  end.

(** ** Attendance categories *)

(** The label of a percent that is a number is decided by the thresholds
    85, 87.5, 90 and 94: each label stands for one interval, closed below and
    open above, and the five intervals cover every number.  A percent that
    is NaN is labelled ["94 and above"]. *)
Theorem categorize_attendance_thresholds :
  (forall att_percent : float,
      is_number att_percent = true ->
      (categorize_attendance att_percent = "Below 85" <->
       Num.lt att_percent 85 = true) /\
      (categorize_attendance att_percent = "85 to below 87.5" <->
       Num.le 85 att_percent = true /\ Num.lt att_percent 87.5 = true) /\
      (categorize_attendance att_percent = "87.5 to below 90" <->
       Num.le 87.5 att_percent = true /\ Num.lt att_percent 90 = true) /\
      (categorize_attendance att_percent = "90 to below 94" <->
       Num.le 90 att_percent = true /\ Num.lt att_percent 94 = true) /\
      (categorize_attendance att_percent = "94 and above" <->
       Num.le 94 att_percent = true)) /\
  (forall att_percent : float,
      is_number att_percent = false ->
      categorize_attendance att_percent = "94 and above").
Proof.
  split.
  - intros x Hn. unfold is_number, Num.le in Hn.
    apply FloatOrder.leb_refl_value in Hn. destruct Hn as [[[a1 a2] a3] Hx].
    unfold categorize_attendance, Num.lt, Num.le.
    compare_with x Hx 85%float. compare_with x Hx 87.5%float.
    compare_with x Hx 90%float. compare_with x Hx 94%float.
    decide_comparisons; simpl; intuition congruence.
  - intros x Hn. unfold is_number, Num.le in Hn.
    assert (Hx : FloatOrder.value x = None).
    { destruct (FloatOrder.value x) as [a|] eqn:Hx; auto.
      assert (PrimFloat.leb x x = true)
        by (apply FloatOrder.leb_refl_value; eauto).
      congruence. }
    unfold categorize_attendance, Num.lt, Num.le.
    now rewrite !(FloatOrder.ltb_nan_l x _ Hx), !(FloatOrder.leb_nan_r _ x Hx).
Qed.

Lemma categorize_attendance_thresholds_witness :
  categorize_attendance 86 = "85 to below 87.5" <->
  Num.le 85 86 = true /\ Num.lt 86 87.5 = true.
Proof.
  apply (proj1 categorize_attendance_thresholds 86%float).
  vm_compute. reflexivity.
Defined.

(** ** The subsets of a building *)

(** The comparisons of a goal with a percent that is NaN. *)
Ltac nan_comparisons x Hx :=
  rewrite ?(FloatOrder.ltb_nan_l x _ Hx), ?(FloatOrder.ltb_nan_r _ x Hx),
    ?(FloatOrder.leb_nan_l x _ Hx), ?(FloatOrder.leb_nan_r _ x Hx) in *.

(** What [subsets] holds when it returns. *)
Lemma subsets_inv (df : list student_result)
    (s : list (string * list student_result)) :
  subsets df = Ok s ->
  let percent := current_week_att_percent in
  df <> [] /\
  filter_subset_by_conditions df = Ok (subset "Qualify_For_Letters" s) /\
  subset "90_to_100" s =
    filter (fun r => Num.ge (percent r) 90 && Num.le (percent r) 100) df /\
  subset "80_to_90" s =
    filter (fun r => Num.ge (percent r) 80 && Num.lt (percent r) 90) df /\
  subset "50_to_80" s =
    filter (fun r => Num.ge (percent r) 50 && Num.lt (percent r) 80) df /\
  subset "0_to_50" s =
    filter (fun r => Num.ge (percent r) 0 && Num.lt (percent r) 50) df /\
  subset "below_85_zero_weighted_points" s =
    filter (fun r => Num.lt (percent r) 85) df /\
  subset "85_to_87.5_quarter_weighted_points" s =
    filter (fun r => Num.ge (percent r) 85 && Num.lt (percent r) 87.5) df /\
  subset "87.5_to_90_half_weighted_points" s =
    filter (fun r => Num.ge (percent r) 87.5 && Num.lt (percent r) 90) df /\
  subset "90_and_above_full_weighted_point" s =
    filter (fun r => Num.ge (percent r) 90) df /\
  subset "0_to_80" s =
    filter (fun r => Num.gt (percent r) 0 && Num.lt (percent r) 80) df.
Proof.
  unfold subsets. destruct df as [|r0 df]; [discriminate|].
  destruct (filter_subset_by_conditions (r0 :: df)) as [q|]; [|discriminate].
  cbn [bind]. intros [= <-]. split; [discriminate|].
  repeat split; reflexivity.
Qed.

Lemma add_attendance_category_in (results : result_map) (student_id : Z)
    (c : categorized_result) :
  In (student_id, c) (add_attendance_category results) <->
  In (student_id, categorized_data c) results /\
  attendance_category c =
    categorize_attendance (current_week_att_percent (categorized_data c)).
Proof.
  unfold add_attendance_category. rewrite in_map_iff. split.
  - intros ([k data] & [= <- <-] & Hin). simpl. auto.
  - intros [Hin Hc]. exists (student_id, categorized_data c). split; auto.
    destruct c as [data category]. simpl in *. now subst.
Qed.

(** The four extracts that carry the weighted points agree with the
    category column: a student whose percent is a number is in the extract
    below 85, from 85 to 87.5 or from 87.5 to 90 exactly when
    [add_attendance_category] gave it the label of that interval, and in the
    extract of 90 and above exactly when the label is one of the two upper
    ones. *)
Theorem weighted_point_subsets_match_categories (results : result_map)
    (student_id : Z) (c : categorized_result) (df : list student_result)
    (s : list (string * list student_result)) :
  In (student_id, c) (add_attendance_category results) ->
  subsets df = Ok s ->
  In (categorized_data c) df ->
  is_number (current_week_att_percent (categorized_data c)) = true ->
  (In (categorized_data c) (subset "below_85_zero_weighted_points" s) <->
   attendance_category c = "Below 85") /\
  (In (categorized_data c) (subset "85_to_87.5_quarter_weighted_points" s) <->
   attendance_category c = "85 to below 87.5") /\
  (In (categorized_data c) (subset "87.5_to_90_half_weighted_points" s) <->
   attendance_category c = "87.5 to below 90") /\
  (In (categorized_data c) (subset "90_and_above_full_weighted_point" s) <->
   attendance_category c = "90 to below 94" \/
   attendance_category c = "94 and above").
Proof.
  intros Hc Hs Hin Hn.
  apply add_attendance_category_in in Hc. destruct Hc as [_ ->].
  destruct (subsets_inv _ _ Hs) as (_ & _ & _ & _ & _ & _ & -> & -> & -> & -> & _).
  set (r := categorized_data c) in *. set (x := current_week_att_percent r) in *.
  rewrite !filter_In. cbv beta. fold x.
  unfold is_number, Num.le in Hn.
  apply FloatOrder.leb_refl_value in Hn. destruct Hn as [[[a1 a2] a3] Hx].
  unfold categorize_attendance, Num.lt, Num.le, Num.ge.
  compare_with x Hx 85%float. compare_with x Hx 87.5%float.
  compare_with x Hx 90%float. compare_with x Hx 94%float.
  decide_comparisons; simpl; intuition congruence.
Qed.

(** A student of three weeks below 90 with both trends down. *)
Definition declining_student (student_id : Z) (percent : float) : student_result :=
  update_two_weeks
    (update_one_week (prime_record student_id (attendance_row student_id percent) percent)
       (Some 85%float) true "Down")
    89 true "Down".

Lemma weighted_point_subsets_match_categories_witness :
  exists s,
    subsets [declining_student 1001 83.33] = Ok s /\
    (In (declining_student 1001 83.33) (subset "below_85_zero_weighted_points" s) <->
     categorize_attendance 83.33 = "Below 85").
Proof.
  destruct (subsets [declining_student 1001 83.33]) as [s|e] eqn:Hs;
    [|vm_compute in Hs; discriminate Hs].
  exists s. split; [reflexivity|].
  apply (weighted_point_subsets_match_categories
           [(1001, declining_student 1001 83.33)] 1001
           (mk_categorized (declining_student 1001 83.33)
              (categorize_attendance 83.33))
           [declining_student 1001 83.33] s).
  - left. reflexivity.
  - exact Hs.
  - left. reflexivity.
  - vm_compute. reflexivity.
Defined.

(** The four range extracts are pairwise disjoint and hold exactly the
    students whose percent lies between 0 and 100, bounds included: a student
    above 100 percent, below 0 or with a percent that is NaN is in none of
    them.  The extract from 0 to 80 holds the students of the two lower
    ranges whose percent is not zero. *)
Theorem range_subsets_cover (df : list student_result)
    (s : list (string * list student_result)) (r : student_result) :
  subsets df = Ok s ->
  In r df ->
  let x := current_week_att_percent r in
  let top := In r (subset "90_to_100" s) in
  let upper := In r (subset "80_to_90" s) in
  let middle := In r (subset "50_to_80" s) in
  let low := In r (subset "0_to_50" s) in
  (top \/ upper \/ middle \/ low <-> Num.le 0 x = true /\ Num.le x 100 = true) /\
  ~ (top /\ upper) /\ ~ (top /\ middle) /\ ~ (top /\ low) /\
  ~ (upper /\ middle) /\ ~ (upper /\ low) /\ ~ (middle /\ low) /\
  (In r (subset "0_to_80" s) <-> (middle \/ low) /\ Num.gt x 0 = true).
Proof.
  intros Hs Hin x.
  destruct (subsets_inv _ _ Hs) as (_ & _ & -> & -> & -> & -> & _ & _ & _ & _ & ->).
  cbv zeta. rewrite !filter_In. cbv beta. fold x.
  unfold Num.lt, Num.le, Num.ge, Num.gt.
  destruct (FloatOrder.value x) as [[[a1 a2] a3]|] eqn:Hx.
  - compare_with x Hx 0%float. compare_with x Hx 50%float.
    compare_with x Hx 80%float. compare_with x Hx 90%float.
    compare_with x Hx 100%float.
    decide_comparisons; simpl; intuition congruence.
  - nan_comparisons x Hx. simpl. intuition congruence.
Qed.

Lemma range_subsets_cover_witness :
  exists s,
    subsets [declining_student 1001 83.33] = Ok s /\
    (In (declining_student 1001 83.33) (subset "90_to_100" s) \/
     In (declining_student 1001 83.33) (subset "80_to_90" s) \/
     In (declining_student 1001 83.33) (subset "50_to_80" s) \/
     In (declining_student 1001 83.33) (subset "0_to_50" s) <->
     Num.le 0 83.33 = true /\ Num.le 83.33 100 = true).
Proof.
  destruct (subsets [declining_student 1001 83.33]) as [s|e] eqn:Hs;
    [|vm_compute in Hs; discriminate Hs].
  exists s. split; [reflexivity|].
  apply (range_subsets_cover [declining_student 1001 83.33] s
           (declining_student 1001 83.33) Hs).
  left. reflexivity.
Defined.

(** ** What the stages keep *)

Section Kept.

(** A property of the records of the results. *)
Variable P : student_result -> Prop.

Definition all_records (results : result_map) : Prop :=
  forall k r, In (k, r) results -> P r.

Lemma all_records_set (results : result_map) (k : Z) (r : student_result) :
  all_records results -> P r -> all_records (PyDict.set k r results).
Proof.
  intros H Hr k' r' Hin. apply in_set_inv in Hin.
  destruct Hin as [[-> ->]|Hin]; eauto.
Qed.

Lemma all_records_get (results : result_map) (k : Z) (r : student_result) :
  all_records results -> PyDict.get k results = Some r -> P r.
Proof. intros H Hg. apply PyDictFacts.get_in in Hg. eauto. Qed.

Hypothesis P_prime : forall k s c, P (prime_record k s c).

Lemma prime_results_all (data : list row) : all_records (prime_results data).
Proof.
  unfold prime_results.
  assert (H : forall results,
             all_records results -> all_records (fold_left prime_entry data results)).
  { induction data as [|s data IH]; intros results H; simpl; auto.
    apply IH. unfold prime_entry.
    destruct (student_number s) as [k|]; auto.
    destruct (ind_att_percent s) as [c|]; auto.
    apply all_records_set; auto. exact (P_prime k s c). }
  apply H. intros k r [].
Qed.

Hypothesis P_one_week : forall r v b t, P r -> P (update_one_week r v b t).

Lemma one_week_loop_all (one cur : list row)
    (st st' : option (option float) * result_map) :
  all_records (snd st) -> one_week_loop one cur st = Ok st' -> all_records (snd st').
Proof.
  revert st. induction cur as [|student rest IH]; intros [local results]; simpl.
  - intros H [= <-]. exact H.
  - destruct (one_week_iteration one (local, results) student) as [st1|] eqn:E;
      simpl; [|discriminate].
    intros H Hloop. apply (IH st1); auto.
    apply one_week_iteration_ok in E.
    destruct E as (sid & c & o & r & v & _ & _ & _ & Hr & _ & ->). simpl.
    apply all_records_set; auto. apply P_one_week.
    eapply all_records_get; eauto.
Qed.

Lemma compare_one_week_back_all (cur one : list row) (results results' : result_map) :
  all_records results ->
  compare_one_week_back cur one results = Ok results' ->
  all_records results'.
Proof.
  unfold compare_one_week_back. intros H.
  destruct one as [|o1 one']; [now intros [= <-]|].
  destruct (one_week_loop (o1 :: one') cur (None, results)) as [st|] eqn:E;
    simpl; [|discriminate].
  intros [= <-]. exact (one_week_loop_all _ _ (None, results) _ H E).
Qed.

Hypothesis P_two_weeks : forall r v b t, P r -> P (update_two_weeks r v b t).

Lemma two_weeks_loop_all (two cur : list row) (results results' : result_map) :
  all_records results -> two_weeks_loop two cur results = Ok results' ->
  all_records results'.
Proof.
  revert results. induction cur as [|student rest IH]; intros results; simpl.
  - intros H [= <-]. exact H.
  - destruct (two_weeks_iteration two results student) as [r1|] eqn:E;
      simpl; [|discriminate].
    intros H Hloop. apply (IH r1); auto.
    apply two_weeks_iteration_ok in E.
    destruct E as (sid & c & o & _ & _ & _ & Hres).
    destruct o as [m|]; [|now subst].
    destruct Hres as (r & p2 & Hr & _ & ->).
    apply all_records_set; auto. apply P_two_weeks.
    eapply all_records_get; eauto.
Qed.

Lemma compare_two_weeks_back_all (cur two : list row) (results results' : result_map) :
  all_records results ->
  compare_two_weeks_back cur two results = Ok results' ->
  all_records results'.
Proof.
  unfold compare_two_weeks_back. intros H.
  destruct two as [|t1 two']; [now intros [= <-]|].
  now apply two_weeks_loop_all.
Qed.

Hypothesis P_schools : forall r a b, P r -> P (update_schools r a b).

Lemma merge_ps_all (ps_data : list ps_row) (results : result_map) :
  all_records results -> all_records (fold_left merge_ps ps_data results).
Proof.
  revert results. induction ps_data as [|p ps_data IH]; intros results H; simpl; auto.
  apply IH. unfold merge_ps.
  destruct (PyDict.get (ps_student_number p) results) as [r|] eqn:Hr; auto.
  apply all_records_set; auto. apply P_schools.
  eapply all_records_get; eauto.
Qed.

Lemma map_school_codes_all (results : result_map) (d : school_dict) :
  all_records results -> all_records (map_school_codes results d).
Proof.
  intros H k r Hin. unfold map_school_codes in Hin.
  apply in_map_iff in Hin. destruct Hin as ([k0 r0] & [= <- <-] & Hin).
  apply P_schools. eauto.
Qed.

Lemma filter_unknown_schools_all (results : result_map) :
  all_records results -> all_records (filter_unknown_schools results).
Proof.
  intros H k r Hin. unfold filter_unknown_schools in Hin.
  apply filter_In in Hin. destruct Hin as [Hin _]. eauto.
Qed.

Hypothesis P_med : forall r full partial percent best,
  P r -> P (update_med r full partial percent best).

Lemma process_additional_data_all (TOTAL_SCHOOL_DAYS : Z) (results : result_map)
    (ps_data : list ps_row) (med_data medp_data : list Z) :
  all_records results ->
  all_records
    (process_additional_data TOTAL_SCHOOL_DAYS results ps_data med_data medp_data).
Proof.
  intros H k r Hin. unfold process_additional_data in Hin.
  apply in_map_iff in Hin. destruct Hin as ([k0 r0] & Heq & Hin).
  unfold merge_med in Heq. injection Heq as <- <-.
  apply P_med. exact (merge_ps_all _ _ H _ _ Hin).
Qed.

(** A property that the primed records have and that every update keeps
    holds of every record that [main] reports. *)
Lemma main_results_all (TOTAL_SCHOOL_DAYS : Z)
    (current one two : list row) (ps_data : list ps_row)
    (med_data medp_data : list Z) (d : school_dict) (results : result_map) :
  main_results TOTAL_SCHOOL_DAYS current one two ps_data med_data medp_data d
    = Ok results ->
  all_records results.
Proof.
  unfold main_results.
  destruct (compare_one_week_back current one (prime_results current))
    as [r1|] eqn:E1; cbn [bind]; [|discriminate].
  destruct (compare_two_weeks_back current two r1) as [r2|] eqn:E2;
    cbn [bind]; [|discriminate].
  intros [= <-].
  apply filter_unknown_schools_all, map_school_codes_all,
    process_additional_data_all.
  apply (compare_two_weeks_back_all _ _ _ _
           (compare_one_week_back_all _ _ _ _ (prime_results_all current) E1) E2).
Qed.

End Kept.

(** ** The letters extract *)

Lemma filter_filter {A : Type} (p q : A -> bool) (l : list A) :
  filter p (filter q l) = filter (fun x => q x && p x) l.
Proof.
  induction l as [|a l IH]; simpl; auto.
  destruct (q a); simpl; [destruct (p a)|]; now rewrite IH.
Qed.

(** The record qualifies for a letter. *)
Definition qualifies (r : student_result) : bool :=
  is_true (below_90_3_weeks r) &&
  is_down (trend_2_weeks r) &&
  is_down (trend_1_week r) &&
  is_true (below_90_2_weeks r) &&
  Num.ge (current_week_att_percent r) seventy &&
  Num.lt (current_week_att_percent r) ninety.

(** The flag of the current week is the one that [prime_results] set. *)
Definition primed (r : student_result) : Prop :=
  below_90_1_week r = Num.lt (current_week_att_percent r) ninety.

(** The six selections of [filter_subset_by_conditions], as one. *)
Lemma filter_subset_by_conditions_ok (df : list student_result) :
  has_column below_90_3_weeks df = true ->
  has_column trend_2_weeks df = true ->
  has_column trend_1_week df = true ->
  has_column below_90_2_weeks df = true ->
  filter_subset_by_conditions df =
  Ok (filter (fun r =>
                is_true (below_90_3_weeks r) &&
                Num.lt (current_week_att_percent r) ninety &&
                is_down (trend_2_weeks r) && is_down (trend_1_week r) &&
                is_true (below_90_2_weeks r) && below_90_1_week r &&
                Num.ge (current_week_att_percent r) seventy) df).
Proof.
  intros H3 H2 H1 H0. unfold filter_subset_by_conditions, column.
  rewrite H3, H2, H1, H0. cbn [bind].
  rewrite !filter_filter. f_equal. apply filter_ext. intros r.
  now rewrite !andb_assoc.
Qed.

Lemma filter_subset_by_conditions_raise (df : list student_result) :
  has_column below_90_3_weeks df = false \/
  has_column trend_2_weeks df = false \/
  has_column trend_1_week df = false \/
  has_column below_90_2_weeks df = false ->
  filter_subset_by_conditions df = Raise KeyError.
Proof.
  unfold filter_subset_by_conditions, column.
  destruct (has_column below_90_3_weeks df); cbn [bind]; auto.
  destruct (has_column trend_2_weeks df); cbn [bind]; auto.
  destruct (has_column trend_1_week df); cbn [bind]; auto.
  destruct (has_column below_90_2_weeks df); cbn [bind]; auto.
  intuition discriminate.
Qed.

(** On the records that [main] hands to a building, and as soon as some
    record of the building carries each of the four comparison columns, the
    letters extract holds, in the order of the building, exactly the
    students that were below 90 for three weeks and for two weeks, whose two
    trends are ["Down"] and whose current percent is at least 70 and below
    90; the selection on the flag of the current week adds nothing.  When one
    of the four columns is missing from every record, the extract raises
    [KeyError]. *)
Theorem letters_extract_selection (TOTAL_SCHOOL_DAYS : Z)
    (current one two : list row) (ps_data : list ps_row)
    (med_data medp_data : list Z) (d : school_dict) (results : result_map)
    (df : list student_result) :
  main_results TOTAL_SCHOOL_DAYS current one two ps_data med_data medp_data d
    = Ok results ->
  incl df (PyDict.values results) ->
  (has_column below_90_3_weeks df = true ->
   has_column trend_2_weeks df = true ->
   has_column trend_1_week df = true ->
   has_column below_90_2_weeks df = true ->
   filter_subset_by_conditions df = Ok (filter qualifies df)) /\
  (has_column below_90_3_weeks df = false \/
   has_column trend_2_weeks df = false \/
   has_column trend_1_week df = false \/
   has_column below_90_2_weeks df = false ->
   filter_subset_by_conditions df = Raise KeyError).
Proof.
  intros Hmain Hincl. split; [|apply filter_subset_by_conditions_raise].
  intros H3 H2 H1 H0.
  rewrite (filter_subset_by_conditions_ok df H3 H2 H1 H0). f_equal.
  apply filter_ext_in. intros r Hr.
  assert (Hp : primed r).
  { apply Hincl in Hr. unfold PyDict.values in Hr.
    apply in_map_iff in Hr. destruct Hr as ([k r'] & <- & Hin).
    apply (main_results_all primed) in Hmain; try (intros; assumption).
    - exact (Hmain _ _ Hin).
    - intros; reflexivity. }
  unfold primed in Hp. unfold qualifies. rewrite Hp.
  destruct (is_true (below_90_3_weeks r)), (is_down (trend_2_weeks r)),
    (is_down (trend_1_week r)), (is_true (below_90_2_weeks r)),
    (Num.lt (current_week_att_percent r) ninety),
    (Num.ge (current_week_att_percent r) seventy); reflexivity.
Qed.

Lemma letters_extract_selection_witness :
  let results :=
    [(1001, update_med
              (update_schools (declining_student 1001 83.33)
                 (CodeStr "High School 1") (CodeStr "High School 1"))
              0 0 0 83.33)] in
  filter_subset_by_conditions (PyDict.values results)
  = Ok (filter qualifies (PyDict.values results)).
Proof.
  intros results.
  apply (proj1 (letters_extract_selection 160
                  [attendance_row 1001 83.33] [attendance_row 1001 85]
                  [attendance_row 1001 89]
                  [mk_ps_row 1001 (CodeInt 1) (CodeInt 1)] [] []
                  [(1, "High School 1")] results (PyDict.values results)
                  eq_refl (incl_refl _)));
    reflexivity.
Defined.

(** ** The first weeks *)

(** Until the ledger holds a snapshot two weeks back, no record carries the
    three-week flag, and the additional extracts of every building that has
    a student raise [KeyError] on its column. *)
Theorem additional_csvs_need_two_weeks_back (TOTAL_SCHOOL_DAYS : Z)
    (current one : list row) (ps_data : list ps_row)
    (med_data medp_data : list Z) (d : school_dict) (results : result_map)
    (schools : list string) :
  main_results TOTAL_SCHOOL_DAYS current one [] ps_data med_data medp_data d
    = Ok results ->
  building_students results schools <> [] ->
  subsets (building_students results schools) = Raise KeyError /\
  forall building_path group_name,
    additional_csv_files (building_students results schools) building_path group_name
    = Raise KeyError.
Proof.
  intros Hmain Hne.
  assert (Hall : all_records (fun r => below_90_3_weeks r = None) results).
  { revert Hmain. unfold main_results.
    destruct (compare_one_week_back current one (prime_results current))
      as [r1|] eqn:E1; cbn [bind]; [|discriminate].
    change (compare_two_weeks_back current [] r1) with (Ok r1). cbn [bind].
    intros [= <-].
    apply filter_unknown_schools_all, map_school_codes_all,
      process_additional_data_all; auto.
    apply (compare_one_week_back_all (fun r => below_90_3_weeks r = None)
             (fun _ _ _ _ H => H) _ _ _ _
             (prime_results_all (fun r => below_90_3_weeks r = None)
                (fun _ _ _ => eq_refl) current) E1). }
  assert (Hcol : has_column below_90_3_weeks (building_students results schools)
                 = false).
  { unfold has_column. apply not_true_is_false. intros H.
    apply existsb_exists in H. destruct H as (r & Hr & Hsome).
    unfold building_students in Hr. apply filter_In in Hr.
    destruct Hr as [Hr _]. unfold PyDict.values in Hr.
    apply in_map_iff in Hr. destruct Hr as ([k r'] & <- & Hin).
    simpl in Hsome. now rewrite (Hall _ _ Hin) in Hsome. }
  assert (Hs : subsets (building_students results schools) = Raise KeyError).
  { unfold subsets.
    destruct (building_students results schools) as [|r0 df]; [contradiction|].
    rewrite filter_subset_by_conditions_raise; auto. }
  split; [exact Hs|]. intros building_path group_name.
  unfold additional_csv_files. now rewrite Hs.
Qed.

Lemma additional_csvs_need_two_weeks_back_witness :
  exists results,
    main_results 160 [attendance_row 1001 83.33] [attendance_row 1001 85] []
      [mk_ps_row 1001 (CodeInt 1) (CodeInt 1)] [] [] [(1, "High School 1")]
    = Ok results /\
    subsets (building_students results ["High School 1"]) = Raise KeyError.
Proof.
  eexists. split; [reflexivity|].
  apply (additional_csvs_need_two_weeks_back 160
           [attendance_row 1001 83.33] [attendance_row 1001 85]
           [mk_ps_row 1001 (CodeInt 1) (CodeInt 1)] [] [] [(1, "High School 1")]
           _ ["High School 1"] eq_refl).
  vm_compute. discriminate.
Defined.

(** ** Students and their schools *)

Definition unknown_none : string := "Unknown School (Code: None)".

(** The record of a student after [map_school_codes]. *)
Definition with_school_names (d : school_dict) (data : student_result)
    : student_result :=
  update_schools data
    (map_code d (attending_school data))
    (map_code d (school_of_residence data)).

Lemma append_cancel_r (s s' : string) (c : ascii) :
  s ++ String c "" = s' ++ String c "" -> s = s'.
Proof.
  revert s'. induction s as [|a s IH]; intros [|a' s']; simpl; auto.
  - intros [= _ H]. destruct s'; discriminate.
  - intros [= _ H]. destruct s; discriminate.
  - intros [= -> H]. f_equal. auto.
Qed.

Lemma unknown_school_none (code : option school_value) :
  unknown_school code = unknown_none <-> str_code code = "None".
Proof.
  unfold unknown_school, unknown_none. split.
  - intros H. simpl in H. injection H as H.
    now apply (append_cancel_r _ "None") in H.
  - now intros ->.
Qed.

Lemma string_of_int_not_none (n : Z) : NilZero.string_of_int (Z.to_int n) <> "None".
Proof.
  unfold NilZero.string_of_int.
  destruct (Z.to_int n) as [u|u]; [|discriminate].
  unfold NilZero.string_of_uint. destruct u; discriminate.
Qed.

Lemma is_unknown_none_spec (cell : option school_value) :
  is_unknown_none cell = true <-> cell = Some (CodeStr unknown_none).
Proof.
  unfold is_unknown_none, unknown_none.
  destruct cell as [[| | |s]|]; try (split; discriminate).
  rewrite String.eqb_eq. split; [now intros ->|now intros [= ->]].
Qed.

Lemma map_school_codes_in (results : result_map) (d : school_dict)
    (student_id : Z) (data : student_result) :
  In (student_id, data) (map_school_codes results d) <->
  exists data0, In (student_id, data0) results /\ data = with_school_names d data0.
Proof.
  unfold map_school_codes. rewrite in_map_iff. split.
  - intros ([k data0] & [= <- <-] & Hin). eauto.
  - intros (data0 & Hin & ->). now exists (student_id, data0).
Qed.

(** [filter_unknown_schools] after [map_school_codes] drops exactly the
    students whose residence cell was mapped to ["Unknown School (Code:
    None)"].  A cell without a dictionary entry is mapped to that name exactly
    when it prints as [None]: that is the case of a missing key and of
    Python's [None].  A number that the dictionary does not hold and a NaN
    cell are mapped to another name, and their students stay. *)
Theorem unknown_residence_filter (d : school_dict) (results : result_map) :
  let final := filter_unknown_schools (map_school_codes results d) in
  (forall student_id data,
      In (student_id, data) final <->
      exists data0,
        In (student_id, data0) results /\
        data = with_school_names d data0 /\
        map_code d (school_of_residence data0) <> CodeStr unknown_none) /\
  (forall code,
      school_lookup d code = None ->
      (map_code d code = CodeStr unknown_none <-> str_code code = "None")) /\
  (forall code,
      code = None \/ code = Some CodeNone ->
      map_code d code = CodeStr unknown_none) /\
  (forall n,
      PyDict.get n d = None ->
      map_code d (Some (CodeInt n)) <> CodeStr unknown_none) /\
  map_code d (Some CodeNaN) = CodeStr "Unknown School (Code: nan)".
Proof.
  cbv zeta. split; [|split; [|split; [|split]]].
  - intros student_id data. unfold filter_unknown_schools.
    rewrite filter_In, map_school_codes_in. simpl.
    rewrite negb_true_iff, <- not_true_iff_false, is_unknown_none_spec.
    split.
    + intros [(data0 & Hin & ->) Hne]. exists data0. repeat split; auto.
      intros H. apply Hne. simpl. now rewrite H.
    + intros (data0 & Hin & -> & Hne). split; [eauto|].
      simpl. intros [= H]. apply Hne. now rewrite H.
  - intros code Hcode. unfold map_code. rewrite Hcode.
    split.
    + intros H. apply (proj1 (unknown_school_none code)). congruence.
    + intros H. now rewrite (proj2 (unknown_school_none code) H).
  - intros code [->| ->]; reflexivity.
  - intros n Hn. unfold map_code. simpl. rewrite Hn.
    intros H. apply (string_of_int_not_none n).
    apply (proj1 (unknown_school_none (Some (CodeInt n)))). congruence.
  - reflexivity.
Qed.

Lemma unknown_residence_filter_witness :
  map_code [(1, "High School 1")] (Some CodeNone) = CodeStr unknown_none.
Proof.
  apply (proj1 (proj2 (proj2
           (unknown_residence_filter [(1, "High School 1")] [])))).
  right. reflexivity.
Defined.

(** *** Students without demographic data *)

Lemma merge_ps_keeps (ps_data : list ps_row) (results : result_map)
    (k : Z) (r : student_result) :
  In (k, r) (fold_left merge_ps ps_data results) ->
  ~ In k (map ps_student_number ps_data) ->
  In (k, r) results.
Proof.
  revert results. induction ps_data as [|p ps_data IH]; intros results; simpl; auto.
  intros Hin Hk. apply IH in Hin; [|tauto].
  unfold merge_ps in Hin.
  destruct (PyDict.get (ps_student_number p) results); auto.
  apply in_set_inv in Hin. destruct Hin as [[-> _]|Hin]; tauto.
Qed.

(** A student of the current snapshot that the demographic extract does not
    list has no residence cell, and is in none of the records that [main]
    reports. *)
Theorem student_without_demographics_dropped (TOTAL_SCHOOL_DAYS : Z)
    (current one two : list row) (ps_data : list ps_row)
    (med_data medp_data : list Z) (d : school_dict) (results : result_map)
    (student_id : Z) :
  main_results TOTAL_SCHOOL_DAYS current one two ps_data med_data medp_data d
    = Ok results ->
  ~ In student_id (map ps_student_number ps_data) ->
  ~ In student_id (PyDict.keys results).
Proof.
  unfold main_results.
  destruct (compare_one_week_back current one (prime_results current))
    as [r1|] eqn:E1; cbn [bind]; [|discriminate].
  destruct (compare_two_weeks_back current two r1) as [r2|] eqn:E2;
    cbn [bind]; [|discriminate].
  intros [= <-] Hps Hkey.
  assert (Hnone : all_records (fun r => school_of_residence r = None) r2).
  { apply (compare_two_weeks_back_all (fun r => school_of_residence r = None)
             (fun _ _ _ _ H => H) _ _ _ _
             (compare_one_week_back_all (fun r => school_of_residence r = None)
                (fun _ _ _ _ H => H) _ _ _ _
                (prime_results_all (fun r => school_of_residence r = None)
                   (fun _ _ _ => eq_refl) current) E1) E2). }
  unfold PyDict.keys in Hkey. apply in_map_iff in Hkey.
  destruct Hkey as ([k data] & Hk & Hin). simpl in Hk. subst k.
  apply (proj1 (unknown_residence_filter d _)) in Hin.
  destruct Hin as (data0 & Hin & _ & Hne). apply Hne.
  unfold process_additional_data in Hin. apply in_map_iff in Hin.
  destruct Hin as ([k r0] & Heq & Hin). unfold merge_med in Heq.
  injection Heq as -> <-. simpl.
  apply merge_ps_keeps in Hin; auto.
  now rewrite (Hnone _ _ Hin).
Qed.

Lemma student_without_demographics_dropped_witness :
  exists results,
    main_results 160 [attendance_row 1001 83.33; attendance_row 1002 95] [] []
      [mk_ps_row 1001 (CodeInt 1) (CodeInt 1)] [] [] [(1, "High School 1")]
    = Ok results /\
    ~ In 1002 (PyDict.keys results).
Proof.
  eexists. split; [reflexivity|].
  apply (student_without_demographics_dropped 160
           [attendance_row 1001 83.33; attendance_row 1002 95] [] []
           [mk_ps_row 1001 (CodeInt 1) (CodeInt 1)] [] [] [(1, "High School 1")]
           _ 1002 eq_refl).
  simpl. intros [H|[]]. discriminate H.
Defined.

(** *** The students of the results *)

Lemma keys_set_present {V : Type} (d : list (Z * V)) (k : Z) (v v' : V) :
  PyDict.get k d = Some v -> PyDict.keys (PyDict.set k v' d) = PyDict.keys d.
Proof.
  intros H. rewrite PyDictFacts.keys_set. unfold PyDict.mem. now rewrite H.
Qed.

Lemma one_week_loop_keys (one cur : list row)
    (st st' : option (option float) * result_map) :
  one_week_loop one cur st = Ok st' -> PyDict.keys (snd st') = PyDict.keys (snd st).
Proof.
  revert st. induction cur as [|student rest IH]; intros [local results]; simpl.
  - now intros [= <-].
  - destruct (one_week_iteration one (local, results) student) as [st1|] eqn:E;
      simpl; [|discriminate].
    intros Hloop. rewrite (IH _ Hloop).
    apply one_week_iteration_ok in E.
    destruct E as (sid & c & o & r & v & _ & _ & _ & Hr & _ & ->). simpl.
    now apply keys_set_present with (v := r).
Qed.

Lemma two_weeks_loop_keys (two cur : list row) (results results' : result_map) :
  two_weeks_loop two cur results = Ok results' ->
  PyDict.keys results' = PyDict.keys results.
Proof.
  revert results. induction cur as [|student rest IH]; intros results; simpl.
  - now intros [= <-].
  - destruct (two_weeks_iteration two results student) as [r1|] eqn:E;
      simpl; [|discriminate].
    intros Hloop. rewrite (IH _ Hloop).
    apply two_weeks_iteration_ok in E.
    destruct E as (sid & c & o & _ & _ & _ & Hres).
    destruct o as [m|]; [|now subst].
    destruct Hres as (r & p2 & Hr & _ & ->).
    now apply keys_set_present with (v := r).
Qed.

Lemma merge_ps_keys (ps_data : list ps_row) (results : result_map) :
  PyDict.keys (fold_left merge_ps ps_data results) = PyDict.keys results.
Proof.
  revert results. induction ps_data as [|p ps_data IH]; intros results; simpl; auto.
  rewrite IH. unfold merge_ps.
  destruct (PyDict.get (ps_student_number p) results) as [r|] eqn:Hr; auto.
  now apply keys_set_present with (v := r).
Qed.

Lemma map_school_codes_keys (results : result_map) (d : school_dict) :
  PyDict.keys (map_school_codes results d) = PyDict.keys results.
Proof.
  unfold map_school_codes, PyDict.keys. rewrite map_map.
  apply map_ext. now intros [k r].
Qed.

Lemma process_additional_data_keys (TOTAL_SCHOOL_DAYS : Z) (results : result_map)
    (ps_data : list ps_row) (med_data medp_data : list Z) :
  PyDict.keys
    (process_additional_data TOTAL_SCHOOL_DAYS results ps_data med_data medp_data)
  = PyDict.keys results.
Proof.
  rewrite <- (merge_ps_keys ps_data results).
  unfold process_additional_data, PyDict.keys. rewrite map_map.
  apply map_ext. now intros [k r].
Qed.

Lemma prime_results_keys_fold (data : list row) (results : result_map) :
  NoDup (PyDict.keys results) ->
  NoDup (PyDict.keys (fold_left prime_entry data results)).
Proof.
  revert results. induction data as [|s data IH]; intros results H; simpl; auto.
  apply IH. unfold prime_entry.
  destruct (student_number s) as [k|]; auto.
  destruct (ind_att_percent s) as [c|]; auto.
  now apply PyDictFacts.keys_set_nodup.
Qed.

(** [prime_results] makes one record per student number that has a row with
    both keys; the record is taken from the last such row of the student, and
    its flag says whether that row's percent is below 90.  A row that lacks
    one of the keys leaves no trace. *)
Theorem prime_results_last_row_wins (current_week_data : list row) :
  let results := prime_results current_week_data in
  NoDup (PyDict.keys results) /\
  (forall student_id,
      In student_id (PyDict.keys results) <->
      exists s c,
        In s current_week_data /\
        student_number s = Some student_id /\ ind_att_percent s = Some c) /\
  (forall student_id data,
      PyDict.get student_id results = Some data <->
      exists s c,
        last_valid_row student_id current_week_data = Some s /\
        ind_att_percent s = Some c /\
        data = prime_record student_id s c) /\
  (forall student_id s c,
      below_90_1_week (prime_record student_id s c) = Num.lt c ninety).
Proof.
  cbv zeta.
  assert (Hget : forall student_id data,
             PyDict.get student_id (prime_results current_week_data) = Some data <->
             exists s c,
               last_valid_row student_id current_week_data = Some s /\
               ind_att_percent s = Some c /\
               data = prime_record student_id s c).
  { intros student_id data. rewrite prime_results_get. split.
    - destruct (last_valid_row student_id current_week_data) as [s|];
        [|discriminate].
      destruct (ind_att_percent s) as [c|] eqn:Hc; [|discriminate].
      intros [= <-]. eauto.
    - intros (s & c & -> & -> & ->). reflexivity. }
  split; [|split; [|split]]; auto.
  - apply prime_results_keys_fold. constructor.
  - intros student_id. split.
    + intros Hin. apply PyDictFacts.in_keys_get in Hin.
      destruct Hin as [data Hdata]. apply Hget in Hdata.
      destruct Hdata as (s & c & Hs & Hc & _).
      apply last_valid_row_spec in Hs. destruct Hs as (Hin & Hn & _).
      eauto.
    + intros (s & c & Hin & Hn & Hc).
      destruct (PyDict.get student_id (prime_results current_week_data))
        as [data|] eqn:E.
      * apply PyDictFacts.get_in in E. unfold PyDict.keys.
        change student_id with (fst (student_id, data)). now apply in_map.
      * exfalso. rewrite prime_results_get in E.
        assert (Hlast : exists s', last_valid_row student_id current_week_data = Some s').
        { clear E Hget. induction current_week_data as [|a l IH]; [contradiction|].
          simpl. destruct (last_valid_row student_id l) as [s'|] eqn:El; eauto.
          destruct Hin as [->|Hin].
          - unfold is_row_of. rewrite Hn, Hc, Z.eqb_refl. eauto.
          - destruct (IH Hin) as [s' Hs']. discriminate. }
        destruct Hlast as [s' Hs']. rewrite Hs' in E.
        apply last_valid_row_spec in Hs'. destruct Hs' as (_ & _ & Hc').
        destruct (ind_att_percent s'); [discriminate|congruence].
Qed.

(** No stage between [prime_results] and the school filter adds or drops a
    student, or changes the order of the students: when the comparisons
    return, the results keep the students of the primed results up to
    [map_school_codes]. *)
Theorem stages_keep_students (TOTAL_SCHOOL_DAYS : Z)
    (current one two : list row) (ps_data : list ps_row)
    (med_data medp_data : list Z) (d : school_dict) (results : result_map) :
  flag_attendance_issues current one two = Ok results ->
  PyDict.keys results = PyDict.keys (prime_results current) /\
  PyDict.keys
    (map_school_codes
       (process_additional_data TOTAL_SCHOOL_DAYS results ps_data med_data medp_data)
       d)
  = PyDict.keys (prime_results current).
Proof.
  unfold flag_attendance_issues. cbv zeta.
  destruct (compare_one_week_back current one (prime_results current))
    as [r1|] eqn:E1; cbn [bind]; [|discriminate].
  intros E2.
  assert (H1 : PyDict.keys r1 = PyDict.keys (prime_results current)).
  { unfold compare_one_week_back in E1.
    destruct one as [|o1 one']; [now injection E1 as <-|].
    destruct (one_week_loop (o1 :: one') current (None, prime_results current))
      as [st|] eqn:E; simpl in E1; [|discriminate].
    injection E1 as <-. exact (one_week_loop_keys _ _ _ _ E). }
  assert (H2 : PyDict.keys results = PyDict.keys r1).
  { unfold compare_two_weeks_back in E2.
    destruct two as [|t1 two']; [now injection E2 as <-|].
    now apply two_weeks_loop_keys in E2. }
  split; [congruence|].
  rewrite map_school_codes_keys, process_additional_data_keys. congruence.
Qed.

Lemma stages_keep_students_witness :
  PyDict.keys
    (map_school_codes
       (process_additional_data 160
          [(1001, update_one_week
                    (prime_record 1001 (attendance_row 1001 83.33) 83.33)
                    (Some 85%float) true "Down")]
          [] [1001] [])
       [(1, "High School 1")])
  = PyDict.keys (prime_results [attendance_row 1001 83.33]).
Proof.
  apply (stages_keep_students 160 [attendance_row 1001 83.33]
           [attendance_row 1001 85] [] [] [1001] [] [(1, "High School 1")]).
  reflexivity.
Defined.

(** ** When the consolidator returns *)

Lemma consolidate_iteration_total (ap : option float) (d : list (Z * row))
    (record : row) (k : Z) :
  student_number record = Some k ->
  ap <> None \/
  Num.gt (hrs_possible (entry_or_fresh d k record) + hrs_possible record)%float zero
    = true ->
  exists p' d', consolidate_iteration (ap, d) record = Ok (Some p', d').
Proof.
  intros Hk Hp. unfold consolidate_iteration, entry_or_fresh, PyDict.mem in *.
  rewrite Hk. cbn [bind subscript].
  destruct (PyDict.get k d) as [e|] eqn:He.
  - rewrite He. cbn [bind subscript].
    destruct (Num.gt (hrs_possible e + hrs_possible record) zero).
    + cbn [bind read_local]. eauto.
    + destruct ap as [p|]; [cbn [bind read_local]; eauto|].
      destruct Hp; congruence.
  - rewrite PyDictFacts.get_set_same. cbn [bind subscript].
    change (hrs_possible (fresh_record k record)) with zero in *.
    destruct (Num.gt (zero + hrs_possible record) zero).
    + cbn [bind read_local]. eauto.
    + destruct ap as [p|]; [cbn [bind read_local]; eauto|].
      destruct Hp; congruence.
Qed.

Lemma consolidate_iteration_first (d : list (Z * row)) (record : row)
    (st' : option float * list (Z * row)) :
  consolidate_iteration (None, d) record = Ok st' ->
  exists k,
    student_number record = Some k /\
    Num.gt (hrs_possible (entry_or_fresh d k record) + hrs_possible record)%float zero
      = true.
Proof.
  unfold consolidate_iteration, entry_or_fresh, PyDict.mem.
  destruct (student_number record) as [k|]; cbn [bind subscript]; [|discriminate].
  intros H. exists k. split; auto. revert H.
  destruct (PyDict.get k d) as [e|] eqn:He.
  - rewrite He. cbn [bind subscript].
    destruct (Num.gt (hrs_possible e + hrs_possible record) zero); auto.
    cbn [bind read_local]. discriminate.
  - rewrite PyDictFacts.get_set_same. cbn [bind subscript].
    change (hrs_possible (fresh_record k record)) with zero.
    destruct (Num.gt (zero + hrs_possible record) zero); auto.
    cbn [bind read_local]. discriminate.
Qed.

Lemma consolidate_loop_total (rows : list row) (p : float) (d : list (Z * row)) :
  Forall (fun r => student_number r <> None) rows ->
  exists st, consolidate_loop rows (Some p, d) = Ok st.
Proof.
  intros H. revert p d. induction H as [|record rows Hr _ IH]; intros p d.
  - simpl. eauto.
  - destruct (student_number record) as [k|] eqn:Hk; [|congruence].
    destruct (consolidate_iteration_total (Some p) d record k Hk) as (p' & d' & E);
      [left; discriminate|].
    change (consolidate_loop (record :: rows) (Some p, d))
      with (st' <- consolidate_iteration (Some p, d) record ;;
            consolidate_loop rows st').
    rewrite E. cbn [bind]. apply IH.
Qed.

Lemma consolidate_loop_numbers (rows : list row)
    (st st' : option float * list (Z * row)) :
  consolidate_loop rows st = Ok st' ->
  Forall (fun r => student_number r <> None) rows.
Proof.
  revert st. induction rows as [|record rows IH]; intros [ap d]; [constructor|].
  change (consolidate_loop (record :: rows) (ap, d))
    with (st' <- consolidate_iteration (ap, d) record ;; consolidate_loop rows st').
  destruct (consolidate_iteration (ap, d) record) as [st1|] eqn:E;
    cbn [bind]; [|discriminate].
  intros H. constructor; [|eauto].
  apply consolidate_iteration_ok in E. destruct E as (k & _ & _ & Hk & _).
  congruence.
Qed.

(** [consolidate_attendance] returns a list exactly when every row carries a
    student number and, unless the snapshot is empty, the possible hours of
    its first row, added to the initial zero, are above zero.  On any other
    snapshot it raises. *)
Theorem consolidate_attendance_returns (attendance_data : list row) :
  (exists consolidated_list,
      consolidate_attendance attendance_data = Ok consolidated_list) <->
  Forall (fun r => student_number r <> None) attendance_data /\
  match attendance_data with
  | [] => True
  | first :: _ => Num.gt (zero + hrs_possible first)%float zero = true
  end.
Proof.
  unfold consolidate_attendance. split.
  - intros [l H].
    destruct (consolidate_loop attendance_data (None, [])) as [st|] eqn:E;
      cbn [bind] in H; [|discriminate].
    split; [exact (consolidate_loop_numbers _ _ _ E)|].
    destruct attendance_data as [|first rest]; auto.
    change (consolidate_loop (first :: rest) (None, []))
      with (st' <- consolidate_iteration (None, []) first ;;
            consolidate_loop rest st') in E.
    destruct (consolidate_iteration (None, []) first) as [st1|] eqn:E1;
      cbn [bind] in E; [|discriminate].
    apply consolidate_iteration_first in E1. destruct E1 as (k & _ & Hgt).
    exact Hgt.
  - intros [Hnum Hfirst].
    destruct attendance_data as [|first rest]; [simpl; eauto|].
    inversion Hnum as [|? ? Hk Hrest]; subst.
    destruct (student_number first) as [k|] eqn:Ek; [|congruence].
    destruct (consolidate_iteration_total None [] first k Ek) as (p' & d' & E);
      [right; exact Hfirst|].
    destruct (consolidate_loop_total rest p' d' Hrest) as [st Hst].
    change (consolidate_loop (first :: rest) (None, []))
      with (st' <- consolidate_iteration (None, []) first ;;
            consolidate_loop rest st').
    rewrite E. cbn [bind]. rewrite Hst. cbn [bind]. eauto.
Qed.

(** A row of a building with hours. *)
Definition hours_row (student_id : Z) (attended absent possible : float) : row :=
  mk_row (Some student_id) "Doe, John" "5" attended absent possible (Some zero).

Lemma consolidate_attendance_returns_witness :
  exists consolidated_list,
    consolidate_attendance [hours_row 1001 30 10 40; hours_row 1001 45 5 50]
    = Ok consolidated_list.
Proof.
  apply (proj2 (consolidate_attendance_returns
                  [hours_row 1001 30 10 40; hours_row 1001 45 5 50])).
  split.
  - repeat constructor; discriminate.
  - vm_compute. reflexivity.
Defined.

(** Whenever [consolidate_attendance] returns, the list has one record per
    student, no two for the same student, and only students whose possible
    hours add up to more than zero; the hours of a record are the sums of the
    student's rows, added in the order of the rows, its name and grade are
    those of the student's first row, and its percent is the rounded quotient
    of the summed hours.  Every student with a positive sum has a record. *)
Theorem consolidate_attendance_totals (attendance_data consolidated_list : list row) :
  consolidate_attendance attendance_data = Ok consolidated_list ->
  NoDup (map student_number consolidated_list) /\
  (forall data, In data consolidated_list ->
     exists student_id first rest,
       student_number data = Some student_id /\
       rows_of student_id attendance_data = first :: rest /\
       name data = name first /\
       grade data = grade first /\
       hrs_attended data = total hrs_attended (first :: rest) zero /\
       hrs_absent data = total hrs_absent (first :: rest) zero /\
       hrs_possible data = total hrs_possible (first :: rest) zero /\
       ind_att_percent data =
         Some (percent_of (hrs_attended data) (hrs_possible data)) /\
       hrs_possible data <> zero) /\
  (forall student_id,
     In (Some student_id) (map student_number attendance_data) ->
     Num.gt (total hrs_possible (rows_of student_id attendance_data) zero) zero = true ->
     exists data, In data consolidated_list /\ student_number data = Some student_id).
Proof.
  intros H. exact (consolidate_attendance_sound attendance_data consolidated_list H).
Qed.

Lemma consolidate_attendance_totals_witness :
  exists data,
    In data [mk_row (Some 1001) "Doe, John" "5" 75 15 90 (Some 83.33%float)] /\
    student_number data = Some 1001.
Proof.
  apply (proj2 (proj2 (consolidate_attendance_totals
           [hours_row 1001 30 10 40; hours_row 1001 45 5 50]
           [mk_row (Some 1001) "Doe, John" "5" 75 15 90 (Some 83.33%float)]
           ltac:(vm_compute; reflexivity))) 1001).
  - simpl. left. reflexivity.
  - vm_compute. reflexivity.
Defined.

(** ** Trend labels *)

(** The label of a pair of percents: ["Up"] or ["Down"] when the current
    percent is above or below the earlier one, ["No Change"] otherwise. *)
Definition trend_label (current_att_percent prior : float) : string :=
  if Num.gt current_att_percent prior then "Up"
  else if Num.lt current_att_percent prior then "Down"
  else "No Change".

Lemma trend_1_label (c p : float) : trend_1 c (Some p) = trend_label c p.
Proof. reflexivity. Qed.

(** When [compare_one_week_back] returns, the record of a student that has a
    row in both snapshots holds the percent of its first row one week back,
    and its trend is ["Up"], ["Down"] or ["No Change"] as the current percent
    is above, below or neither above nor below that percent; when that row
    has no percent the trend is ["N/A"] and the two-week flag is off. *)
Theorem one_week_trend_label (current one_week_back : list row)
    (results1 : result_map) (student_id : Z) (m : row) :
  compare_one_week_back current one_week_back (prime_results current) = Ok results1 ->
  In (Some student_id) (map student_number current) ->
  first_match one_week_back student_id = Some m ->
  exists data s c,
    PyDict.get student_id results1 = Some data /\
    last_valid_row student_id current = Some s /\
    ind_att_percent s = Some c /\
    current_week_att_percent data = c /\
    one_week_back_percent data = Some (ind_att_percent m) /\
    match ind_att_percent m with
    | Some p =>
        trend_1_week data = Some (trend_label c p) /\
        (Num.gt c p = true -> trend_1_week data = Some "Up") /\
        (Num.lt c p = true -> trend_1_week data = Some "Down") /\
        (Num.gt c p = false -> Num.lt c p = false ->
         trend_1_week data = Some "No Change") /\
        below_90_2_weeks data = Some (Num.lt c ninety && Num.lt p ninety)
    | None =>
        trend_1_week data = Some "N/A" /\ below_90_2_weeks data = Some false
    end.
Proof.
  intros H1 Hcur Hm.
  unfold compare_one_week_back in H1.
  destruct one_week_back as [|o1 one']; [discriminate|].
  destruct (one_week_loop (o1 :: one') current (None, prime_results current))
    as [[local' r1]|] eqn:Hloop1; simpl in H1; [|discriminate].
  injection H1 as ->.
  pose proof (one_week_loop_valid _ _ _ _ Hloop1) as Hvalid.
  destruct (last_valid_row_in _ _ Hvalid Hcur) as [s Hs].
  pose proof (one_week_loop_get _ _ _ _ _ _ student_id Hloop1) as Hget1.
  rewrite Hs in Hget1. destruct Hget1 as (r & c & v & Hr & Hc & Hres1 & Hv).
  rewrite (Hv _ Hm) in Hres1.
  rewrite prime_results_get, Hs, Hc in Hr. injection Hr as <-.
  eexists _, s, c. split; [exact Hres1|]. repeat split; auto.
  destruct (ind_att_percent m) as [p|];
    cbn [trend_1_week below_90_2_weeks update_one_week].
  - split; [reflexivity|]. split; [|split; [|split]].
    + intros H. now rewrite trend_1_up.
    + intros H. now rewrite trend_1_down.
    + intros Hg Hl. unfold trend_1. now rewrite Hg, Hl.
    + reflexivity.
  - unfold below_2. now rewrite andb_false_r.
Qed.

Lemma one_week_trend_label_witness :
  exists data s c,
    PyDict.get 1001
      [(1001, update_one_week (prime_record 1001 (attendance_row 1001 83.33) 83.33)
                (Some 85%float) true "Down")] = Some data /\
    last_valid_row 1001 [attendance_row 1001 83.33] = Some s /\
    ind_att_percent s = Some c /\
    current_week_att_percent data = c /\
    one_week_back_percent data = Some (ind_att_percent (attendance_row 1001 85)) /\
    match ind_att_percent (attendance_row 1001 85) with
    | Some p =>
        trend_1_week data = Some (trend_label c p) /\
        (Num.gt c p = true -> trend_1_week data = Some "Up") /\
        (Num.lt c p = true -> trend_1_week data = Some "Down") /\
        (Num.gt c p = false -> Num.lt c p = false ->
         trend_1_week data = Some "No Change") /\
        below_90_2_weeks data = Some (Num.lt c ninety && Num.lt p ninety)
    | None =>
        trend_1_week data = Some "N/A" /\ below_90_2_weeks data = Some false
    end.
Proof.
  apply (one_week_trend_label [attendance_row 1001 83.33] [attendance_row 1001 85]
           [(1001, update_one_week (prime_record 1001 (attendance_row 1001 83.33) 83.33)
                     (Some 85%float) true "Down")] 1001 (attendance_row 1001 85)).
  - vm_compute. reflexivity.
  - simpl. left. reflexivity.
  - reflexivity.
Defined.

(** ** Two weeks back without one week back *)

Lemma two_weeks_iteration_below (two : list row) (results results' : result_map)
    (student : row) (student_id : Z) (c : float) (m : row) :
  two_weeks_iteration two results student = Ok results' ->
  student_number student = Some student_id ->
  ind_att_percent student = Some c ->
  Num.lt c ninety = true ->
  first_match two student_id = Some m ->
  exists r p1,
    PyDict.get student_id results = Some r /\
    one_week_back_percent r = Some (Some p1).
Proof.
  unfold two_weeks_iteration. intros H Hk Hc Hlt Hm. revert H.
  rewrite Hk, Hc. cbn [bind subscript].
  destruct (next_match two student_id) as [o|] eqn:Ho; cbn [bind]; [|discriminate].
  apply next_match_first_match in Ho. rewrite Hm in Ho. subst o.
  rewrite Hlt.
  destruct (PyDict.get student_id results) as [r|]; cbn [bind subscript];
    [|discriminate].
  destruct (one_week_back_percent r) as [[p1|]|] eqn:Hone;
    cbn [bind subscript lt_ninety]; try discriminate.
  intros _. exists r, p1. auto.
Qed.

Lemma two_weeks_iteration_keeps_one_week (two : list row)
    (results results' : result_map) (student : row) (k : Z) :
  two_weeks_iteration two results student = Ok results' ->
  (forall r, PyDict.get k results = Some r -> one_week_back_percent r = None) ->
  forall r, PyDict.get k results' = Some r -> one_week_back_percent r = None.
Proof.
  intros H Hnone. apply two_weeks_iteration_ok in H.
  destruct H as (sid & c & o & _ & _ & _ & Hres).
  destruct o as [m|]; [|now subst].
  destruct Hres as (r0 & p2 & Hr0 & _ & ->). intros r.
  rewrite PyDictFacts.get_set. destruct (Z.eqb k sid) eqn:E; auto.
  apply Z.eqb_eq in E. subst sid. intros [= <-]. simpl. auto.
Qed.

Lemma two_weeks_loop_needs_one_week (two cur : list row)
    (results results' : result_map) (s : row) (student_id : Z) (c : float) (m : row) :
  In s cur ->
  student_number s = Some student_id ->
  ind_att_percent s = Some c ->
  Num.lt c ninety = true ->
  first_match two student_id = Some m ->
  (forall r, PyDict.get student_id results = Some r -> one_week_back_percent r = None) ->
  two_weeks_loop two cur results <> Ok results'.
Proof.
  intros Hin Hk Hc Hlt Hm. revert results.
  induction cur as [|student rest IH]; [contradiction|].
  intros results Hnone. simpl.
  destruct (two_weeks_iteration two results student) as [r1|] eqn:E;
    cbn [bind]; [|discriminate].
  destruct Hin as [->|Hin].
  - destruct (two_weeks_iteration_below _ _ _ _ _ _ _ E Hk Hc Hlt Hm)
      as (r & p1 & Hr & Hone).
    rewrite (Hnone _ Hr) in Hone. discriminate.
  - apply (IH Hin).
    exact (two_weeks_iteration_keeps_one_week _ _ _ _ _ E Hnone).
Qed.

(** With rows two weeks back and none one week back, no record carries the
    percent of one week back, and [flag_attendance_issues] raises as soon as
    a student below 90 has a row two weeks back. *)
Theorem two_weeks_back_needs_one_week_back (current two_weeks_back : list row)
    (s : row) (student_id : Z) (c : float) (m : row) :
  In s current ->
  student_number s = Some student_id ->
  ind_att_percent s = Some c ->
  Num.lt c ninety = true ->
  first_match two_weeks_back student_id = Some m ->
  exists e, flag_attendance_issues current [] two_weeks_back = Raise e.
Proof.
  intros Hin Hk Hc Hlt Hm.
  unfold flag_attendance_issues. cbv zeta.
  change (compare_one_week_back current [] (prime_results current))
    with (Ok (prime_results current)). cbn [bind].
  destruct (compare_two_weeks_back current two_weeks_back (prime_results current))
    as [results|e] eqn:E; [|eauto].
  exfalso. unfold compare_two_weeks_back in E.
  destruct two_weeks_back as [|t1 two']; [discriminate|].
  revert E. apply (two_weeks_loop_needs_one_week _ _ _ _ s student_id c m); auto.
  intros r Hr. apply PyDictFacts.get_in in Hr.
  exact (prime_results_all (fun r => one_week_back_percent r = None)
           (fun _ _ _ => eq_refl) current _ _ Hr).
Qed.

Lemma two_weeks_back_needs_one_week_back_witness :
  exists e,
    flag_attendance_issues [attendance_row 1001 83.33] [] [attendance_row 1001 89]
    = Raise e.
Proof.
  apply (two_weeks_back_needs_one_week_back
           [attendance_row 1001 83.33] [attendance_row 1001 89]
           (attendance_row 1001 83.33) 1001 83.33 (attendance_row 1001 89)).
  - left. reflexivity.
  - reflexivity.
  - reflexivity.
  - vm_compute. reflexivity.
  - reflexivity.
Defined.

(** ** The backup *)

Lemma append_inv_head (a b c : string) : a ++ b = a ++ c -> b = c.
Proof.
  induction a as [|x a IH]; simpl; auto.
  intros [= H]. auto.
Qed.

Lemma append_inv_tail (a b c : string) :
  String.length a = String.length b -> a ++ c = b ++ c -> a = b.
Proof.
  revert b. induction a as [|x a IH]; intros [|y b]; simpl;
    try discriminate; auto.
  intros [= Hlen] [= -> H]. f_equal. auto.
Qed.

(** Two backups of a base file have the same path exactly when their
    timestamps print alike. *)
Lemma backup_file_path_inj (base_file_path : string) (now later : datetime) :
  backup_file_path base_file_path later = backup_file_path base_file_path now
  <-> strftime later = strftime now.
Proof.
  unfold backup_file_path.
  destruct (Path.split base_file_path) as [dir_name file_name] eqn:Hsplit.
  destruct (Path.splitext file_name) as [file_base file_ext] eqn:Hext.
  split; [|now intros ->].
  assert (Hname : file_name = PathFacts.basename base_file_path).
  { rewrite <- PathFacts.basename_split, Hsplit. reflexivity. }
  apply PathFacts.splitext_append in Hext.
  assert (Hno : PathFacts.has_char Path.slash file_name = false).
  { rewrite Hname. apply PathFacts.basename_no_slash. }
  rewrite Hext, PathFacts.has_char_append in Hno. apply orb_false_iff in Hno.
  destruct Hno as [Hb He].
  intros Heq. apply (f_equal PathFacts.basename) in Heq.
  rewrite !PathFacts.basename_join in Heq
    by (rewrite !PathFacts.has_char_append, Hb, He, PathFacts.strftime_no_slash;
        reflexivity).
  apply append_inv_head in Heq. apply append_inv_head in Heq.
  apply append_inv_tail in Heq; auto.
Qed.

(** When [create_backup] returns on an existing base file, the backup path,
    which is never the base path, holds the contents of the base file, and
    the base file holds them still.  A backup of the same base file taken at
    another time goes to this very path exactly when the two timestamps
    (month, day, hour, minute and second, without the year) print alike. *)
Theorem create_backup_copies_base_file (now : datetime) (base_file_path : string)
    (w w' : world) (f : file) :
  files w base_file_path = Some f ->
  create_backup now base_file_path w = (Ok tt, w') ->
  let backup := backup_file_path base_file_path now in
  backup <> base_file_path /\
  files w' base_file_path = Some f /\
  files w' backup = Some f /\
  events w' = (events w ++ [Copied base_file_path backup])%list /\
  (forall later : datetime,
      backup_file_path base_file_path later = backup
      <-> strftime later = strftime now).
Proof.
  intros Hf Hrun backup.
  pose proof (PathFacts.backup_file_path_neq base_file_path now) as Hneq.
  fold backup in Hneq.
  assert (Hneqb : String.eqb base_file_path backup = false).
  { apply String.eqb_neq. congruence. }
  unfold create_backup, copy2 in Hrun. fold backup in Hrun.
  rewrite Hf, Hneqb in Hrun.
  split; [exact Hneq|].
  destruct (writable w backup) eqn:Hw; [|discriminate].
  injection Hrun as <-.
  split; [simpl; now rewrite Hneqb|].
  split; [simpl; now rewrite String.eqb_refl|].
  split; [reflexivity|].
  intros later. apply backup_file_path_inj.
Qed.

Lemma create_backup_copies_base_file_witness :
  let w := ledger_world "base_file.csv" [ledger_row 1001 (-1)] in
  let run := create_backup sample_now "base_file.csv" w in
  fst run = Ok tt /\
  files (snd run) "base_file_11-04-09-05-59.csv" =
    Some (fun _ : column_mapping => Ok (Ledger [ledger_row 1001 (-1)])) /\
  files (snd run) "base_file.csv" =
    Some (fun _ : column_mapping => Ok (Ledger [ledger_row 1001 (-1)])).
Proof.
  assert (Hrun : create_backup sample_now "base_file.csv"
                   (ledger_world "base_file.csv" [ledger_row 1001 (-1)])
                 = (Ok tt,
                    snd (create_backup sample_now "base_file.csv"
                           (ledger_world "base_file.csv" [ledger_row 1001 (-1)]))))
    by reflexivity.
  pose proof (create_backup_copies_base_file sample_now "base_file.csv"
                (ledger_world "base_file.csv" [ledger_row 1001 (-1)]) _
                (fun _ : column_mapping => Ok (Ledger [ledger_row 1001 (-1)]))
                eq_refl Hrun) as (_ & Hbase & Hbackup & _).
  cbv zeta. split; [reflexivity|]. split; [exact Hbackup | exact Hbase].
Defined.

(** ** The ledger from one run to the next *)

Lemma filter_prepared_one (current_week_data : list row) :
  filter (fun e => Z.eqb (weekly_value e) (-1))
    (prepare_current_week_data current_week_data)
  = prepare_current_week_data current_week_data.
Proof.
  unfold prepare_current_week_data.
  induction current_week_data as [|r l IH]; simpl; congruence.
Qed.

Lemma filter_prepared_two (current_week_data : list row) :
  filter (fun e => Z.eqb (weekly_value e) (-2))
    (prepare_current_week_data current_week_data)
  = [].
Proof.
  unfold prepare_current_week_data.
  induction current_week_data as [|r l IH]; simpl; auto.
Qed.

Lemma read_previous_weeks_ledger (base_file_path : string) (mapping : column_mapping)
    (w : world) (entries : list ledger_entry) :
  files w base_file_path = Some (to_csv_file (Ledger entries)) ->
  read_previous_weeks base_file_path mapping w =
  (Ok (filter (fun e => Z.eqb (weekly_value e) (-1)) entries,
       filter (fun e => Z.eqb (weekly_value e) (-2)) entries), w).
Proof.
  intros H. unfold read_previous_weeks, read_csv, read_and_rename.
  now rewrite H.
Qed.

(** Without a base file and with testing mode off, [update_base_file]
    creates it from the current snapshot, every row at age -1, and makes no
    backup; no other file changes.  The next run then reads the whole
    snapshot as the week before and nothing as the week before that. *)
Theorem update_base_file_bootstrap (now : datetime) (current_week_data : list row)
    (base_file_path : string) (mapping : column_mapping) (w : world) :
  files w base_file_path = None ->
  writable w base_file_path = true ->
  exists w',
    update_base_file false now current_week_data base_file_path mapping w
      = (Ok tt, w') /\
    files w' base_file_path =
      Some (to_csv_file (Ledger (prepare_current_week_data current_week_data))) /\
    (forall p, p <> base_file_path -> files w' p = files w p) /\
    events w' = (events w ++ [Wrote base_file_path])%list /\
    read_previous_weeks base_file_path mapping w' =
      (Ok (prepare_current_week_data current_week_data, []), w').
Proof.
  intros Hf Hw.
  unfold update_base_file, base_file_exists, initialize_base_file, to_csv.
  rewrite Hf, Hw. cbn [negb]. eexists. split; [reflexivity|].
  assert (Hbase :
            files
              (record_event (Wrote base_file_path)
                 (put_file base_file_path
                    (to_csv_file (Ledger (prepare_current_week_data current_week_data)))
                    w))
              base_file_path
            = Some (to_csv_file (Ledger (prepare_current_week_data current_week_data)))).
  { simpl. now rewrite String.eqb_refl. }
  split; [exact Hbase|]. split; [|split; [reflexivity|]].
  - intros p Hp. simpl. apply String.eqb_neq in Hp. now rewrite Hp.
  - rewrite (read_previous_weeks_ledger _ _ _ _ Hbase).
    now rewrite filter_prepared_one, filter_prepared_two.
Qed.

Lemma update_base_file_bootstrap_witness :
  exists w',
    update_base_file false sample_now [attendance_row 1001 83.33] "base_file.csv" []
      empty_world = (Ok tt, w') /\
    files w' "base_file.csv" =
      Some (to_csv_file
              (Ledger (prepare_current_week_data [attendance_row 1001 83.33]))) /\
    (forall p, p <> "base_file.csv" -> files w' p = files empty_world p) /\
    events w' = (events empty_world ++ [Wrote "base_file.csv"])%list /\
    read_previous_weeks "base_file.csv" [] w' =
      (Ok (prepare_current_week_data [attendance_row 1001 83.33], []), w').
Proof.
  apply (update_base_file_bootstrap sample_now [attendance_row 1001 83.33]
           "base_file.csv" [] empty_world); reflexivity.
Defined.

Lemma filter_aged (v : Z) (entries : list ledger_entry) :
  filter (fun e => Z.eqb (weekly_value e) v) (map aged entries) =
  map aged (filter (fun e => Z.eqb (weekly_value e) (v + 1)) entries).
Proof.
  induction entries as [|e l IH]; simpl; auto.
  assert (H : Z.eqb (weekly_value e - 1) v = Z.eqb (weekly_value e) (v + 1)).
  { destruct (Z.eqb_spec (weekly_value e - 1) v), (Z.eqb_spec (weekly_value e) (v + 1));
      auto; lia. }
  rewrite H. destruct (Z.eqb (weekly_value e) (v + 1)); simpl; now rewrite IH.
Qed.

Lemma filter_kept_entries (v : Z) (entries : list ledger_entry) :
  v <> -2 ->
  filter (fun e => Z.eqb (weekly_value e) v)
    (filter (fun e => negb (Z.eqb (weekly_value e) (-2))) entries)
  = filter (fun e => Z.eqb (weekly_value e) v) entries.
Proof.
  intros Hv. rewrite filter_filter. apply filter_ext. intros e.
  destruct (Z.eqb_spec (weekly_value e) (-2)), (Z.eqb_spec (weekly_value e) v);
    auto; lia.
Qed.

(** After a rollover the snapshots move on by one week: the next run reads,
    as the week before, the snapshot that this run appended (after the
    entries, if any, that the ledger held at age 0) and, as the week before
    that, the entries that this run read as the week before, one week
    older. *)
Theorem rollover_round_trip (now : datetime) (current_week_data : list row)
    (base_file_path : string) (mapping : column_mapping) (w : world) (f : file)
    (entries : list ledger_entry) :
  files w base_file_path = Some f ->
  f mapping = Ok (Ledger entries) ->
  Forall in_range entries ->
  writable w base_file_path = true ->
  writable w (backup_file_path base_file_path now) = true ->
  exists w',
    update_base_file false now current_week_data base_file_path mapping w
      = (Ok tt, w') /\
    fst (read_previous_weeks base_file_path mapping w) =
      Ok (filter (fun e => Z.eqb (weekly_value e) (-1)) entries,
          filter (fun e => Z.eqb (weekly_value e) (-2)) entries) /\
    fst (read_previous_weeks base_file_path mapping w') =
      Ok ((map aged (filter (fun e => Z.eqb (weekly_value e) 0) entries)
           ++ prepare_current_week_data current_week_data)%list,
          map aged (filter (fun e => Z.eqb (weekly_value e) (-1)) entries)).
Proof.
  intros Hf Hread Hrange Hw Hwb.
  pose proof (PathFacts.backup_file_path_neq base_file_path now) as Hneq.
  assert (Hneqb : String.eqb base_file_path (backup_file_path base_file_path now)
                  = false).
  { apply String.eqb_neq. congruence. }
  assert (Hbefore :
            fst (read_previous_weeks base_file_path mapping w) =
            Ok (filter (fun e => Z.eqb (weekly_value e) (-1)) entries,
                filter (fun e => Z.eqb (weekly_value e) (-2)) entries)).
  { unfold read_previous_weeks, read_csv, read_and_rename.
    now rewrite Hf, Hread. }
  unfold update_base_file, base_file_exists, create_backup, copy2.
  rewrite Hf. simpl. rewrite Hneqb, Hwb.
  unfold read_csv, read_and_rename. simpl.
  rewrite Hneqb, Hf, Hread. simpl.
  unfold to_csv. simpl. rewrite Hw.
  eexists. split; [reflexivity|]. split; [exact Hbefore|].
  rewrite (read_previous_weeks_ledger _ _ _
             (clean_base_file (map decrement_weekly_value entries)
              ++ prepare_current_week_data current_week_data)%list).
  - simpl. rewrite (clean_decrement _ Hrange), !filter_app.
    rewrite filter_prepared_one, filter_prepared_two, app_nil_r.
    rewrite (filter_aged (-1)), (filter_aged (-2)). simpl.
    rewrite (filter_kept_entries 0), (filter_kept_entries (-1)) by lia.
    reflexivity.
  - simpl. now rewrite String.eqb_refl.
Qed.

Lemma rollover_round_trip_witness :
  exists w',
    update_base_file false sample_now [attendance_row 1004 85] "base_file.csv" []
      (ledger_world "base_file.csv" [ledger_row 1001 (-1); ledger_row 1002 (-2)])
      = (Ok tt, w') /\
    fst (read_previous_weeks "base_file.csv" []
           (ledger_world "base_file.csv" [ledger_row 1001 (-1); ledger_row 1002 (-2)])) =
      Ok (filter (fun e => Z.eqb (weekly_value e) (-1))
            [ledger_row 1001 (-1); ledger_row 1002 (-2)],
          filter (fun e => Z.eqb (weekly_value e) (-2))
            [ledger_row 1001 (-1); ledger_row 1002 (-2)]) /\
    fst (read_previous_weeks "base_file.csv" [] w') =
      Ok ((map aged (filter (fun e => Z.eqb (weekly_value e) 0)
                       [ledger_row 1001 (-1); ledger_row 1002 (-2)])
           ++ prepare_current_week_data [attendance_row 1004 85])%list,
          map aged (filter (fun e => Z.eqb (weekly_value e) (-1))
                      [ledger_row 1001 (-1); ledger_row 1002 (-2)])).
Proof.
  apply (rollover_round_trip sample_now [attendance_row 1004 85] "base_file.csv" []
           (ledger_world "base_file.csv" [ledger_row 1001 (-1); ledger_row 1002 (-2)])
           (fun _ : column_mapping =>
              Ok (Ledger [ledger_row 1001 (-1); ledger_row 1002 (-2)]))).
  - reflexivity.
  - reflexivity.
  - repeat constructor; simpl; lia.
  - reflexivity.
  - reflexivity.
Defined.

(** ** A base file that cannot be read as a ledger *)

Lemma read_previous_weeks_unreadable (base_file_path : string)
    (mapping : column_mapping) (w : world) (f : file) :
  files w base_file_path = Some f ->
  (forall entries, f mapping <> Ok (Ledger entries)) ->
  fst (read_previous_weeks base_file_path mapping w) = Raise KeyError.
Proof.
  intros Hf Hno. unfold read_previous_weeks, read_csv, read_and_rename.
  rewrite Hf. destruct (f mapping) as [[rows|entries]|e] eqn:E.
  - reflexivity.
  - now destruct (Hno entries).
  - destruct e; reflexivity.
Qed.

(** When the base file exists and does not read as a table with the
    [weekly_value] column (it cannot be parsed, or the column is missing),
    the earlier weeks cannot be read: [read_previous_weeks] and, once the
    current report is consolidated, [input_attendance_data] raise [KeyError].
    [update_base_file] never returns normally on such a file, and leaves it
    as it was. *)
Theorem unreadable_ledger_raises (new_report base_file : string)
    (mapping : column_mapping) (w : world) (f : file) :
  files w base_file = Some f ->
  (forall entries, f mapping <> Ok (Ledger entries)) ->
  fst (read_previous_weeks base_file mapping w) = Raise KeyError /\
  (forall current_week_data,
      consolidate_attendance (df_to_dict (read_frame w new_report mapping))
        = Ok current_week_data ->
      fst (input_attendance_data new_report base_file mapping w) = Raise KeyError) /\
  (forall now current_week_data,
      let run := update_base_file false now current_week_data base_file mapping w in
      (fst run = Raise KeyError \/ fst run = Raise PermissionError) /\
      files (snd run) base_file = Some f).
Proof.
  intros Hf Hno. split; [|split].
  - exact (read_previous_weeks_unreadable _ _ _ _ Hf Hno).
  - intros current_week_data Hcons. unfold input_attendance_data.
    pose proof (read_csv_frame new_report mapping w) as Hframe.
    pose proof (read_csv_world new_report mapping w) as [Hfiles _].
    destruct (read_csv new_report mapping w) as [df w1].
    simpl in Hframe, Hfiles. subst df. rewrite Hcons.
    unfold base_file_exists. rewrite Hfiles, Hf.
    assert (Hf1 : files w1 base_file = Some f) by now rewrite Hfiles.
    pose proof (read_previous_weeks_unreadable _ mapping _ _ Hf1 Hno) as Hprev.
    destruct (read_previous_weeks base_file mapping w1) as [[[one two]|e] w2];
      simpl in Hprev; [discriminate|]. simpl. congruence.
  - intros now current_week_data.
    pose proof (PathFacts.backup_file_path_neq base_file now) as Hneq.
    assert (Hneqb : String.eqb base_file (backup_file_path base_file now) = false).
    { apply String.eqb_neq. congruence. }
    unfold update_base_file, base_file_exists, create_backup, copy2.
    rewrite Hf, Hneqb. cbn [negb].
    destruct (writable w (backup_file_path base_file now)).
    + unfold read_csv, read_and_rename. simpl. rewrite Hneqb, Hf.
      destruct (f mapping) as [[rows|entries]|e] eqn:E.
      * simpl. rewrite Hneqb. auto.
      * now destruct (Hno entries).
      * destruct e; simpl; rewrite Hneqb; auto.
    + simpl. auto.
Qed.

Lemma unreadable_ledger_raises_witness :
  fst (read_previous_weeks "base_file.csv" [] corrupt_ledger_world) = Raise KeyError.
Proof.
  apply (proj1 (unreadable_ledger_raises "YTD Student Attendance Extract.csv"
                  "base_file.csv" [] corrupt_ledger_world
                  (fun _ : column_mapping => Raise ParserError) eq_refl
                  ltac:(discriminate))).
Defined.

(** ** Output of a test run *)

Lemma join_length (a b : string) :
  PathFacts.has_char Path.slash b = false ->
  (String.length a + String.length b <= String.length (Path.join a b)
   <= String.length a + String.length b + 1)%nat.
Proof.
  intros Hb. unfold Path.join. destruct b as [|c b'].
  - destruct (String.eqb a EmptyString || Path.ends_with_slash a)%bool.
    + simpl. lia.
    + rewrite PathFacts.length_append. simpl. lia.
  - simpl in Hb. apply orb_false_iff in Hb. destruct Hb as [Hc _]. rewrite Hc.
    destruct (String.eqb a EmptyString || Path.ends_with_slash a)%bool;
      rewrite PathFacts.length_append; simpl; lia.
Qed.

(** In production [get_output_dir] is the base path and creates nothing,
    and the final report goes to the directory and name of the path that
    [main] gives.  In testing mode the output directory is the
    [#test_output] directory below the base path, which exists afterwards,
    and the final report is written to a file that is not the production
    file. *)
Theorem testing_output_is_separate (output_file_path : string) (paths : path_set) :
  let production := final_report_file false output_file_path paths in
  let testing := final_report_file true output_file_path paths in
  let output_dir := fst (Path.split output_file_path) in
  (forall base, get_output_dir base false paths = (base, paths)) /\
  (forall base,
      fst (get_output_dir base true paths) = Path.join base "#test_output" /\
      fst (get_output_dir base true paths) <> base /\
      path_exists (Path.join base "#test_output")
        (snd (get_output_dir base true paths)) = true) /\
  production = (Path.join output_dir (snd (Path.split output_file_path)), paths) /\
  fst testing <> fst production /\
  path_exists (Path.join output_dir "#test_output") (snd testing) = true.
Proof.
  cbv zeta.
  assert (Htest : forall base,
             fst (get_output_dir base true paths) = Path.join base "#test_output" /\
             path_exists (Path.join base "#test_output")
               (snd (get_output_dir base true paths)) = true).
  { intros base. unfold get_output_dir.
    destruct (path_exists (Path.join base "#test_output") paths) eqn:E; simpl.
    - auto.
    - split; auto. unfold path_exists. simpl. now rewrite String.eqb_refl. }
  assert (Hlen : forall base,
             (String.length base + 12 <=
              String.length (Path.join base "#test_output"))%nat).
  { intros base.
    pose proof (join_length base "#test_output" eq_refl) as H.
    change (String.length "#test_output") with 12%nat in H. lia. }
  split; [reflexivity|]. split; [|split; [reflexivity|split]].
  - intros base. destruct (Htest base) as [H1 H2]. repeat split; auto.
    rewrite H1. intros H. apply (f_equal String.length) in H.
    specialize (Hlen base). lia.
  - assert (Ht : fst (final_report_file true output_file_path paths) =
                 Path.join (Path.join (fst (Path.split output_file_path)) "#test_output")
                   (snd (Path.split output_file_path))).
    { unfold final_report_file, get_output_dir.
      now destruct (negb (path_exists
                            (Path.join (fst (Path.split output_file_path))
                               "#test_output") paths)). }
    rewrite Ht.
    change (fst (final_report_file false output_file_path paths))
      with (Path.join (fst (Path.split output_file_path))
              (snd (Path.split output_file_path))).
    assert (Hname : PathFacts.has_char Path.slash (snd (Path.split output_file_path))
                    = false).
    { rewrite PathFacts.basename_split. apply PathFacts.basename_no_slash. }
    intros H. apply (f_equal String.length) in H.
    pose proof (join_length (Path.join (fst (Path.split output_file_path))
                               "#test_output") _ Hname).
    pose proof (join_length (fst (Path.split output_file_path)) _ Hname).
    specialize (Hlen (fst (Path.split output_file_path))). lia.
  - unfold final_report_file.
    destruct (Htest (fst (Path.split output_file_path))) as [_ H2].
    now destruct (get_output_dir (fst (Path.split output_file_path)) true paths).
Qed.

(** ** Two weeks back *)

Lemma two_weeks_loop_valid (two cur : list row) (results results' : result_map) :
  two_weeks_loop two cur results = Ok results' ->
  Forall (fun s => ind_att_percent s <> None) cur.
Proof.
  revert results. induction cur as [|student rest IH]; intros results; simpl.
  - constructor.
  - destruct (two_weeks_iteration two results student) as [r1|] eqn:E;
      simpl; [|discriminate].
    intros H. constructor; [|eauto].
    apply two_weeks_iteration_ok in E.
    destruct E as (? & ? & ? & _ & Hc & _). congruence.
Qed.

Lemma two_weeks_loop_get_unmatched (two cur : list row)
    (results results' : result_map) (student_id : Z) :
  two_weeks_loop two cur results = Ok results' ->
  first_match two student_id = None ->
  PyDict.get student_id results' = PyDict.get student_id results.
Proof.
  intros Hloop Hm. revert results Hloop.
  induction cur as [|student rest IH]; intros results; simpl.
  - now intros [= <-].
  - destruct (two_weeks_iteration two results student) as [r1|] eqn:E;
      simpl; [|discriminate].
    intros H. rewrite (IH _ H).
    apply two_weeks_iteration_ok in E.
    destruct E as (sid & c & o & _ & _ & Ho & Hres).
    apply next_match_first_match in Ho.
    destruct o as [m|]; [|now subst].
    destruct Hres as (r & p2 & _ & _ & ->).
    apply PyDictFacts.get_set_other. intros ->. congruence.
Qed.

(** When [compare_two_weeks_back] returns, the record of a student that has
    a row two weeks back holds the percent of its first row there, and the
    trend over two weeks is ["Up"], ["Down"] or ["No Change"] as the current
    percent is above, below or neither above nor below that percent; the
    fields of the one-week comparison are as they were.  The record of a
    student without a row two weeks back is left as it was: it gets none of
    the three keys. *)
Theorem two_week_trend_label (current two_weeks_back : list row)
    (results1 results2 : result_map) (student_id : Z) :
  compare_two_weeks_back current two_weeks_back results1 = Ok results2 ->
  In (Some student_id) (map student_number current) ->
  match first_match two_weeks_back student_id with
  | Some m =>
      exists r data s c p2,
        PyDict.get student_id results1 = Some r /\
        PyDict.get student_id results2 = Some data /\
        last_valid_row student_id current = Some s /\
        ind_att_percent s = Some c /\
        ind_att_percent m = Some p2 /\
        two_weeks_back_percent data = Some p2 /\
        trend_2_weeks data = Some (trend_label c p2) /\
        one_week_back_percent data = one_week_back_percent r /\
        trend_1_week data = trend_1_week r /\
        below_90_2_weeks data = below_90_2_weeks r
  | None => PyDict.get student_id results2 = PyDict.get student_id results1
  end.
Proof.
  intros H Hcur. unfold compare_two_weeks_back in H.
  destruct two_weeks_back as [|t1 two'].
  - injection H as <-. reflexivity.
  - destruct (first_match (t1 :: two') student_id) as [m|] eqn:Hm.
    + pose proof (two_weeks_loop_valid _ _ _ _ H) as Hvalid.
      destruct (last_valid_row_in _ _ Hvalid Hcur) as [s Hs].
      pose proof (two_weeks_loop_get _ _ _ _ student_id m H Hm) as Hget.
      rewrite Hs in Hget. destruct Hget as (r & c & p2 & Hr & Hc & Hp2 & Hres).
      exists r. eexists. exists s, c, p2.
      split; [exact Hr|]. split; [exact Hres|]. repeat split; auto.
    + exact (two_weeks_loop_get_unmatched _ _ _ _ _ H Hm).
Qed.

Lemma two_week_trend_label_witness :
  match first_match [attendance_row 1001 89] 1001 with
  | Some m =>
      exists r data s c p2,
        PyDict.get 1001 (prime_results [attendance_row 1001 95]) = Some r /\
        PyDict.get 1001
          [(1001, update_two_weeks (prime_record 1001 (attendance_row 1001 95) 95)
                    89 false "Up")] = Some data /\
        last_valid_row 1001 [attendance_row 1001 95] = Some s /\
        ind_att_percent s = Some c /\
        ind_att_percent m = Some p2 /\
        two_weeks_back_percent data = Some p2 /\
        trend_2_weeks data = Some (trend_label c p2) /\
        one_week_back_percent data = one_week_back_percent r /\
        trend_1_week data = trend_1_week r /\
        below_90_2_weeks data = below_90_2_weeks r
  | None =>
      PyDict.get 1001
        [(1001, update_two_weeks (prime_record 1001 (attendance_row 1001 95) 95)
                  89 false "Up")]
      = PyDict.get 1001 (prime_results [attendance_row 1001 95])
  end.
Proof.
  apply (two_week_trend_label [attendance_row 1001 95] [attendance_row 1001 89]
           (prime_results [attendance_row 1001 95])
           [(1001, update_two_weeks (prime_record 1001 (attendance_row 1001 95) 95)
                     89 false "Up")] 1001).
  - vm_compute. reflexivity.
  - simpl. left. reflexivity.
Defined.

(** ** From the consolidated list to the results *)

Lemma last_valid_row_unique (l : list row) (data : row) (k : Z) (c : float) :
  NoDup (map student_number l) ->
  In data l ->
  student_number data = Some k ->
  ind_att_percent data = Some c ->
  last_valid_row k l = Some data.
Proof.
  induction l as [|a l IH]; simpl; [tauto|].
  intros Hnd Hin Hk Hc. inversion Hnd as [|? ? Hnotin Hnd']; subst.
  destruct Hin as [->|Hin].
  - destruct (last_valid_row k l) as [s'|] eqn:E.
    + exfalso. apply last_valid_row_spec in E. destruct E as (Hin' & Hk' & _).
      apply Hnotin. rewrite Hk, <- Hk'. now apply in_map.
    + unfold is_row_of. now rewrite Hk, Hc, Z.eqb_refl.
  - now rewrite (IH Hnd' Hin Hk Hc).
Qed.

Lemma prime_results_keys_valid (l : list row) (results : result_map) :
  (forall data, In data l ->
     exists k c, student_number data = Some k /\ ind_att_percent data = Some c) ->
  NoDup (map Some (PyDict.keys results) ++ map student_number l) ->
  map Some (PyDict.keys (fold_left prime_entry l results)) =
  (map Some (PyDict.keys results) ++ map student_number l)%list.
Proof.
  revert results. induction l as [|a l IH]; intros results Hvalid Hnd; simpl.
  - now rewrite app_nil_r.
  - destruct (Hvalid a (or_introl eq_refl)) as (k & c & Hk & Hc).
    simpl in Hnd. rewrite Hk in Hnd.
    assert (Hnew : PyDict.get k results = None).
    { destruct (PyDict.get k results) as [v|] eqn:E; auto. exfalso.
      apply NoDup_remove_2 in Hnd. apply Hnd. apply in_or_app. left.
      apply in_map. apply PyDictFacts.get_in in E. unfold PyDict.keys.
      change k with (fst (k, v)). now apply in_map. }
    assert (Hkeys : PyDict.keys (prime_entry results a) = (PyDict.keys results ++ [k])%list).
    { unfold prime_entry. rewrite Hk, Hc, PyDictFacts.keys_set.
      unfold PyDict.mem. now rewrite Hnew. }
    rewrite IH.
    + rewrite Hkeys, map_app, <- app_assoc, Hk. reflexivity.
    + intros data Hin. apply Hvalid. now right.
    + rewrite Hkeys, map_app, <- app_assoc. exact Hnd.
Qed.

(** The records that [consolidate_attendance] returns become the results one
    for one: [prime_results] makes, in the order of the consolidated list, one
    entry per record, with the record's number, name, grade and percent, and
    the flag of the current week from that percent. *)
Theorem consolidated_students_are_primed (attendance_data current_week_data : list row) :
  consolidate_attendance attendance_data = Ok current_week_data ->
  map Some (PyDict.keys (prime_results current_week_data))
    = map student_number current_week_data /\
  forall data, In data current_week_data ->
    exists student_id c,
      student_number data = Some student_id /\
      ind_att_percent data = Some c /\
      PyDict.get student_id (prime_results current_week_data)
        = Some (mk_result student_id (name data) (grade data) c (Num.lt c ninety)
                  None None None None None None None None None None None None).
Proof.
  intros H. apply consolidate_attendance_sound in H.
  destruct H as (Hnd & Hrec & _).
  assert (Hvalid : forall data, In data current_week_data ->
            exists k c, student_number data = Some k /\ ind_att_percent data = Some c).
  { intros data Hin.
    destruct (Hrec data Hin) as (k & first & rest & Hk & _ & _ & _ & _ & _ & _ & Hc & _).
    eauto. }
  split.
  - unfold prime_results. now rewrite prime_results_keys_valid.
  - intros data Hin. destruct (Hvalid data Hin) as (k & c & Hk & Hc).
    exists k, c. repeat split; auto.
    rewrite prime_results_get, (last_valid_row_unique _ _ _ _ Hnd Hin Hk Hc), Hc.
    reflexivity.
Qed.

Lemma consolidated_students_are_primed_witness :
  map Some
    (PyDict.keys
       (prime_results [mk_row (Some 1001) "Doe, John" "5" 75 15 90 (Some 83.33%float)]))
  = map student_number [mk_row (Some 1001) "Doe, John" "5" 75 15 90 (Some 83.33%float)].
Proof.
  apply (proj1 (consolidated_students_are_primed
                  [hours_row 1001 30 10 40; hours_row 1001 45 5 50]
                  [mk_row (Some 1001) "Doe, John" "5" 75 15 90 (Some 83.33%float)]
                  ltac:(vm_compute; reflexivity))).
Defined.

(** ** Buildings *)

(** Every record that [main] reports has a school name as its residence, the
    mapped one, and never ["Unknown School (Code: None)"].  A student is in the
    extract of a building group exactly when that name is one of the schools
    of the group, and in the uncategorized extract exactly when it is in the
    extract of no group: no student is lost between the two. *)
Theorem building_reports_cover (TOTAL_SCHOOL_DAYS : Z)
    (current one two : list row) (ps_data : list ps_row)
    (med_data medp_data : list Z) (d : school_dict) (results : result_map)
    (building_group_mapping : list (string * list string)) (r : student_result) :
  main_results TOTAL_SCHOOL_DAYS current one two ps_data med_data medp_data d
    = Ok results ->
  In r (PyDict.values results) ->
  exists school,
    school_of_residence r = Some (CodeStr school) /\
    school <> unknown_none /\
    (forall schools,
        In r (building_students results schools) <-> In school schools) /\
    (In r (uncategorized_students results building_group_mapping) <->
     forall group_name schools,
       In (group_name, schools) building_group_mapping ->
       ~ In r (building_students results schools)).
Proof.
  intros Hmain Hr.
  assert (Hschool : exists school,
            school_of_residence r = Some (CodeStr school) /\ school <> unknown_none).
  { unfold main_results in Hmain.
    destruct (compare_one_week_back current one (prime_results current))
      as [r1|]; cbn [bind] in Hmain; [|discriminate].
    destruct (compare_two_weeks_back current two r1) as [r2|];
      cbn [bind] in Hmain; [|discriminate].
    injection Hmain as <-.
    unfold PyDict.values in Hr. apply in_map_iff in Hr.
    destruct Hr as ([k data] & <- & Hin).
    apply (proj1 (unknown_residence_filter d _)) in Hin.
    destruct Hin as (data0 & _ & -> & Hne). simpl.
    unfold map_code in *.
    destruct (school_lookup d (school_of_residence data0)) as [school|];
      eexists; (split; [reflexivity|congruence]). }
  destruct Hschool as (school & Hs & Hne). exists school.
  split; [exact Hs|]. split; [exact Hne|].
  assert (Hin : forall schools,
            residence_in schools r = true <-> In school schools).
  { intros schools. unfold residence_in. rewrite Hs, existsb_exists. split.
    - intros (x & Hx & E). apply String.eqb_eq in E. now subst.
    - intros H. exists school. split; auto. apply String.eqb_refl. }
  assert (Hb : forall schools,
            In r (building_students results schools) <-> In school schools).
  { intros schools. unfold building_students. rewrite filter_In, Hin. tauto. }
  split; [exact Hb|].
  unfold uncategorized_students. rewrite filter_In, negb_true_iff.
  rewrite <- not_true_iff_false, existsb_exists. split.
  - intros [_ Hnone] group_name schools Hg Hbs. apply Hnone.
    exists (group_name, schools). split; auto. simpl.
    apply Hin. now apply Hb.
  - intros Hall. split; auto. intros ([group_name schools] & Hg & Hres).
    simpl in Hres. apply (Hall _ _ Hg). apply Hb. now apply Hin.
Qed.

Lemma building_reports_cover_witness :
  exists results school,
    main_results 160 [attendance_row 1001 83.33] [] []
      [mk_ps_row 1001 (CodeInt 1) (CodeInt 1)] [] [] [(1, "High School 1")]
    = Ok results /\
    In school ["High School 1"].
Proof.
  eexists.
  destruct (building_reports_cover 160 [attendance_row 1001 83.33] [] []
              [mk_ps_row 1001 (CodeInt 1) (CodeInt 1)] [] [] [(1, "High School 1")]
              _ [("team 1", ["High School 1"])]
              (update_med
                 (update_schools (prime_record 1001 (attendance_row 1001 83.33) 83.33)
                    (CodeStr "High School 1") (CodeStr "High School 1"))
                 0 0 0 83.33)
              eq_refl (or_introl eq_refl))
    as (school & _ & _ & Hb & _).
  exists school. split; [reflexivity|].
  apply Hb. vm_compute. left. reflexivity.
Defined.


(** ** Medical days: the merged records *)

(** The demographic merge keeps the attendance of every student: a record
    is replaced by itself with two school cells set. *)
Lemma merge_ps_get (ps_data : list ps_row) (results : result_map)
    (student_id : Z) (data0 : student_result) :
  PyDict.get student_id results = Some data0 ->
  exists data1,
    PyDict.get student_id (fold_left merge_ps ps_data results) = Some data1 /\
    current_week_att_percent data1 = current_week_att_percent data0.
Proof.
  revert results data0.
  induction ps_data as [|p ps_data IH]; intros results data0 Hget; simpl.
  - now exists data0.
  - assert (H1 : exists data1,
               PyDict.get student_id (merge_ps results p) = Some data1 /\
               current_week_att_percent data1 = current_week_att_percent data0).
    { unfold merge_ps.
      destruct (PyDict.get (ps_student_number p) results) as [r|] eqn:Hp.
      - rewrite PyDictFacts.get_set.
        destruct (Z.eqb student_id (ps_student_number p)) eqn:E.
        + apply Z.eqb_eq in E. subst student_id.
          assert (r = data0) by congruence. subst r.
          eexists. split; [reflexivity|]. reflexivity.
        + now exists data0.
      - now exists data0. }
    destruct H1 as (data1 & Hget1 & Hcur1).
    destruct (IH _ _ Hget1) as (data2 & Hget2 & Hcur2).
    exists data2. split; [exact Hget2|congruence].
Qed.

(** The last loop of [process_additional_data] rewrites every record in
    place. *)
Lemma merge_med_get (TOTAL_SCHOOL_DAYS : Z) (med_counts medp_counts : list (Z * Z))
    (results : result_map) (student_id : Z) :
  PyDict.get student_id
    (map (merge_med TOTAL_SCHOOL_DAYS med_counts medp_counts) results)
  = match PyDict.get student_id results with
    | Some data =>
        Some (snd (merge_med TOTAL_SCHOOL_DAYS med_counts medp_counts
                     (student_id, data)))
    | None => None
    end.
Proof.
  induction results as [|[k r] results IH]; simpl; auto.
  destruct (Z.eqb student_id k) eqn:E; auto.
  apply Z.eqb_eq in E. now subst k.
Qed.

(** C7. Let [TOTAL_SCHOOL_DAYS] be non-zero and, like the number of MED and
    MEDP records, within the integers that a double holds exactly.  Then
    [process_additional_data] returns the students of the results it was
    given, in their order.  Every student of these results has a record in
    the output that keeps the student's current percent and carries the
    number of the student's MED and MEDP records, the absence-percent
    equivalent [round((full + partial) / TOTAL_SCHOOL_DAYS * 100, 2)], in
    which a partial day counts as a full day, and the best case
    [min(current + equivalent, 100.0)]; and every record of the output
    carries these four values.  With 2 full days, 1 partial day and 160
    school days the equivalent is 1.88; a current percent of 83.33 then
    gives the best case 85.21, and a current percent of 99.5 the cap
    100.0; with -160 school days the equivalent is -1.88. *)
Theorem med_absence_and_best_case :
  (forall (TOTAL_SCHOOL_DAYS : Z) (results : result_map) (ps_data : list ps_row)
          (med_data medp_data : list Z),
      TOTAL_SCHOOL_DAYS <> 0 ->
      Z.abs TOTAL_SCHOOL_DAYS < 2 ^ 53 ->
      Z.of_nat (List.length med_data) + Z.of_nat (List.length medp_data) < 2 ^ 53 ->
      let output :=
        process_additional_data TOTAL_SCHOOL_DAYS results ps_data med_data medp_data in
      PyDict.keys output = PyDict.keys results /\
      (forall (student_id : Z) (data0 : student_result),
          PyDict.get student_id results = Some data0 ->
          let full := Z.of_nat (count_occ Z.eq_dec med_data student_id) in
          let partial := Z.of_nat (count_occ Z.eq_dec medp_data student_id) in
          let equivalent := absence_percent_equivalent TOTAL_SCHOOL_DAYS full partial in
          exists data,
            PyDict.get student_id output = Some data /\
            current_week_att_percent data = current_week_att_percent data0 /\
            med_full_days data = Some full /\
            med_partial_days data = Some partial /\
            med_absence_percent data = Some equivalent /\
            best_case_attendance_percent data =
              Some (Num.min (current_week_att_percent data0 + equivalent)%float
                      hundred)) /\
      (forall (student_id : Z) (data : student_result),
          In (student_id, data) output ->
          let full := Z.of_nat (count_occ Z.eq_dec med_data student_id) in
          let partial := Z.of_nat (count_occ Z.eq_dec medp_data student_id) in
          let equivalent := absence_percent_equivalent TOTAL_SCHOOL_DAYS full partial in
          med_full_days data = Some full /\
          med_partial_days data = Some partial /\
          med_absence_percent data = Some equivalent /\
          best_case_attendance_percent data =
            Some (Num.min (current_week_att_percent data + equivalent)%float
                    hundred))) /\
  calculate_med_absence_percentage 160 2 1 = 1.88%float /\
  Num.min (83.33 + calculate_med_absence_percentage 160 2 1)%float hundred
    = 85.21%float /\
  Num.min (99.5 + calculate_med_absence_percentage 160 2 1)%float hundred
    = 100%float /\
  calculate_med_absence_percentage (-160) 2 1 = (-1.88)%float.
Proof.
  split; [|repeat split; vm_compute; reflexivity].
  intros T results ps_data med_data medp_data HT _ _. cbv zeta.
  split; [apply process_additional_data_keys|]. split.
  - intros student_id data0 Hget.
    destruct (merge_ps_get ps_data _ _ _ Hget) as (data1 & Hget1 & Hcur).
    unfold process_additional_data. rewrite merge_med_get, Hget1.
    eexists. split; [reflexivity|].
    unfold merge_med. cbn [snd].
    rewrite !counts_get_count_records.
    rewrite calculate_med_absence_percentage_formula by assumption.
    simpl. rewrite Hcur. auto.
  - intros student_id data Hin.
    unfold process_additional_data in Hin.
    apply in_map_iff in Hin. destruct Hin as [[id0 r0] [Heq _]].
    unfold merge_med in Heq. injection Heq as <- <-.
    rewrite !counts_get_count_records.
    rewrite calculate_med_absence_percentage_formula by assumption.
    simpl. auto.
Qed.

Definition sample_result (student_id : Z) (percent : float) : student_result :=
  mk_result student_id "Doe, John" "5" percent (Num.lt percent ninety)
    None None None None None None None None None None None None.

Lemma med_absence_and_best_case_witness :
  exists data : student_result,
    PyDict.get 1001
      (process_additional_data 160
         [(1001, sample_result 1001 83.33); (1002, sample_result 1002 99.5)]
         [mk_ps_row 1001 (CodeInt 1) (CodeInt 1)]
         [1001; 1002; 1001; 1002] [1002; 1001]) = Some data /\
    current_week_att_percent data = 83.33%float /\
    med_full_days data = Some 2 /\
    med_partial_days data = Some 1 /\
    med_absence_percent data = Some 1.88%float /\
    best_case_attendance_percent data = Some 85.21%float.
Proof.
  assert (H160 : 160 <> 0) by lia.
  assert (Habs : Z.abs 160 < 2 ^ 53) by reflexivity.
  assert (Hlen : Z.of_nat (List.length [1001; 1002; 1001; 1002])
                 + Z.of_nat (List.length [1002; 1001]) < 2 ^ 53) by reflexivity.
  destruct (proj1 med_absence_and_best_case 160
              [(1001, sample_result 1001 83.33); (1002, sample_result 1002 99.5)]
              [mk_ps_row 1001 (CodeInt 1) (CodeInt 1)]
              [1001; 1002; 1001; 1002] [1002; 1001] H160 Habs Hlen)
    as (_ & Hget & _).
  destruct (Hget 1001 (sample_result 1001 83.33) eq_refl)
    as (data & H1 & H2 & H3 & H4 & H5 & H6).
  exists data. repeat split; assumption.
Defined.

(** ** The ledger over several runs *)

(** A rollover on a readable ledger returns, and changes no permission. *)
Lemma update_base_file_returns (now : datetime) (current_week_data : list row)
    (base_file_path : string) (mapping : column_mapping) (w : world) (f : file)
    (entries : list ledger_entry) :
  files w base_file_path = Some f ->
  f mapping = Ok (Ledger entries) ->
  Forall in_range entries ->
  writable w base_file_path = true ->
  writable w (backup_file_path base_file_path now) = true ->
  exists w',
    update_base_file false now current_week_data base_file_path mapping w
      = (Ok tt, w') /\
    files w' base_file_path =
      Some (to_csv_file (Ledger (rolled_over entries current_week_data))) /\
    writable w' = writable w.
Proof.
  intros Hf Hread Hrange Hw Hwb.
  pose proof (PathFacts.backup_file_path_neq base_file_path now) as Hneq.
  assert (Hneqb : String.eqb base_file_path (backup_file_path base_file_path now)
                  = false).
  { apply String.eqb_neq. congruence. }
  unfold update_base_file, base_file_exists, create_backup, copy2.
  rewrite Hf. simpl. rewrite Hneqb, Hwb.
  unfold read_csv, read_and_rename. simpl.
  rewrite Hneqb, Hf, Hread. simpl.
  unfold to_csv. simpl. rewrite Hw.
  eexists. split; [reflexivity|]. split; [|reflexivity].
  simpl. rewrite String.eqb_refl. unfold rolled_over.
  now rewrite (clean_decrement _ Hrange).
Qed.

Lemma merge_ps_nil (ps_data : list ps_row) : fold_left merge_ps ps_data [] = [].
Proof. induction ps_data as [|p ps_data IH]; simpl; auto. Qed.

(** Without a student in the current week there is no result. *)
Lemma main_results_nil (TOTAL_SCHOOL_DAYS : Z) (one two : list row)
    (ps_data : list ps_row) (med_data medp_data : list Z) (d : school_dict) :
  main_results TOTAL_SCHOOL_DAYS [] one two ps_data med_data medp_data d = Ok [].
Proof.
  assert (H1 : compare_one_week_back [] one (prime_results []) = Ok []).
  { unfold compare_one_week_back. now destruct one. }
  assert (H2 : compare_two_weeks_back [] two [] = Ok []).
  { unfold compare_two_weeks_back. now destruct two. }
  unfold main_results, process_additional_data. rewrite H1. cbn [bind].
  rewrite H2. cbn [bind]. now rewrite merge_ps_nil.
Qed.

(** A current report that is missing or cannot be read does not stop a run
    with testing mode off, once the additional extracts are loaded.
    [read_csv] returns the empty frame, the run has no student and no
    result, and yet it rolls the ledger over: the entries at
    age -2 are dropped, every other entry is one week older, and nothing is
    appended.  The next run reads as the week before only what the ledger
    held at age 0, and as the week before that what this run read as the
    week before. *)
Theorem unreadable_report_ages_ledger (TOTAL_SCHOOL_DAYS : Z) (now : datetime)
    (current_week_file base_file : string) (mapping : column_mapping)
    (ps_data : list ps_row) (med_data medp_data : list Z) (d : school_dict)
    (w : world) (e : exn) (f : file) (entries : list ledger_entry) :
  read_and_rename w current_week_file mapping = Raise e ->
  files w base_file = Some f ->
  f mapping = Ok (Ledger entries) ->
  Forall in_range entries ->
  writable w base_file = true ->
  writable w (backup_file_path base_file now) = true ->
  exists w',
    main_until_reports false TOTAL_SCHOOL_DAYS now current_week_file base_file
      mapping ps_data med_data medp_data d w = (Ok [], w') /\
    files w' base_file =
      Some (to_csv_file
              (Ledger (map aged
                         (filter (fun e => negb (Z.eqb (weekly_value e) (-2)))
                            entries)))) /\
    fst (read_previous_weeks base_file mapping w') =
      Ok (map aged (filter (fun e => Z.eqb (weekly_value e) 0) entries),
          map aged (filter (fun e => Z.eqb (weekly_value e) (-1)) entries)).
Proof.
  intros Hreport Hf Hread Hrange Hw Hwb.
  destruct (read_csv_raise _ _ _ _ Hreport) as [line Hline].
  destruct (update_base_file_returns now [] base_file mapping (print line w) f
              entries Hf Hread Hrange Hw Hwb) as (w' & Hrun & Hfiles & _).
  exists w'.
  assert (Hledger : files w' base_file =
            Some (to_csv_file
                    (Ledger (map aged
                               (filter (fun e => negb (Z.eqb (weekly_value e) (-2)))
                                  entries))))).
  { rewrite Hfiles. unfold rolled_over. simpl. now rewrite app_nil_r. }
  split; [|split; [exact Hledger|]].
  - unfold main_until_reports, input_attendance_data. rewrite Hline.
    cbn [df_to_dict empty_frame]. rewrite consolidate_attendance_nil.
    unfold base_file_exists. cbn [files print]. rewrite Hf.
    unfold read_previous_weeks, read_csv, read_and_rename.
    cbn [files print]. rewrite Hf, Hread. cbn [weekly_values].
    rewrite main_results_nil. cbn [negb add_attendance_category map].
    now rewrite Hrun.
  - rewrite (read_previous_weeks_ledger _ _ _ _ Hledger). cbn [fst].
    rewrite (filter_aged (-1)), (filter_aged (-2)). simpl.
    rewrite (filter_kept_entries 0), (filter_kept_entries (-1)) by lia.
    reflexivity.
Qed.

Lemma unreadable_report_ages_ledger_witness :
  exists w',
    main_until_reports false 160 sample_now "YTD Student Attendance Extract.csv"
      "base_file.csv" [] [] [] [] []
      (ledger_world "base_file.csv" [ledger_row 1001 (-1); ledger_row 1002 (-2)])
    = (Ok [], w') /\
    files w' "base_file.csv" =
      Some (to_csv_file (Ledger [ledger_row 1001 (-2)])) /\
    fst (read_previous_weeks "base_file.csv" [] w') =
      Ok ([], [ledger_row 1001 (-2)]).
Proof.
  apply (unreadable_report_ages_ledger 160 sample_now
           "YTD Student Attendance Extract.csv" "base_file.csv" [] [] [] [] []
           (ledger_world "base_file.csv" [ledger_row 1001 (-1); ledger_row 1002 (-2)])
           FileNotFoundError
           (fun _ : column_mapping =>
              Ok (Ledger [ledger_row 1001 (-1); ledger_row 1002 (-2)]))
           [ledger_row 1001 (-1); ledger_row 1002 (-2)]).
  - reflexivity.
  - reflexivity.
  - reflexivity.
  - repeat constructor; simpl; lia.
  - reflexivity.
  - reflexivity.
Defined.

(** An age that can be decreased twice. *)
Definition in_range_twice (e : ledger_entry) : Prop :=
  - 2 ^ 63 + 1 < weekly_value e < 2 ^ 63.

Lemma rolled_over_in_range (entries : list ledger_entry)
    (current_week_data : list row) :
  Forall in_range_twice entries ->
  Forall in_range (rolled_over entries current_week_data).
Proof.
  intros H. unfold rolled_over. apply Forall_app. split.
  - apply Forall_forall. intros e He. apply in_map_iff in He.
    destruct He as (e0 & <- & He0). apply filter_In in He0.
    destruct He0 as [He0 _].
    rewrite Forall_forall in H. specialize (H _ He0).
    unfold in_range, in_range_twice, aged in *. simpl. lia.
  - apply Forall_forall. intros e He. apply in_map_iff in He.
    destruct He as (r & <- & _). unfold in_range. simpl. lia.
Qed.

Lemma in_range_twice_in_range (entries : list ledger_entry) :
  Forall in_range_twice entries -> Forall in_range entries.
Proof.
  apply Forall_impl. intros e. unfold in_range, in_range_twice. lia.
Qed.

Lemma filter_prepared_zero (current_week_data : list row) :
  filter (fun e => Z.eqb (weekly_value e) 0)
    (prepare_current_week_data current_week_data)
  = [].
Proof.
  unfold prepare_current_week_data.
  induction current_week_data as [|r l IH]; simpl; auto.
Qed.

(** On a ledger that holds the last two weeks only, a second rollover of
    the same snapshot leaves that snapshot alone. *)
Lemma rolled_over_twice (entries : list ledger_entry) (current_week_data : list row) :
  Forall (fun e => weekly_value e = -1 \/ weekly_value e = -2) entries ->
  rolled_over (rolled_over entries current_week_data) current_week_data
  = (map (fun r => mk_entry r (-2)) current_week_data
     ++ map (fun r => mk_entry r (-1)) current_week_data)%list.
Proof.
  intros H. unfold rolled_over at 1. f_equal.
  unfold rolled_over. rewrite filter_app, map_app.
  assert (H1 : filter (fun e => negb (Z.eqb (weekly_value e) (-2)))
                 (map aged
                    (filter (fun e => negb (Z.eqb (weekly_value e) (-2))) entries))
               = []).
  { induction H as [|e l He _ IH]; simpl; auto.
    destruct He as [He|He]; rewrite He; simpl; auto.
    rewrite He. simpl. exact IH. }
  rewrite H1. simpl.
  induction current_week_data as [|r l IH]; simpl; auto.
  unfold aged at 1. simpl. now rewrite IH.
Qed.

(** Two runs with testing mode off on the same snapshot (the second at any
    time, the ages of the ledger decreasable twice) roll the ledger over
    twice.  The run after them reads the snapshot itself as the week before
    and as the week before that, each after what the ledger held at ages 1
    and 0.  On a ledger of the last two weeks only, the base file is then
    the snapshot at age -2 followed by the snapshot at age -1: the two
    earlier weeks are gone. *)
Theorem second_rollover_loses_a_week (now later : datetime)
    (current_week_data : list row) (base_file_path : string)
    (mapping : column_mapping) (w : world) (f : file)
    (entries : list ledger_entry) :
  files w base_file_path = Some f ->
  f mapping = Ok (Ledger entries) ->
  Forall in_range_twice entries ->
  writable w base_file_path = true ->
  writable w (backup_file_path base_file_path now) = true ->
  writable w (backup_file_path base_file_path later) = true ->
  exists w1 w2,
    update_base_file false now current_week_data base_file_path mapping w
      = (Ok tt, w1) /\
    update_base_file false later current_week_data base_file_path mapping w1
      = (Ok tt, w2) /\
    files w2 base_file_path =
      Some (to_csv_file
              (Ledger (rolled_over (rolled_over entries current_week_data)
                         current_week_data))) /\
    fst (read_previous_weeks base_file_path mapping w2) =
      Ok ((map aged (map aged (filter (fun e => Z.eqb (weekly_value e) 1) entries))
           ++ prepare_current_week_data current_week_data)%list,
          (map aged (map aged (filter (fun e => Z.eqb (weekly_value e) 0) entries))
           ++ map aged (prepare_current_week_data current_week_data))%list) /\
    (Forall (fun e => weekly_value e = -1 \/ weekly_value e = -2) entries ->
     files w2 base_file_path =
       Some (to_csv_file
               (Ledger (map (fun r => mk_entry r (-2)) current_week_data
                        ++ map (fun r => mk_entry r (-1)) current_week_data)%list))).
Proof.
  intros Hf Hread Hrange Hw Hwb Hwl.
  destruct (update_base_file_returns now current_week_data base_file_path mapping
              w f entries Hf Hread (in_range_twice_in_range _ Hrange) Hw Hwb)
    as (w1 & Hrun1 & Hfiles1 & Hperm1).
  destruct (update_base_file_returns later current_week_data base_file_path mapping
              w1 _ (rolled_over entries current_week_data) Hfiles1 eq_refl
              (rolled_over_in_range _ _ Hrange))
    as (w2 & Hrun2 & Hfiles2 & _); try (rewrite Hperm1; assumption).
  exists w1, w2. split; [exact Hrun1|]. split; [exact Hrun2|].
  split; [exact Hfiles2|]. split.
  - rewrite (read_previous_weeks_ledger _ _ _ _ Hfiles2). cbn [fst].
    unfold rolled_over at 1 3. rewrite !filter_app.
    rewrite filter_prepared_one, filter_prepared_two, app_nil_r.
    rewrite (filter_aged (-1)), (filter_aged (-2)).
    change (-1 + 1) with 0. change (-2 + 1) with (-1).
    rewrite (filter_kept_entries 0), (filter_kept_entries (-1)) by lia.
    unfold rolled_over. rewrite !filter_app, !map_app.
    rewrite (filter_aged 0), (filter_aged (-1)).
    change (0 + 1) with 1. change (-1 + 1) with 0.
    rewrite (filter_kept_entries 1), (filter_kept_entries 0) by lia.
    fold (prepare_current_week_data current_week_data).
    now rewrite filter_prepared_zero, app_nil_r, filter_prepared_one.
  - intros Hordinary. rewrite Hfiles2. now rewrite rolled_over_twice.
Qed.

Lemma second_rollover_loses_a_week_witness :
  exists w1 w2,
    update_base_file false sample_now [attendance_row 1004 85] "base_file.csv" []
      (ledger_world "base_file.csv" [ledger_row 1001 (-1); ledger_row 1002 (-2)])
      = (Ok tt, w1) /\
    update_base_file false sample_now [attendance_row 1004 85] "base_file.csv" [] w1
      = (Ok tt, w2) /\
    files w2 "base_file.csv" =
      Some (to_csv_file
              (Ledger [mk_entry (attendance_row 1004 85) (-2);
                       mk_entry (attendance_row 1004 85) (-1)])).
Proof.
  destruct (second_rollover_loses_a_week sample_now sample_now
              [attendance_row 1004 85] "base_file.csv" []
              (ledger_world "base_file.csv" [ledger_row 1001 (-1); ledger_row 1002 (-2)])
              (fun _ : column_mapping =>
                 Ok (Ledger [ledger_row 1001 (-1); ledger_row 1002 (-2)]))
              [ledger_row 1001 (-1); ledger_row 1002 (-2)]
              eq_refl eq_refl
              ltac:(repeat constructor; simpl; lia)
              eq_refl eq_refl eq_refl)
    as (w1 & w2 & H1 & H2 & _ & _ & H5).
  exists w1, w2. split; [exact H1|]. split; [exact H2|].
  apply H5.
  constructor; [left; reflexivity|].
  constructor; [right; reflexivity|constructor].
Defined.
